(** * magnet-framer: the image pipeline of [src/main.py]

    A shallow embedding of the crop / scale / pad / composite / rotate
    pipeline and of the batch loop around it, with the properties the
    specification states about them.

    Python [int] is [Z]; Python [float] is IEEE-754 binary64, taken from
    the Standard Library's [SpecFloat] at precision 53; the Pillow
    operations the program calls are modelled by their size and
    pixel-mapping contracts. *)

From Stdlib Require Import ZArith List String Ascii Bool Lia DecimalString.
From Stdlib Require Import QArith Qround Qpower Qabs Qminmax Lqa.
From Stdlib Require Import Floats.SpecFloat.
Import ListNotations.

Local Open Scope Z_scope.

(** ** Python outcomes *)

Inductive exn : Type :=
| ValueError (msg : string)
| ZeroDivisionError
| OverflowError
| TypeError
| FileNotFoundError (path : string).

(** What running a piece of Python gives: a value, [exit(code)]
    (SystemExit), or an uncaught exception. *)
Inductive result (A : Type) : Type :=
| Ok (a : A)
| SystemExit (code : Z)
| Raised (e : exn).

Arguments Ok {A} a.
Arguments SystemExit {A} code.
Arguments Raised {A} e.

(** ** Python floats *)

Module Float64.

Definition prec : Z := 53.
Definition emax : Z := 1024.

Definition float := spec_float.

(** [float(n)] for a Python int: rounded to nearest, ties to even. *)
Definition float_of_int (n : Z) : float := binary_normalize prec emax n 0 false.

Definition fmul (x y : float) : float := SFmul prec emax x y.
Definition fdiv (x y : float) : float := SFdiv prec emax x y.
Definition fltb (x y : float) : bool := SFltb x y.

(** [a / b] on two Python ints.  Both
    operands are image dimensions, far below 2^53, where CPython
    divides the two converted doubles. *)
Definition int_truediv (a b : Z) : result float :=
  if b =? 0 then Raised ZeroDivisionError
  else Ok (fdiv (float_of_int a) (float_of_int b)).

(** [n * x] with [n] an int and [x] a float. *)
Definition int_mul_float (n : Z) (x : float) : float := fmul (float_of_int n) x.

(** The builtin [min(a, b)]: the first argument unless the second
    compares strictly smaller. *)
Definition min (a b : float) : float := if fltb b a then b else a.

(** [int(x)]: truncation toward zero; an infinity and a NaN have
    no int. *)
Definition int_of_float (x : float) : result Z :=
  match x with
  | S754_zero _ => Ok 0
  | S754_infinity _ => Raised OverflowError
  | S754_nan => Raised (ValueError "cannot convert float NaN to integer")
  | S754_finite s m e =>
      let a := match e with
               | Zneg p => Z.pos m / 2 ^ Z.pos p
               | _ => Z.pos m * 2 ^ e
               end in
      Ok (if s then - a else a)
  end.

Definition one : float := float_of_int 1.

End Float64.

(** ** Rounding to nearest even *)

(** Where the quotient [N / T] lies between two integers. *)
Definition location_of (N T : Z) : location :=
  if N mod T =? 0 then loc_Exact else loc_Inexact (2 * (N mod T) ?= T).

(** [N / T] rounded to the nearest integer, ties to even. *)
Definition rne_div (N T : Z) : Z := round_nearest_even (N / T) (location_of N T).

(** A shift record holds the integer part of [N / T] and its location. *)
Definition represents (N T : Z) (mrs : shr_record) : Prop :=
  shr_m mrs = N / T /\ loc_of_shr_record mrs = location_of N T.

(** A positive float with a full 53-bit significand. *)
Definition normal (m : positive) (e : Z) : Prop :=
  2 ^ 52 <= Z.pos m < 2 ^ 53 /\ -1074 <= e <= 971.

(** [2^e] as a rational. *)
Definition pow2 (e : Z) : Q := Qpower 2%Q e.

(** The value of a positive finite float. *)
Definition fval (m : positive) (e : Z) : Q := (inject_Z (Z.pos m) * pow2 e)%Q.

(** [m * 2^e] is a normal float nearest to [x]: within half a unit in
    the last place, and on the same side of every multiple of [2^e]. *)
Definition rounds (x : Q) (m : positive) (e : Z) : Prop :=
  normal m e /\
  (Qabs (fval m e - x) <= pow2 e * (1 # 2))%Q /\
  forall A B : Z, (inject_Z A * pow2 e <= x <= inject_Z B * pow2 e)%Q ->
                  (A <= Z.pos m <= B)%Z.

(** ** Python strings and [os.path] *)

Module Py.

Local Open Scope string_scope.
Local Open Scope Z_scope.

(** [str(n)] for an int. *)
Definition str_of_int (n : Z) : string := NilZero.string_of_int (Z.to_int n).

Fixpoint rfind_from (c : ascii) (s : string) (i acc : Z) : Z :=
  match s with
  | EmptyString => acc
  | String x t => rfind_from c t (i + 1) (if Ascii.eqb x c then i else acc)
  end.

(** [s.rfind(c)]: the index of the last occurrence, or -1. *)
Definition rfind (c : ascii) (s : string) : Z := rfind_from c s 0 (-1).

Definition len (s : string) : Z := Z.of_nat (String.length s).

(** [s[i:j]] for [0 <= i]. *)
Definition slice (s : string) (i j : Z) : string :=
  substring (Z.to_nat i) (Z.to_nat (j - i)) s.

Fixpoint startswith (s p : string) : bool :=
  match p, s with
  | EmptyString, _ => true
  | String c p', String d s' => Ascii.eqb c d && startswith s' p'
  | String _ _, EmptyString => false
  end.

Definition endswith (s p : string) : bool :=
  let n := len s in
  let k := len p in
  (k <=? n) && String.eqb (slice s (n - k) n) p.

Definition sep : ascii := "/"%char.
Definition extsep : ascii := "."%char.

(** The loop of [genericpath._splitext] that skips leading dots: is
    some character of [p[i:dot]] not a dot? *)
Fixpoint has_non_dot (s : string) : bool :=
  match s with
  | EmptyString => false
  | String c t => negb (Ascii.eqb c extsep) || has_non_dot t
  end.

(** [os.path.splitext] on POSIX. *)
Definition splitext (p : string) : string * string :=
  let sepIndex := rfind sep p in
  let dotIndex := rfind extsep p in
  if (sepIndex <? dotIndex) && has_non_dot (slice p (sepIndex + 1) dotIndex)
  then (slice p 0 dotIndex, slice p dotIndex (len p))
  else (p, "").

(** [os.path.join(a, b)] on POSIX. *)
Definition join (a b : string) : string :=
  if startswith b "/" then b
  else if String.eqb a "" || endswith a "/" then a ++ b
  else a ++ "/" ++ b.

Fixpoint lower (s : string) : string :=
  match s with
  | EmptyString => EmptyString
  | String c t =>
      let n := nat_of_ascii c in
      String (if (65 <=? n)%nat && (n <=? 90)%nat then ascii_of_nat (n + 32) else c)
             (lower t)
  end.

End Py.

(** ** The Pillow operations the program calls *)

Module PIL.

Inductive Mode : Type := RGB | RGBA.

(** One pixel, as four 8-bit bands.  In mode [RGB] only the first
    three are the pixel; the fourth is kept at 255. *)
Definition rgba : Type := (Z * Z * Z * Z)%type.

Record Image : Type := mkImage {
  mode   : Mode;
  width  : Z;
  height : Z;
  pixel  : Z -> Z -> rgba          (* column x, row y *)
}.

Definition size (im : Image) : Z * Z := (width im, height im).

Definition red_of   (p : rgba) : Z := let '(r, _, _, _) := p in r.
Definition green_of (p : rgba) : Z := let '(_, g, _, _) := p in g.
Definition blue_of  (p : rgba) : Z := let '(_, _, b, _) := p in b.
Definition alpha_of (p : rgba) : Z := let '(_, _, _, a) := p in a.

Definition opaque (p : rgba) : rgba := (red_of p, green_of p, blue_of p, 255).

(** The four bands of a pixel are bytes. *)
Definition byte_bands (p : rgba) : Prop :=
  0 <= red_of p <= 255 /\ 0 <= green_of p <= 255 /\
  0 <= blue_of p <= 255 /\ 0 <= alpha_of p <= 255.

(** [im.getbands()]. *)
Definition getbands (im : Image) : list string :=
  match mode im with
  | RGB => ["R"; "G"; "B"]%string
  | RGBA => ["R"; "G"; "B"; "A"]%string
  end.

(** [im.getpixel((x, y))]: a tuple with one value per band. *)
Definition getpixel (im : Image) (x y : Z) : list Z :=
  let p := pixel im x y in
  match mode im with
  | RGB => [red_of p; green_of p; blue_of p]
  | RGBA => [red_of p; green_of p; blue_of p; alpha_of p]
  end.

Definition inside (im : Image) (x y : Z) : bool :=
  (0 <=? x) && (x <? width im) && (0 <=? y) && (y <? height im).

Definition copy (im : Image) : Image := im.

(** [im.convert(m)]: RGB to RGBA adds a full alpha band, RGBA to RGB
    drops the alpha band, and the image is copied when it has mode
    [m] already. *)
Definition convert (m : Mode) (im : Image) : Image :=
  match m, mode im with
  | RGBA, RGBA => copy im
  | RGB, RGB => copy im
  | _, _ => mkImage m (width im) (height im) (fun x y => opaque (pixel im x y))
  end.

(** [Image.new(mode, (w, h), color)]. *)
Definition new (m : Mode) (w h : Z) (color : rgba) : result Image :=
  if (w <? 0) || (h <? 0)
  then Raised (ValueError "Width and height must be >= 0")
  else Ok (mkImage m w h (fun _ _ => match m with RGB => opaque color | RGBA => color end)).

(** [im.crop((left, upper, right, lower))]: the region of the box;
    what lies outside the source is zero. *)
Definition crop (im : Image) (box : Z * Z * Z * Z) : result Image :=
  let '(x0, y0, x1, y1) := box in
  if x1 <? x0 then Raised (ValueError "Coordinate 'right' is less than 'left'")
  else if y1 <? y0 then Raised (ValueError "Coordinate 'lower' is less than 'upper'")
  else Ok (mkImage (mode im) (x1 - x0) (y1 - y0)
             (fun x y => if inside im (x0 + x) (y0 + y)
                         then pixel im (x0 + x) (y0 + y)
                         else match mode im with RGB => (0, 0, 0, 255) | RGBA => (0, 0, 0, 0) end)).

(** The resampling filter of [resize] (bicubic by default) computes
    the new pixel values; it is a parameter of the model: from the
    source image and the new size to the new pixels. *)
Definition resampler : Type := Image -> Z -> Z -> Z -> Z -> rgba.

(** [im.resize((w, h))]: the same image when the size does not change,
    a ValueError when a side is below 1. *)
Definition resize (resample : resampler) (im : Image) (w h : Z) : result Image :=
  if (width im =? w) && (height im =? h) then Ok (copy im)
  else if (w <? 1) || (h <? 1) then Raised (ValueError "height and width must be > 0")
  else Ok (mkImage (mode im) w h
             (fun x y => match mode im with
                         | RGB => opaque (resample im w h x y)
                         | RGBA => resample im w h x y
                         end)).

Definition DIV255 (a : Z) : Z :=
  let tmp := a + 128 in Z.shiftr (Z.shiftr tmp 8 + tmp) 8.

(** [BLEND8] of Pillow's paste: [in1] under [in2] through [mask]. *)
Definition BLEND8 (mask in1 in2 : Z) : Z := DIV255 (in1 * (255 - mask) + in2 * mask).

Definition blend (mask : Z) (under over : rgba) : rgba :=
  (BLEND8 mask (red_of under) (red_of over),
   BLEND8 mask (green_of under) (green_of over),
   BLEND8 mask (blue_of under) (blue_of over),
   BLEND8 mask (alpha_of under) (alpha_of over)).

(** [dest.paste(src, (x0, y0), mask)] as the image [dest] becomes.
    Without a mask the box is overwritten; with an RGBA mask its
    alpha band weighs each band of [src] against [dest]; an RGB image
    is no mask. *)
Definition paste (dest src : Image) (at_ : Z * Z) (mask : option Image) : result Image :=
  let '(x0, y0) := at_ in
  let src := match mode dest, mode src with
             | RGB, RGBA => convert RGB src
             | RGBA, RGB => convert RGBA src
             | _, _ => src
             end in
  match option_map mode mask with
  | Some RGB => Raised (ValueError "bad transparency mask")
  | _ =>
    Ok (mkImage (mode dest) (width dest) (height dest)
          (fun x y =>
             if inside src (x - x0) (y - y0) then
               let p := match mask with
                        | None => pixel src (x - x0) (y - y0)
                        | Some m => blend (alpha_of (pixel m (x - x0) (y - y0)))
                                      (pixel dest x y) (pixel src (x - x0) (y - y0))
                        end in
               match mode dest with RGB => opaque p | RGBA => p end
             else pixel dest x y))
  end.

(** [ImageColor.getcolor] on the two colour names the program uses. *)
Definition getcolor (name : string) : result rgba :=
  if String.eqb name "red" then Ok (255, 0, 0, 255)
  else if String.eqb name "white" then Ok (255, 255, 255, 255)
  else Raised (ValueError "unknown color specifier").

(** [ImageOps.expand(image, (left, top, right, bottom), fill)]. *)
Definition expand (im : Image) (border : Z * Z * Z * Z) (fill : string) : result Image :=
  let '(l, t, r, b) := border in
  let w := l + width im + r in
  let h := t + height im + b in
  match getcolor fill with
  | Ok color =>
      match new (mode im) w h color with
      | Ok out => paste out im (l, t) None
      | SystemExit c => SystemExit c
      | Raised e => Raised e
      end
  | SystemExit c => SystemExit c
  | Raised e => Raised e
  end.

(** [im.transpose(Transpose.ROTATE_90)]: a quarter turn counter-clockwise. *)
Definition transpose_ROTATE_90 (im : Image) : Image :=
  mkImage (mode im) (height im) (width im)
    (fun x y => pixel im (width im - 1 - y) x).

(** [im.rotate(90, expand=True)] is that transposition. *)
Definition rotate_90_expand (im : Image) : Image := transpose_ROTATE_90 im.

(** File extensions [Image.save] has a format for. *)
Definition EXTENSION : list string :=
  [".jpg"; ".jpeg"; ".jpe"; ".jfif"; ".png"; ".bmp"; ".gif"; ".tif"; ".tiff"; ".webp"; ".ppm"; ".ico"]%string.

End PIL.

(** ** The program state and its monad *)

Inductive LogLevel : Type := DEBUG | INFO | ERROR.

Record Crop : Type := mkCrop {
  crop_left   : Z;
  crop_top    : Z;
  crop_right  : Z;
  crop_bottom : Z
}.

(** A JSON number is an int or a float. *)
Inductive number : Type :=
| Int (n : Z)
| Float (x : Float64.float).

(** The float a number is in a product with a float. *)
Definition float_of_number (k : number) : Float64.float :=
  match k with
  | Int n => Float64.float_of_int n
  | Float y => y
  end.

(** [k * x] for a JSON number [k] and a float [x]. *)
Definition number_mul_float (k : number) (x : Float64.float) : Float64.float :=
  Float64.fmul (float_of_number k) x.

(** The per-image dictionary [current_config]. *)
Record CurrentConfig : Type := mkCurrentConfig {
  cc_frame_path   : string;
  cc_crop         : Crop;
  cc_scale_factor : number
}.

(** The keys of [config.json] the pipeline reads. *)
Record JsonConfig : Type := mkJsonConfig {
  land_frame_path     : string;
  land_crop           : Crop;
  land_scale_factor   : number;
  port_frame_path     : string;
  port_crop           : Crop;
  port_scale_factor   : number;
  rotate_to_landscape : bool
}.

(** The parsed command line, [config]. *)
Record Config : Type := mkConfig {
  cfg_input  : string;
  cfg_output : string;
  cfg_debug  : bool
}.

(** The mutable world: the files that hold an image (latest write
    first), the log records, and the global [current_config]. *)
Record State : Type := mkState {
  fs             : list (string * PIL.Image);
  log            : list (LogLevel * string);
  current_config : option CurrentConfig
}.

Definition M (A : Type) : Type := State -> result A * State.

Definition ret {A} (a : A) : M A := fun s => (Ok a, s).

Definition bind {A B} (m : M A) (k : A -> M B) : M B :=
  fun s =>
    match m s with
    | (Ok a, s') => k a s'
    | (SystemExit c, s') => (SystemExit c, s')
    | (Raised e, s') => (Raised e, s')
    end.

Definition lift {A} (r : result A) : M A := fun s => (r, s).

(** The builtin [exit(code)]. *)
Definition exit {A} (code : Z) : M A := lift (SystemExit code).

Notation "x <- m ;; k" := (bind m (fun x => k))
  (at level 61, m at next level, right associativity).
Notation "m ;;; k" := (bind m (fun _ => k))
  (at level 61, right associativity).

(** The exit status of the interpreter for an outcome of the main
    program: an uncaught exception ends it with status 1. *)
Definition exit_status {A} (r : result A) : Z :=
  match r with
  | Ok _ => 0
  | SystemExit c => c
  | Raised _ => 1
  end.

(** ** [main.py] *)

Section Main.

Local Open Scope string_scope.
Local Open Scope Z_scope.

(** The resampling filter of Pillow, and the two globals that
    [configure()] sets once before [process()] runs. *)
Variable resample : PIL.resampler.
Variable json_config : JsonConfig.
Variable config : Config.

(** *** Logging, files, globals *)

(** [configure_logging]: the root level is DEBUG in debug mode and
    INFO otherwise; a record below the level is dropped. *)
Definition enabled (lvl : LogLevel) : bool :=
  match lvl with
  | DEBUG => cfg_debug config
  | _ => true
  end.

Definition logging (lvl : LogLevel) (msg : string) : M unit :=
  fun s =>
    (Ok tt,
     if enabled lvl
     then mkState (fs s) (log s ++ [(lvl, msg)]) (current_config s)
     else s).

Definition logging_debug := logging DEBUG.
Definition logging_info := logging INFO.
Definition logging_error := logging ERROR.

Fixpoint lookup (path : string) (files : list (string * PIL.Image)) : option PIL.Image :=
  match files with
  | [] => None
  | (p, im) :: rest => if String.eqb p path then Some im else lookup path rest
  end.

(** [Image.open(path)]. *)
Definition Image_open (path : string) : M PIL.Image :=
  fun s =>
    match lookup path (fs s) with
    | Some im => (Ok im, s)
    | None => (Raised (FileNotFoundError path), s)
    end.

(** [im.save(path)]: the format comes from the extension of the
    path. *)
Definition Image_save (im : PIL.Image) (path : string) : M unit :=
  fun s =>
    let ext := Py.lower (snd (Py.splitext path)) in
    if existsb (String.eqb ext) PIL.EXTENSION
    then (Ok tt, mkState ((path, im) :: fs s) (log s) (current_config s))
    else (Raised (ValueError ("unknown file extension: " ++ ext)), s).

(** The name of [path] inside directory [dir], when it lies directly
    in it. *)
Definition name_in (dir path : string) : option string :=
  let pre := Py.join dir "" in
  let name := Py.slice path (Py.len pre) (Py.len path) in
  if Py.startswith path pre && negb (String.eqb name "") && (Py.rfind Py.sep name <? 0)
  then Some name else None.

Fixpoint names_in (dir : string) (files : list (string * PIL.Image)) : list string :=
  match files with
  | [] => []
  | (p, _) :: rest =>
      match name_in dir p with
      | Some n => n :: names_in dir rest
      | None => names_in dir rest
      end
  end.

(** [os.listdir(dir)], in the order of the store. *)
Definition os_listdir (dir : string) : M (list string) :=
  fun s => (Ok (nodup string_dec (names_in dir (fs s))), s).

(** Reading a key of the global [current_config]; subscripting
    [None] is a TypeError. *)
Definition get_current_config : M CurrentConfig :=
  fun s =>
    match current_config s with
    | Some cc => (Ok cc, s)
    | None => (Raised TypeError, s)
    end.

Definition put_current_config (cc : option CurrentConfig) : M unit :=
  fun s => (Ok tt, mkState (fs s) (log s) cc).

(** [str(im.size)]. *)
Definition str_of_size (im : PIL.Image) : string :=
  "(" ++ Py.str_of_int (PIL.width im) ++ ", " ++ Py.str_of_int (PIL.height im) ++ ")".

(** *** The pipeline stages *)

Definition crop_image (image : PIL.Image) : M PIL.Image :=
  cc <- get_current_config ;;
  let crop := cc_crop cc in
  let coordinates :=
    (crop_left crop, crop_top crop,
     PIL.width image - crop_right crop, PIL.height image - crop_bottom crop) in
  cropped_image <- lift (PIL.crop image coordinates) ;;
  ret cropped_image.

(** Line 57: the factor applied to both sides. *)
Definition scale_factor_of (scale_factor : number) (image frame : PIL.Image)
  : result Float64.float :=
  match Float64.int_truediv (PIL.width frame) (PIL.width image) with
  | Ok qw =>
      match Float64.int_truediv (PIL.height frame) (PIL.height image) with
      | Ok qh => Ok (number_mul_float scale_factor (Float64.min qw qh))
      | SystemExit c => SystemExit c
      | Raised e => Raised e
      end
  | SystemExit c => SystemExit c
  | Raised e => Raised e
  end.

Definition scale_image (image frame : PIL.Image) : M PIL.Image :=
  cc <- get_current_config ;;
  let scale_factor := cc_scale_factor cc in
  scale_factor <- lift (scale_factor_of scale_factor image frame) ;;
  new_width <- lift (Float64.int_of_float (Float64.int_mul_float (PIL.width image) scale_factor)) ;;
  new_height <- lift (Float64.int_of_float (Float64.int_mul_float (PIL.height image) scale_factor)) ;;
  scaled_image <- lift (PIL.resize resample image new_width new_height) ;;
  ret scaled_image.

(** Lines 65-73: the four paddings. *)
Definition padding_of (image frame : PIL.Image) : Z * Z * Z * Z :=
  let horizontal_correction := 0 in
  let vertical_correction := 0 in
  let left_padding := (PIL.width frame - PIL.width image) / 2 + horizontal_correction in
  let top_padding := (PIL.height frame - PIL.height image) / 2 + vertical_correction in
  let right_padding := PIL.width frame - PIL.width image - left_padding in
  let bottom_padding := PIL.height frame - PIL.height image - top_padding in
  (left_padding, top_padding, right_padding, bottom_padding).

Definition fill_color : string := if cfg_debug config then "red" else "white".

Definition pad_image (image frame : PIL.Image) : M PIL.Image :=
  let padding := padding_of image frame in
  padded_image <- lift (PIL.expand image padding fill_color) ;;
  ret padded_image.

Definition frame_image (image frame : PIL.Image) : M PIL.Image :=
  let x := (PIL.width frame - PIL.width image) / 2 in
  let y := (PIL.height frame - PIL.height image) / 2 in
  let framed_image := PIL.copy image in
  framed_image <- lift (PIL.paste framed_image frame (x, y) (Some frame)) ;;
  let framed_image := PIL.convert PIL.RGB framed_image in
  ret framed_image.

Definition rotate_image (image : PIL.Image) : PIL.Image :=
  let rotated_image := PIL.rotate_90_expand image in
  rotated_image.

Definition image_orientation (image : PIL.Image) : string :=
  if PIL.width image >? PIL.height image then "landscape"
  else if PIL.width image <? PIL.height image then "portrait"
  else "square".

Definition output_filename_with_postfix (filename postfix : string) : M string :=
  let splitted_filename := Py.splitext filename in
  let newFilename :=
    Py.join (cfg_output config) (fst splitted_filename ++ postfix ++ snd splitted_filename) in
  logging_debug ("generated output filename: " ++ newFilename) ;;;
  ret newFilename.

Definition save_image (image : PIL.Image) (filename postfix : string) : M unit :=
  final_name <- output_filename_with_postfix filename postfix ;;
  Image_save (PIL.convert PIL.RGB image) final_name.

Definition set_current_config (image : PIL.Image) : M unit :=
  if String.eqb (image_orientation image) "landscape" then
    put_current_config (Some (mkCurrentConfig
      (land_frame_path json_config) (land_crop json_config) (land_scale_factor json_config)))
  else if String.eqb (image_orientation image) "portrait" then
    put_current_config (Some (mkCurrentConfig
      (port_frame_path json_config) (port_crop json_config) (port_scale_factor json_config)))
  else
    logging_error "Can't process square image" ;;;
    exit 1.

Definition unset_current_config : M unit := put_current_config None.

(** *** The batch loop *)

(** [for x in xs: body(x)]. *)
Fixpoint for_each {A} (xs : list A) (body : A -> M unit) : M unit :=
  match xs with
  | [] => ret tt
  | x :: rest => body x ;;; for_each rest body
  end.

(** Lines 173-176: what is saved as the final image. *)
Definition final_image_of (original_image framed_image : PIL.Image) : PIL.Image :=
  if rotate_to_landscape json_config
     && String.eqb (image_orientation original_image) "portrait"
  then rotate_image framed_image
  else framed_image.

(** The body of the loop of [process] for one [.jpg] entry; [counter]
    is the [itertools.count(start=0)] of that entry. *)
Definition process_file (filename : string) : M unit :=
  let counter := 0 in
  let img_path := Py.join (cfg_input config) filename in
  logging_info ("file " ++ img_path ++ " status: processing...") ;;;
  original_image <- Image_open img_path ;;
  let original_image := PIL.convert PIL.RGBA original_image in
  logging_debug "Image loaded successfully" ;;;
  logging_debug ("Image size: " ++ str_of_size original_image) ;;;
  logging_debug ("Image orientation: " ++ image_orientation original_image) ;;;
  set_current_config original_image ;;;
  counter <- (if cfg_debug config
              then save_image original_image filename
                     ("_" ++ Py.str_of_int counter ++ "_original") ;;;
                   ret (counter + 1)
              else ret counter) ;;
  cc <- get_current_config ;;
  frame <- Image_open (cc_frame_path cc) ;;
  let frame := PIL.convert PIL.RGBA frame in
  logging_debug "Frame loaded successfully" ;;;
  logging_debug ("Frame size: " ++ str_of_size frame) ;;;
  logging_debug ("Frame orientation: " ++ image_orientation frame) ;;;
  cropped_image <- crop_image original_image ;;
  logging_debug ("Image cropped to size " ++ str_of_size cropped_image) ;;;
  counter <- (if cfg_debug config
              then save_image cropped_image filename
                     ("_" ++ Py.str_of_int counter ++ "_cropped") ;;;
                   ret (counter + 1)
              else ret counter) ;;
  scaled_image <- scale_image cropped_image frame ;;
  logging_debug ("Image scaled to size " ++ str_of_size scaled_image) ;;;
  counter <- (if cfg_debug config
              then save_image scaled_image filename
                     ("_" ++ Py.str_of_int counter ++ "_scaled") ;;;
                   ret (counter + 1)
              else ret counter) ;;
  padded_image <- pad_image scaled_image frame ;;
  logging_debug ("Image padded to size " ++ str_of_size padded_image) ;;;
  counter <- (if cfg_debug config
              then save_image padded_image filename
                     ("_" ++ Py.str_of_int counter ++ "_padded") ;;;
                   ret (counter + 1)
              else ret counter) ;;
  framed_image <- frame_image padded_image frame ;;
  logging_debug "Image framed successfully" ;;;
  let final_image := final_image_of original_image framed_image in
  save_image final_image filename
    (if cfg_debug config then "_" ++ Py.str_of_int counter ++ "_framed" else "_framed") ;;;
  unset_current_config ;;;
  logging_info ("file " ++ img_path ++ " status: done").

Definition process_entry (filename : string) : M unit :=
  if Py.endswith filename ".jpg" then process_file filename else ret tt.

Definition process : M unit :=
  names <- os_listdir (cfg_input config) ;;
  for_each names process_entry.

End Main.

(** ** Vocabulary of the statements *)

Section Vocabulary.

Variable config : Config.

Local Open Scope string_scope.
Local Open Scope list_scope.

(** The name [save_image] writes to for a postfix. *)
Definition saved_name (filename postfix : string) : string :=
  Py.join (cfg_output config)
    (fst (Py.splitext filename) ++ postfix ++ snd (Py.splitext filename))%string.

(** The log records of an entry up to the refusal of a square image. *)
Definition square_log (filename : string) (im : PIL.Image) : list (LogLevel * string) :=
  [(INFO, "file " ++ Py.join (cfg_input config) filename ++ " status: processing...")%string]
  ++ (if cfg_debug config
      then [(DEBUG, "Image loaded successfully");
            (DEBUG, ("Image size: " ++ str_of_size (PIL.convert PIL.RGBA im))%string);
            (DEBUG, "Image orientation: square")]
      else [])
  ++ [(ERROR, "Can't process square image")].

End Vocabulary.

(** An action adds files to the store, all of mode RGB, whatever its
    outcome. *)
Definition rgb_entry (e : string * PIL.Image) : Prop :=
  PIL.mode (snd e) = PIL.RGB /\ PIL.getbands (snd e) = ["R"; "G"; "B"]%string.

Definition writes_rgb {A} (m : M A) : Prop :=
  forall s, exists written,
    fs (snd (m s)) = written ++ fs s /\ Forall rgb_entry written.

(** A multiplier between 2^-10 and 2^10. *)
Definition moderate (k : number) : Prop :=
  exists m e, float_of_number k = S754_finite false m e /\ normal m e /\ (-62 <= e <= -43)%Z.

(** The factor of the specification, in exact arithmetic. *)
Definition spec_factor (multiplier : Q) (image frame : PIL.Image) : Q :=
  (multiplier * Qmin (inject_Z (PIL.width frame) / inject_Z (PIL.width image))
                     (inject_Z (PIL.height frame) / inject_Z (PIL.height image)))%Q.

(** The size the specification gives the scaled image:
    floor(original x factor) on each axis. *)
Definition spec_scaled_size (multiplier : Q) (image frame : PIL.Image) : Z * Z :=
  (Qfloor (inject_Z (PIL.width image) * spec_factor multiplier image frame),
   Qfloor (inject_Z (PIL.height image) * spec_factor multiplier image frame)).

(** A state whose current parameters have multiplier 1.0. *)
Definition unit_scale_state : State :=
  mkState [] []
    (Some (mkCurrentConfig "frames/port.png"%string (mkCrop 0 0 0 0) (Float Float64.one))).

(** ** A small concrete run *)

Module Sample.

Local Open Scope string_scope.
Local Open Scope Z_scope.

(** Nearest-neighbour resampling, to run the pipeline on examples. *)
Definition nearest : PIL.resampler :=
  fun im w h x y => PIL.pixel im (x * PIL.width im / w) (y * PIL.height im / h).

Definition photo (w h : Z) : PIL.Image :=
  PIL.mkImage PIL.RGB w h (fun x y => (x, y, x + y, 255)).

(** A frame that is opaque blue on its border and transparent inside. *)
Definition border_frame (w h : Z) : PIL.Image :=
  PIL.mkImage PIL.RGBA w h
    (fun x y => if (x =? 0) || (y =? 0) || (x =? w - 1) || (y =? h - 1)
                then (0, 0, 200, 255) else (0, 0, 0, 0)).

Definition json_config : JsonConfig :=
  mkJsonConfig "frames/land.png" (mkCrop 1 1 1 1) (Float Float64.one)
               "frames/port.png" (mkCrop 1 0 1 0) (Float Float64.one)
               true.

Definition config (debug : bool) : Config := mkConfig "in" "out" debug.

Definition files : list (string * PIL.Image) :=
  [ ("in/a.jpg", photo 8 6);
    ("in/notes.txt", photo 1 1);
    ("in/b.jpg", photo 6 8);
    ("in/c.jpg", photo 5 5);
    ("in/d.jpg", photo 9 6);
    ("frames/land.png", border_frame 6 4);
    ("frames/port.png", border_frame 4 6) ].

Definition initial : State := mkState files [] None.

End Sample.

(** ** The start of the program *)

Section Startup.

Local Open Scope string_scope.
Local Open Scope Z_scope.

Variable resample : PIL.resampler.
Variable json_config : JsonConfig.
Variable config : Config.

(** [os.path.isdir], which the program asks of the file system. *)
Variable isdir : string -> bool.

Definition verify_input : M unit :=
  (if negb (isdir (cfg_input config))
   then logging_error config ("Input directory " ++ cfg_input config ++ " does not exist") ;;;
        exit 1
   else ret tt) ;;;
  (if negb (isdir (cfg_output config))
   then logging_error config ("Output directory " ++ cfg_output config ++ " does not exist") ;;;
        exit 1
   else ret tt).

(** The main program from line 225 on, once [configure()] has set
    [json_config] and [config]. *)
Definition main : M unit :=
  logging_info config "--- magnet-framer start ---" ;;;
  verify_input ;;;
  process resample json_config config ;;;
  logging_info config "---  magnet-framer End  ---".

End Startup.

(** ** Vocabulary of the further statements *)

Section Parameters.

Local Open Scope string_scope.
Local Open Scope list_scope.

Variable json_config : JsonConfig.
Variable config : Config.

(** The parameter set [set_current_config] stores for an image that is
    not square. *)
Definition selected_config (image : PIL.Image) : CurrentConfig :=
  if String.eqb (image_orientation image) "landscape"
  then mkCurrentConfig (land_frame_path json_config) (land_crop json_config)
         (land_scale_factor json_config)
  else mkCurrentConfig (port_frame_path json_config) (port_crop json_config)
         (port_scale_factor json_config).

(** The store when the frame is opened: in debug mode the snapshot of
    the original is in it already. *)
Definition store_at_frame (filename : string) (original : PIL.Image)
    (files : list (string * PIL.Image)) : list (string * PIL.Image) :=
  (if cfg_debug config
   then [(saved_name config filename "_0_original", PIL.convert PIL.RGB original)]
   else []) ++ files.

(** The two status records of an entry. *)
Definition status_log (filename : string) : list (LogLevel * string) :=
  [(INFO, "file " ++ Py.join (cfg_input config) filename ++ " status: processing...")%string;
   (INFO, "file " ++ Py.join (cfg_input config) filename ++ " status: done")%string].

(** The entries of a listing the loop processes. *)
Definition jpg_entries (names : list string) : list string :=
  filter (fun n => Py.endswith n ".jpg") names.

End Parameters.

(** An action calls [exit] only with a status and in a state that
    satisfy [Q]; with [Q] never true, it never calls [exit]. *)
Definition exit_only_when {A} (Q : Z -> State -> Prop) (m : M A) : Prop :=
  forall s c s', m s = (SystemExit c, s') -> Q c s'.

(** The state in which [set_current_config] refuses a square image. *)
Definition after_square_error (c : Z) (s : State) : Prop :=
  c = 1%Z /\ last (log s) (INFO, ""%string) = (ERROR, "Can't process square image"%string).

(** The sizes Pillow takes without complaint: [Image.open] and
    [Image.crop] warn above 89478485 pixels and refuse above twice as
    many, and the JPEG writer refuses a side above 65500. *)
Definition within_pillow_limits (image : PIL.Image) : Prop :=
  (PIL.width image <= 65500 /\ PIL.height image <= 65500 /\
   PIL.width image * PIL.height image <= 89478485)%Z.

(** ** More sample stores *)

Module Album.

Local Open Scope string_scope.
Local Open Scope Z_scope.

(** An input directory without a square image. *)
Definition files : list (string * PIL.Image) :=
  [ ("in/a.jpg", Sample.photo 8 6);
    ("in/notes.txt", Sample.photo 1 1);
    ("in/b.jpg", Sample.photo 6 8);
    ("frames/land.png", Sample.border_frame 6 4);
    ("frames/port.png", Sample.border_frame 4 6) ].

Definition initial : State := mkState files [] None.

(** An input directory whose only image has an upper-case extension. *)
Definition upper_case : State :=
  mkState [ ("in/A.JPG", Sample.photo 8 6); ("in/notes.txt", Sample.photo 1 1) ] [] None.

(** A store without the frame files. *)
Definition frameless : State := mkState [ ("in/a.jpg", Sample.photo 8 6) ] [] None.

(** A state whose current crop takes the whole width. *)
Definition narrow : State :=
  mkState Sample.files []
    (Some (mkCurrentConfig "frames/land.png" (mkCrop 3 0 5 0) (Float Float64.one))).

(** A command line that writes into the input directory. *)
Definition in_place : Config := mkConfig "in" "in" false.

End Album.


(** * Properties *)

(** ** Orientation *)

(** C4: [image_orientation] answers landscape exactly when the width
    is strictly greater than the height, portrait exactly when it is
    strictly less, and square exactly when the two are equal. *)
Theorem image_orientation_spec (image : PIL.Image) :
  (image_orientation image = "landscape"%string <-> PIL.width image > PIL.height image) /\
  (image_orientation image = "portrait"%string <-> PIL.width image < PIL.height image) /\
  (image_orientation image = "square"%string <-> PIL.width image = PIL.height image).
Proof.
  unfold image_orientation.
  destruct (Z.gtb_spec (PIL.width image) (PIL.height image)) as [Hgt | Hle];
    [| destruct (Z.ltb_spec (PIL.width image) (PIL.height image)) as [Hlt | Hge]];
    repeat split; intro H; try discriminate H; try reflexivity; lia.
Qed.

(** ** The monad *)

Lemma bind_ok {A B} (m : M A) (k : A -> M B) (s s1 : State) (a : A) :
  m s = (Ok a, s1) -> bind m k s = k a s1.
Proof. intros H. unfold bind. now rewrite H. Qed.

Lemma bind_ok_inv {A B} (m : M A) (k : A -> M B) (s s' : State) (b : B) :
  bind m k s = (Ok b, s') ->
  exists a s1, m s = (Ok a, s1) /\ k a s1 = (Ok b, s').
Proof.
  unfold bind. destruct (m s) as [[a | c | e] s1]; intros H; try discriminate H.
  now exists a, s1.
Qed.

Lemma lift_ok_inv {A} (r : result A) (s s' : State) (a : A) :
  lift r s = (Ok a, s') -> r = Ok a /\ s' = s.
Proof. unfold lift. intros H. inversion H. now split. Qed.

(** ** Cropping *)

(** C6: with margins, four non-negative integers, that leave a positive
    width and height, [crop_image] returns a new image of exactly
    (width - left - right, height - top - bottom), in the mode of the
    source, and each of its pixels is the pixel of the source at the
    same place of the cropped rectangle.  The rectangle has at most
    178956970 pixels, as every rectangle of an image that [Image.open]
    returned has: Pillow refuses to cut a larger one. *)
Theorem crop_image_spec (image : PIL.Image) (s : State) (cc : CurrentConfig) :
  current_config s = Some cc ->
  0 <= crop_left (cc_crop cc) -> 0 <= crop_top (cc_crop cc) ->
  0 <= crop_right (cc_crop cc) -> 0 <= crop_bottom (cc_crop cc) ->
  crop_left (cc_crop cc) + crop_right (cc_crop cc) < PIL.width image ->
  crop_top (cc_crop cc) + crop_bottom (cc_crop cc) < PIL.height image ->
  (PIL.width image - crop_left (cc_crop cc) - crop_right (cc_crop cc))
  * (PIL.height image - crop_top (cc_crop cc) - crop_bottom (cc_crop cc)) <= 178956970 ->
  exists out,
    crop_image image s = (Ok out, s) /\
    PIL.size out =
      (PIL.width image - crop_left (cc_crop cc) - crop_right (cc_crop cc),
       PIL.height image - crop_top (cc_crop cc) - crop_bottom (cc_crop cc)) /\
    PIL.mode out = PIL.mode image /\
    forall x y, 0 <= x < PIL.width out -> 0 <= y < PIL.height out ->
      PIL.getpixel out x y =
      PIL.getpixel image (crop_left (cc_crop cc) + x) (crop_top (cc_crop cc) + y).
Proof.
  intros Hcc Hl Ht Hr Hb Hw Hh _.
  destruct cc as [path [l t r b] k]; cbn [cc_crop crop_left crop_top crop_right crop_bottom] in *.
  unfold crop_image, bind, get_current_config. rewrite Hcc.
  cbn [cc_crop crop_left crop_top crop_right crop_bottom].
  unfold lift, PIL.crop.
  destruct (Z.ltb_spec (PIL.width image - r) l) as [Hbad | _]; [lia |].
  destruct (Z.ltb_spec (PIL.height image - b) t) as [Hbad | _]; [lia |].
  eexists. split; [reflexivity |].
  unfold PIL.size; cbn [PIL.width PIL.height PIL.mode].
  split; [f_equal; lia |]. split; [reflexivity |].
  intros x y Hx Hy.
  unfold PIL.getpixel; cbn [PIL.pixel PIL.mode].
  assert (Hin : PIL.inside image (l + x) (t + y) = true).
  { unfold PIL.inside. rewrite !andb_true_iff, !Z.leb_le, !Z.ltb_lt. lia. }
  now rewrite Hin.
Qed.

(** ** Padding *)

(** C2: for an image no larger than the frame, [pad_image] returns an
    image of exactly the frame's size; the left and top paddings are
    the floors of half the differences, the right and bottom ones the
    remainders, so that each pair sums to the difference; the scaled
    image sits at (left, top) and every other pixel of the canvas is
    the fully opaque fill colour, red in debug mode and white
    otherwise. *)
Theorem pad_image_spec (config : Config) (image frame : PIL.Image) (s : State) :
  0 <= PIL.width image <= PIL.width frame ->
  0 <= PIL.height image <= PIL.height frame ->
  exists out lp tp rp bp,
    pad_image config image frame s = (Ok out, s) /\
    PIL.size out = (PIL.width frame, PIL.height frame) /\
    padding_of image frame = (lp, tp, rp, bp) /\
    lp = Qfloor (inject_Z (PIL.width frame - PIL.width image) / inject_Z 2) /\
    tp = Qfloor (inject_Z (PIL.height frame - PIL.height image) / inject_Z 2) /\
    rp = PIL.width frame - PIL.width image - lp /\
    bp = PIL.height frame - PIL.height image - tp /\
    lp + rp = PIL.width frame - PIL.width image /\
    tp + bp = PIL.height frame - PIL.height image /\
    0 <= lp /\ 0 <= tp /\ 0 <= rp /\ 0 <= bp /\
    forall x y, 0 <= x < PIL.width frame -> 0 <= y < PIL.height frame ->
      if (lp <=? x) && (x <? lp + PIL.width image) && (tp <=? y) && (y <? tp + PIL.height image)
      then PIL.getpixel out x y = PIL.getpixel image (x - lp) (y - tp)
      else PIL.pixel out x y =
           (if cfg_debug config then (255, 0, 0, 255) else (255, 255, 255, 255)).
Proof.
  intros Hw Hh.
  set (dw := PIL.width frame - PIL.width image).
  set (dh := PIL.height frame - PIL.height image).
  assert (Hpad : padding_of image frame = (dw / 2, dh / 2, dw - dw / 2, dh - dh / 2)).
  { unfold padding_of, dw, dh. now rewrite !Z.add_0_r. }
  assert (Hl := Z.div_pos dw 2 ltac:(lia) ltac:(lia)).
  assert (Ht := Z.div_pos dh 2 ltac:(lia) ltac:(lia)).
  assert (Hl2 : 2 * (dw / 2) <= dw) by (apply Z.mul_div_le; lia).
  assert (Ht2 : 2 * (dh / 2) <= dh) by (apply Z.mul_div_le; lia).
  unfold pad_image, bind, lift. rewrite Hpad. unfold PIL.expand.
  assert (Hcol : PIL.getcolor (fill_color config) =
                 Ok (if cfg_debug config then (255, 0, 0, 255) else (255, 255, 255, 255))).
  { unfold fill_color. now destruct (cfg_debug config). }
  rewrite Hcol. unfold PIL.new.
  replace (dw / 2 + PIL.width image + (dw - dw / 2)) with (PIL.width frame) by (unfold dw; lia).
  replace (dh / 2 + PIL.height image + (dh - dh / 2)) with (PIL.height frame) by (unfold dh; lia).
  destruct (Z.ltb_spec (PIL.width frame) 0) as [Hbad | _]; [lia |].
  destruct (Z.ltb_spec (PIL.height frame) 0) as [Hbad | _]; [lia |].
  cbn [orb]. unfold PIL.paste; cbn [PIL.mode option_map].
  eexists. exists (dw / 2), (dh / 2), (dw - dw / 2), (dh - dh / 2).
  split; [reflexivity |].
  split; [reflexivity |]. split; [reflexivity |].
  split; [unfold dw; apply Zdiv_Qdiv |]. split; [unfold dh; apply Zdiv_Qdiv |].
  repeat (split; [lia |]).
  intros x y Hx Hy.
  unfold PIL.getpixel; cbn [PIL.pixel PIL.mode].
  assert (Hsame : match PIL.mode image, PIL.mode image with
                  | PIL.RGB, PIL.RGBA => PIL.convert PIL.RGB image
                  | PIL.RGBA, PIL.RGB => PIL.convert PIL.RGBA image
                  | _, _ => image
                  end = image) by now destruct (PIL.mode image).
  rewrite Hsame.
  assert (Hin : PIL.inside image (x - dw / 2) (y - dh / 2) =
                (dw / 2 <=? x) && (x <? dw / 2 + PIL.width image) &&
                (dh / 2 <=? y) && (y <? dh / 2 + PIL.height image)).
  { unfold PIL.inside. apply eq_true_iff_eq.
    rewrite !andb_true_iff, !Z.leb_le, !Z.ltb_lt. lia. }
  rewrite <- Hin.
  destruct (PIL.inside image (x - dw / 2) (y - dh / 2)).
  - destruct (PIL.mode image); reflexivity.
  - destruct (PIL.mode image), (cfg_debug config); reflexivity.
Qed.

(** ** Compositing *)

Lemma DIV255_mul_255 (v : Z) : 0 <= v <= 255 -> PIL.DIV255 (v * 255) = v.
Proof.
  intros Hv. unfold PIL.DIV255. rewrite !Z.shiftr_div_pow2 by lia.
  change (2 ^ 8) with 256.
  assert (H1 : (v * 255 + 128) / 256 = if v <=? 128 then v else v - 1).
  { destruct (Z.leb_spec v 128); symmetry; apply Z.div_unique with (r := if v <=? 128 then 128 - v else 384 - v);
      destruct (Z.leb_spec v 128); lia. }
  rewrite H1. symmetry.
  destruct (Z.leb_spec v 128).
  - apply Z.div_unique with (r := 128); lia.
  - apply Z.div_unique with (r := 127); lia.
Qed.

Lemma BLEND8_transparent (under over : Z) :
  0 <= under <= 255 -> PIL.BLEND8 0 under over = under.
Proof.
  intros H. unfold PIL.BLEND8.
  replace (under * (255 - 0) + over * 0) with (under * 255) by lia.
  now apply DIV255_mul_255.
Qed.

Lemma BLEND8_opaque (under over : Z) :
  0 <= over <= 255 -> PIL.BLEND8 255 under over = over.
Proof.
  intros H. unfold PIL.BLEND8.
  replace (under * (255 - 255) + over * 255) with (over * 255) by lia.
  now apply DIV255_mul_255.
Qed.

(** C3: on a canvas and a frame of the same size, [frame_image]
    returns an image of mode RGB, three bands and no alpha; where the
    frame is fully transparent the output pixel is the pixel of the
    padded canvas, and where the frame is fully opaque it is the pixel
    of the frame. *)
Theorem frame_image_spec (image frame : PIL.Image) (s : State) :
  PIL.mode frame = PIL.RGBA ->
  PIL.size image = PIL.size frame ->
  exists out,
    frame_image image frame s = (Ok out, s) /\
    PIL.mode out = PIL.RGB /\
    PIL.getbands out = ["R"; "G"; "B"]%string /\
    PIL.size out = PIL.size frame /\
    forall x y, 0 <= x < PIL.width frame -> 0 <= y < PIL.height frame ->
      PIL.byte_bands (PIL.pixel image x y) -> PIL.byte_bands (PIL.pixel frame x y) ->
      (PIL.alpha_of (PIL.pixel frame x y) = 0 ->
       PIL.getpixel out x y = firstn 3 (PIL.getpixel image x y)) /\
      (PIL.alpha_of (PIL.pixel frame x y) = 255 ->
       PIL.getpixel out x y = firstn 3 (PIL.getpixel frame x y)).
Proof.
  intros Hmode Hsize. unfold PIL.size in Hsize. injection Hsize as Hw Hh.
  unfold frame_image, bind, lift, PIL.paste, PIL.copy.
  rewrite Hw, Hh, !Z.sub_diag. change (0 / 2) with 0.
  cbn [option_map]. rewrite Hmode.
  eexists. split; [reflexivity |].
  split; [now destruct (PIL.mode image) |].
  split; [now destruct (PIL.mode image) |].
  split; [destruct (PIL.mode image); unfold PIL.size; cbn; congruence |].
  intros x y Hx Hy (Hr & Hg & Hb & Ha) (Hfr & Hfg & Hfb & Hfa).
  assert (Hin : PIL.inside frame (x - 0) (y - 0) = true).
  { unfold PIL.inside. rewrite !andb_true_iff, !Z.leb_le, !Z.ltb_lt. lia. }
  split; intros Halpha.
  - destruct (PIL.mode image) eqn:Hmi;
      unfold PIL.getpixel, PIL.convert, PIL.copy; cbn [PIL.mode PIL.pixel PIL.width PIL.height];
      rewrite ?Hmi, ?Hmode; cbn [PIL.mode PIL.pixel PIL.width PIL.height];
      unfold PIL.inside in *; cbn [PIL.mode PIL.pixel PIL.width PIL.height] in *;
      rewrite Hin, !Z.sub_0_r, Halpha; unfold PIL.blend, PIL.opaque;
      cbn [PIL.red_of PIL.green_of PIL.blue_of PIL.alpha_of firstn];
      rewrite !BLEND8_transparent by assumption; reflexivity.
  - destruct (PIL.mode image) eqn:Hmi;
      unfold PIL.getpixel, PIL.convert, PIL.copy; cbn [PIL.mode PIL.pixel PIL.width PIL.height];
      rewrite ?Hmi, ?Hmode; cbn [PIL.mode PIL.pixel PIL.width PIL.height];
      unfold PIL.inside in *; cbn [PIL.mode PIL.pixel PIL.width PIL.height] in *;
      rewrite Hin, !Z.sub_0_r, Halpha; unfold PIL.blend, PIL.opaque;
      cbn [PIL.red_of PIL.green_of PIL.blue_of PIL.alpha_of firstn];
      rewrite !BLEND8_opaque by assumption; reflexivity.
Qed.

(** ** Binary64 arithmetic *)

Section Binary64.

Local Open Scope Z_scope.


Lemma digits2_pos_bounds (p : positive) :
  2 ^ (Z.pos (digits2_pos p) - 1) <= Z.pos p < 2 ^ Z.pos (digits2_pos p).
Proof.
  induction p as [p IH | p IH |]; cbn [digits2_pos]; [| | cbn; lia].
  all: rewrite Pos2Z.inj_succ;
    set (k := Z.pos (digits2_pos p)) in *;
    assert (Hk : 2 ^ k = 2 * 2 ^ (k - 1))
      by (rewrite <- Z.pow_succ_r by lia; f_equal; lia);
    replace (Z.succ k - 1) with k by lia;
    rewrite Z.pow_succ_r by lia; lia.
Qed.

Lemma Zdigits2_unique (m d : Z) :
  2 ^ (d - 1) <= m < 2 ^ d -> 0 < d -> Zdigits2 m = d.
Proof.
  intros Hm Hd. assert (0 < m) by (pose proof (Z.pow_pos_nonneg 2 (d - 1)); lia).
  destruct m as [| p | p]; try lia. cbn [Zdigits2].
  pose proof (digits2_pos_bounds p) as Hp.
  set (k := Z.pos (digits2_pos p)) in *.
  destruct (Z.lt_trichotomy k d) as [Hlt | [Heq | Hgt]]; [| exact Heq |].
  - assert (2 ^ k <= 2 ^ (d - 1)) by (apply Z.pow_le_mono_r; lia). lia.
  - assert (2 ^ d <= 2 ^ (k - 1)) by (apply Z.pow_le_mono_r; lia). lia.
Qed.

Lemma loc_of_shr_record_of_loc (m : Z) (l : location) :
  loc_of_shr_record (shr_record_of_loc m l) = l /\ shr_m (shr_record_of_loc m l) = m.
Proof. destruct l as [| []]; now split. Qed.

Lemma location_of_double (N T : Z) :
  0 <= N -> 0 < T ->
  location_of N (2 * T) =
  if Z.even (N / T)
  then (if N mod T =? 0 then loc_Exact else loc_Inexact Lt)
  else (if N mod T =? 0 then loc_Inexact Eq else loc_Inexact Gt).
Proof.
  intros HN HT. unfold location_of.
  assert (Hr : N mod (2 * T) = N mod T + T * ((N / T) mod 2)).
  { rewrite (Z.mul_comm 2 T). apply Z.rem_mul_r; lia. }
  pose proof (Z.mod_pos_bound N T HT) as Hb.
  rewrite Hr. rewrite Zeven_mod.
  pose proof (Z.mod_pos_bound (N / T) 2 ltac:(lia)) as Hb2.
  destruct (Z.eqb_spec ((N / T) mod 2) 0) as [E | E].
  - rewrite E, Z.mul_0_r, Z.add_0_r.
    destruct (Z.eqb_spec (N mod T) 0); [reflexivity |].
    f_equal. apply Z.compare_lt_iff. lia.
  - assert (E1 : (N / T) mod 2 = 1) by lia. rewrite E1, Z.mul_1_r.
    destruct (Z.eqb_spec (N mod T + T) 0); [lia |].
    destruct (Z.eqb_spec (N mod T) 0) as [E0 | E0]; f_equal.
    + apply Z.compare_eq_iff. lia.
    + apply Z.compare_gt_iff. lia.
Qed.

Lemma shr_1_represents (N T : Z) (mrs : shr_record) :
  0 <= N -> 0 < T -> represents N T mrs -> represents N (2 * T) (shr_1 mrs).
Proof.
  intros HN HT [Hm Hl]. unfold represents.
  rewrite (location_of_double N T HN HT).
  assert (Hdiv : N / (2 * T) = N / T / 2) by (rewrite (Z.mul_comm 2 T), Z.div_div; lia).
  rewrite Hdiv. rewrite <- Hm.
  assert (Hpos : 0 <= shr_m mrs) by (rewrite Hm; apply Z.div_pos; lia).
  unfold location_of in Hl.
  destruct mrs as [m r s]. cbn [shr_m] in *.
  destruct (Z.eqb_spec (N mod T) 0) as [E | E];
    destruct m as [| [p | p |] |]; try lia;
    destruct r, s; cbn in Hl; try discriminate Hl;
    cbn [shr_1 shr_m loc_of_shr_record orb Z.even];
    (split; [ try reflexivity | reflexivity ]).
  all: try (apply Z.div_unique with (r := 1); lia).
  all: try (apply Z.div_unique with (r := 0); lia).
Qed.

Lemma iter_pos_shr_1_represents (p : positive) (N T : Z) (mrs : shr_record) :
  0 <= N -> 0 < T -> represents N T mrs ->
  represents N (2 ^ Z.pos p * T) (iter_pos shr_1 p mrs).
Proof.
  intros HN. revert T mrs.
  induction p as [p IH | p IH |]; intros T mrs HT H; cbn [iter_pos].
  - assert (E : 2 ^ Z.pos p~1 * T = 2 ^ Z.pos p * (2 ^ Z.pos p * (2 * T))).
    { assert (E0 : Z.pos p~1 = Z.pos p + Z.pos p + 1) by lia.
      rewrite E0, !Z.pow_add_r by lia. change (2 ^ 1) with 2. ring. }
    rewrite E. pose proof (Z.pow_pos_nonneg 2 (Z.pos p) ltac:(lia) ltac:(lia)).
    apply IH; [nia |]. apply IH; [lia |]. now apply shr_1_represents.
  - assert (E : 2 ^ Z.pos p~0 * T = 2 ^ Z.pos p * (2 ^ Z.pos p * T)).
    { assert (E0 : Z.pos p~0 = Z.pos p + Z.pos p) by lia.
      rewrite E0, Z.pow_add_r by lia. ring. }
    rewrite E. pose proof (Z.pow_pos_nonneg 2 (Z.pos p) ltac:(lia) ltac:(lia)).
    apply IH; [nia |]. now apply IH.
  - change (2 ^ 1) with 2. now apply shr_1_represents.
Qed.

Lemma shr_represents (N T : Z) (mrs : shr_record) (e n : Z) :
  0 <= N -> 0 < T -> 0 <= n -> represents N T mrs ->
  represents N (2 ^ n * T) (fst (shr mrs e n)) /\ snd (shr mrs e n) = e + n.
Proof.
  intros HN HT Hn H. destruct n as [| p | p]; try lia; cbn [shr fst snd].
  - change (2 ^ 0) with 1. rewrite Z.mul_1_l, Z.add_0_r. now split.
  - split; [now apply iter_pos_shr_1_represents | reflexivity].
Qed.

Lemma rne_div_cases (N T : Z) :
  0 <= N -> 0 < T ->
  (N mod T = 0 /\ rne_div N T = N / T) \/
  (0 < N mod T /\ 2 * (N mod T) <= T /\ rne_div N T = N / T) \/
  (0 < N mod T /\ T <= 2 * (N mod T) /\ rne_div N T = N / T + 1).
Proof.
  intros HN HT. unfold rne_div, location_of.
  pose proof (Z.mod_pos_bound N T HT) as Hb.
  destruct (Z.eqb_spec (N mod T) 0) as [E | E]; [left; now split |].
  right. cbn [round_nearest_even].
  destruct (Z.compare_spec (2 * (N mod T)) T) as [C | C | C].
  - destruct (Z.even (N / T)); [left | right]; repeat split; lia.
  - left. repeat split; lia.
  - right. repeat split; lia.
Qed.

Lemma rne_div_bracket (N T A B : Z) :
  0 <= N -> 0 < T -> A * T <= N <= B * T -> A <= rne_div N T <= B.
Proof.
  intros HN HT [HA HB].
  pose proof (Z.div_mod N T ltac:(lia)) as E.
  pose proof (Z.mod_pos_bound N T HT) as Hb.
  destruct (rne_div_cases N T HN HT) as [(H0 & ->) | [(H0 & H1 & ->) | (H0 & H1 & ->)]]; nia.
Qed.

Lemma rne_div_error (N T : Z) :
  0 <= N -> 0 < T -> - T <= 2 * (rne_div N T * T - N) <= T.
Proof.
  intros HN HT.
  pose proof (Z.div_mod N T ltac:(lia)) as E.
  pose proof (Z.mod_pos_bound N T HT) as Hb.
  destruct (rne_div_cases N T HN HT) as [(H0 & ->) | [(H0 & H1 & ->) | (H0 & H1 & ->)]]; nia.
Qed.

Lemma rne_div_range (N T : Z) :
  0 <= N -> 0 < T -> N / T <= rne_div N T <= N / T + 1.
Proof.
  intros HN HT.
  destruct (rne_div_cases N T HN HT) as [(H0 & ->) | [(H0 & H1 & ->) | (H0 & H1 & ->)]]; lia.
Qed.

Lemma rne_div_represents (N T : Z) (mrs : shr_record) :
  represents N T mrs ->
  round_nearest_even (shr_m mrs) (loc_of_shr_record mrs) = rne_div N T.
Proof. intros [-> ->]. reflexivity. Qed.

(** ** [binary_round_aux] in the normal range of binary64 *)

Lemma binary_round_aux_normal (mx ex : Z) (lx : location) (N T : Z) :
  0 <= N -> 0 < T -> mx = N / T -> lx = location_of N T ->
  53 <= Zdigits2 mx ->
  -1074 <= Zdigits2 mx + ex - 53 < 971 ->
  exists m e,
    binary_round_aux 53 1024 false mx ex lx = S754_finite false m e /\
    normal m e /\
    (Z.pos m = rne_div N (2 ^ (Zdigits2 mx - 53) * T) /\ e = Zdigits2 mx + ex - 53 \/
     rne_div N (2 ^ (Zdigits2 mx - 53) * T) = 2 ^ 53 /\ Z.pos m = 2 ^ 52 /\
     e = Zdigits2 mx + ex - 52).
Proof.
  intros HN HT Hmx Hlx Hd He.
  set (d := Zdigits2 mx) in *.
  assert (Hmxpos : 0 < mx).
  { assert (0 <= N / T) by (apply Z.div_pos; lia).
    destruct mx as [| p | p]; cbn in d; subst d; lia. }
  assert (Hdig : 2 ^ (d - 1) <= mx < 2 ^ d).
  { destruct mx as [| p | p]; try lia. apply digits2_pos_bounds. }
  unfold binary_round_aux, shr_fexp. fold d.
  assert (Hfexp : fexp 53 1024 (d + ex) - ex = d - 53).
  { unfold fexp, emin. lia. }
  rewrite Hfexp.
  assert (Hrep0 : represents N T (shr_record_of_loc mx lx)).
  { destruct (loc_of_shr_record_of_loc mx lx) as [E1 E2]. split; congruence. }
  destruct (shr_represents N T _ ex (d - 53) HN HT ltac:(lia) Hrep0) as [Hrep1 He1].
  destruct (shr (shr_record_of_loc mx lx) ex (d - 53)) as [mrs1 e1]. cbn [fst snd] in *.
  set (T1 := 2 ^ (d - 53) * T) in *.
  assert (HT1 : 0 < T1) by (unfold T1; pose proof (Z.pow_pos_nonneg 2 (d - 53)); nia).
  rewrite (rne_div_represents N T1 mrs1 Hrep1).
  (* the integer part after the shift has 53 digits *)
  assert (Hq : N / T1 = mx / 2 ^ (d - 53)).
  { pose proof (Z.pow_pos_nonneg 2 (d - 53) ltac:(lia) ltac:(lia)).
    unfold T1. rewrite Hmx, (Z.mul_comm (2 ^ (d - 53)) T), Z.div_div; lia. }
  assert (Hq53 : 2 ^ 52 <= N / T1 < 2 ^ 53).
  { rewrite Hq.
    assert (E1 : 2 ^ (d - 1) = 2 ^ 52 * 2 ^ (d - 53))
      by (rewrite <- Z.pow_add_r by lia; f_equal; lia).
    assert (E2 : 2 ^ d = 2 ^ 53 * 2 ^ (d - 53))
      by (rewrite <- Z.pow_add_r by lia; f_equal; lia).
    pose proof (Z.pow_pos_nonneg 2 (d - 53) ltac:(lia) ltac:(lia)) as Hp.
    split.
    - apply Z.div_le_lower_bound; lia.
    - apply Z.div_lt_upper_bound; lia. }
  pose proof (rne_div_range N T1 HN HT1) as HR.
  set (R := rne_div N T1) in *.
  destruct (Z.eq_dec R (2 ^ 53)) as [Etop | Ntop].
  - (* the mantissa overflowed to 2^53: one more exact shift *)
    rewrite Etop.
    replace (Zdigits2 (2 ^ 53)) with 54 by reflexivity.
    assert (Hf2 : fexp 53 1024 (54 + e1) - e1 = 1) by (unfold fexp, emin; lia).
    rewrite Hf2.
    change (2 ^ 53) with (Z.pos 4503599627370496~0).
    cbn [shr_record_of_loc shr iter_pos shr_1 shr_m].
    assert (Hle : (e1 + 1 <=? 1024 - 53) = true) by (apply Z.leb_le; lia).
    rewrite Hle. exists 4503599627370496%positive, (e1 + 1). split; [reflexivity |].
    split; [split; [split; [apply Z.leb_le | apply Z.ltb_lt]; reflexivity | lia] |].
    right. repeat split. lia.
  - assert (HRlt : 2 ^ 52 <= R < 2 ^ 53) by lia.
    assert (HdR : Zdigits2 R = 53) by (apply Zdigits2_unique; [exact HRlt | lia]).
    rewrite HdR.
    assert (Hf2 : fexp 53 1024 (53 + e1) - e1 = 0) by (unfold fexp, emin; lia).
    rewrite Hf2. cbn [shr_record_of_loc shr shr_m].
    destruct R as [| pR | pR] eqn:ER; try lia.
    assert (Hle : (e1 <=? 1024 - 53) = true) by (apply Z.leb_le; lia).
    rewrite Hle. exists pR, e1. split; [reflexivity |].
    split; [split; lia |]. left. split; [reflexivity | lia].
Qed.

(** *** Values, as rationals *)

Local Open Scope Q_scope.

Lemma pow2_pos (e : Z) : 0 < pow2 e.
Proof. apply Qpower_0_lt. reflexivity. Qed.

Lemma pow2_add (a b : Z) : pow2 (a + b) == pow2 a * pow2 b.
Proof. apply Qpower_plus. discriminate. Qed.

Lemma pow2_Z (n : Z) : (0 <= n)%Z -> pow2 n == inject_Z (2 ^ n).
Proof. intros H. symmetry. apply (Zpower_Qpower 2 n H). Qed.

Lemma pow2_le (a b : Z) : (a <= b)%Z -> pow2 a <= pow2 b.
Proof. intros H. apply Qpower_le_compat_l; [exact H | discriminate]. Qed.

Lemma pow2_succ (a : Z) : pow2 (a + 1) == 2 * pow2 a.
Proof. rewrite pow2_add. change (pow2 1) with 2. ring. Qed.

Lemma pow2_pred (a : Z) : pow2 (a - 1) == pow2 a * (1 # 2).
Proof.
  replace (a - 1)%Z with (a + -1)%Z by lia. rewrite pow2_add.
  change (pow2 (-1)) with (/ 2). reflexivity.
Qed.

Lemma Qmult_le_cancel_r (x y z : Q) : 0 < z -> x * z <= y * z -> x <= y.
Proof. intros Hz H. now apply (Qmult_le_r x y z Hz). Qed.

Lemma Qdiv_mult_cancel (n t : Q) : 0 < t -> n / t * t == n.
Proof. intros Ht. field. lra. Qed.

Lemma round_value (N T R g : Z) :
  (0 <= N)%Z -> (0 < T)%Z -> R = rne_div N T ->
  Qabs (inject_Z R * pow2 g - inject_Z N / inject_Z T * pow2 g) <= pow2 g * (1 # 2) /\
  forall A B : Z,
    inject_Z A * pow2 g <= inject_Z N / inject_Z T * pow2 g <= inject_Z B * pow2 g ->
    (A <= R <= B)%Z.
Proof.
  intros HN HT ->.
  pose proof (pow2_pos g) as Hp.
  assert (Ht : 0 < inject_Z T) by (change 0 with (inject_Z 0); rewrite <- Zlt_Qlt; exact HT).
  pose proof (Qdiv_mult_cancel (inject_Z N) (inject_Z T) Ht) as Ey.
  set (y := inject_Z N / inject_Z T) in *. clearbody y.
  split.
  - pose proof (rne_div_error N T HN HT) as [E1 E2].
    assert (E1' : (2 * N <= 2 * (rne_div N T * T) + T)%Z) by lia.
    assert (E2' : (2 * (rne_div N T * T) <= 2 * N + T)%Z) by lia.
    clear E1 E2. rename E1' into E1. rename E2' into E2.
    rewrite Zle_Qle in E1, E2.
    rewrite ?inject_Z_plus, ?inject_Z_mult in E1, E2.
    set (r := inject_Z (rne_div N T)) in *. clearbody r.
    set (t := inject_Z T) in *. clearbody t.
    set (n := inject_Z N) in *. clearbody n.
    change (inject_Z 2) with 2 in *.
    assert (Hup : r - y <= 1 # 2).
    { apply Qnot_lt_le. intros C.
      assert (0 < (r - y - (1 # 2)) * t) by (apply Qmult_lt_0_compat; lra). nra. }
    assert (Hlo : - (1 # 2) <= r - y).
    { apply Qnot_lt_le. intros C.
      assert (0 < (y - r - (1 # 2)) * t) by (apply Qmult_lt_0_compat; lra). nra. }
    apply Qabs_Qle_condition. split; nra.
  - intros A B [HA HB].
    apply Qmult_le_cancel_r in HA; [| exact Hp].
    apply Qmult_le_cancel_r in HB; [| exact Hp].
    apply rne_div_bracket; [exact HN | exact HT |].
    rewrite !Zle_Qle, !inject_Z_mult.
    set (t := inject_Z T) in *. clearbody t.
    split; rewrite <- Ey; nra.
Qed.

Lemma inject_Z_pos (z : Z) : (0 < z)%Z -> 0 < inject_Z z.
Proof. intros H. change 0 with (inject_Z 0). now rewrite <- Zlt_Qlt. Qed.

Lemma round_aux_rounds (mx ex : Z) (lx : location) (N T : Z) :
  (0 <= N)%Z -> (0 < T)%Z -> mx = (N / T)%Z -> lx = location_of N T ->
  (53 <= Zdigits2 mx)%Z ->
  (-1074 <= Zdigits2 mx + ex - 53 < 971)%Z ->
  exists m e,
    binary_round_aux 53 1024 false mx ex lx = S754_finite false m e /\
    rounds (inject_Z N / inject_Z T * pow2 ex) m e.
Proof.
  intros HN HT Hmx Hlx Hd He.
  destruct (binary_round_aux_normal mx ex lx N T HN HT Hmx Hlx Hd He)
    as (m & e & Hres & Hnorm & Hcase).
  exists m, e. split; [exact Hres |].
  set (k := (Zdigits2 mx - 53)%Z) in *.
  set (g := (ex + k)%Z).
  assert (Hk : (0 <= k)%Z) by (unfold k; lia).
  assert (HT1 : (0 < 2 ^ k * T)%Z) by (pose proof (Z.pow_pos_nonneg 2 k); nia).
  assert (Ht : 0 < inject_Z T) by now apply inject_Z_pos.
  pose proof (pow2_pos k) as Hpk. pose proof (pow2_pos ex) as Hpe.
  assert (Ex : inject_Z N / inject_Z T * pow2 ex ==
               inject_Z N / inject_Z (2 ^ k * T) * pow2 g).
  { unfold g. rewrite inject_Z_mult, <- (pow2_Z k Hk), pow2_add. field. split; lra. }
  split; [exact Hnorm |].
  destruct Hcase as [(Hm & He') | (Htop & Hm & He')].
  - destruct (round_value N (2 ^ k * T) (Z.pos m) g HN HT1 Hm) as [Herr Hbr].
    assert (Eg : e = g) by (unfold g, k; lia). clear He'. subst e.
    unfold fval. split; [rewrite Ex; exact Herr |].
    intros A B HAB. apply Hbr. rewrite <- Ex. exact HAB.
  - destruct (round_value N (2 ^ k * T) (2 ^ 53) g HN HT1 (eq_sym Htop)) as [Herr Hbr].
    assert (Eg : e = (g + 1)%Z) by (unfold g, k; lia). clear He'. subst e.
    unfold fval. rewrite Hm.
    pose proof (pow2_pos g) as Hpg. pose proof (pow2_succ g) as Hsucc.
    split.
    + rewrite Ex, Hsucc.
      apply Qabs_Qle_condition. apply Qabs_Qle_condition in Herr.
      change (inject_Z (2 ^ 53)) with (2 * inject_Z (2 ^ 52)) in Herr.
      set (y := inject_Z N / inject_Z (2 ^ k * T)) in *. clearbody y.
      destruct Herr as [H1 H2]. split; nra.
    + intros A B [HA HB]. rewrite Hsucc, Ex in HA, HB.
      assert (H2 : (2 * A <= 2 ^ 53 <= 2 * B)%Z).
      { apply Hbr.
        set (y := inject_Z N / inject_Z (2 ^ k * T)) in *. clearbody y.
        rewrite !inject_Z_mult. change (inject_Z 2) with 2.
        split; nra. }
      change (2 ^ 53)%Z with (2 * 2 ^ 52)%Z in H2. lia.
Qed.

(** ** The operations on normal floats *)

Local Open Scope Z_scope.

Lemma rne_div_exact (A T : Z) : 0 <= A -> 0 < T -> rne_div (A * T) T = A.
Proof.
  intros HA HT. unfold rne_div, location_of.
  rewrite Z.mod_mul, Z.div_mul by lia. reflexivity.
Qed.

Lemma Zdigits2_range (m a b : Z) :
  0 <= a -> 2 ^ a <= m < 2 ^ b -> a < Zdigits2 m <= b.
Proof.
  intros Ha Hm. assert (0 < m) by (pose proof (Z.pow_pos_nonneg 2 a); lia).
  destruct m as [| p | p]; try lia. cbn [Zdigits2].
  pose proof (digits2_pos_bounds p) as Hp.
  set (d := Z.pos (digits2_pos p)) in *.
  split.
  - destruct (Z.le_gt_cases d a) as [C | C]; [| exact C].
    assert (2 ^ d <= 2 ^ a) by (apply Z.pow_le_mono_r; lia). lia.
  - destruct (Z.le_gt_cases d b) as [C | C]; [exact C |].
    assert (2 ^ b <= 2 ^ (d - 1)) by (apply Z.pow_le_mono_r; lia). lia.
Qed.

Lemma normal_digits (m : positive) (e : Z) : normal m e -> Zdigits2 (Z.pos m) = 53.
Proof. intros [H _]. apply Zdigits2_unique; [exact H | lia]. Qed.

Lemma Pos_iter_xO (p k : positive) : Z.pos (Pos.iter xO p k) = Z.pos p * 2 ^ Z.pos k.
Proof.
  induction k as [| k IH] using Pos.peano_ind.
  - cbn [Pos.iter]. rewrite Pos2Z.inj_xO. change (2 ^ 1) with 2. lia.
  - rewrite Pos.iter_succ, Pos2Z.inj_xO, IH, Pos2Z.inj_succ, Z.pow_succ_r by lia. ring.
Qed.

Lemma location_of_one (N : Z) : location_of N 1 = loc_Exact.
Proof. unfold location_of. now rewrite Z.mod_1_r. Qed.

(** [float(n)] is exact below 2^53. *)
Lemma float_of_int_exact (n : Z) :
  0 < n < 2 ^ 53 ->
  exists m e,
    Float64.float_of_int n = S754_finite false m e /\ normal m e /\
    -52 <= e <= 0 /\ Z.pos m = n * 2 ^ (- e).
Proof.
  intros Hn. destruct n as [| p | p]; try lia.
  unfold Float64.float_of_int, binary_normalize, binary_round.
  pose proof (digits2_pos_bounds p) as Hp.
  set (d := Z.pos (digits2_pos p)) in *.
  assert (Hd : 1 <= d <= 53).
  { split; [unfold d; lia |].
    destruct (Z.le_gt_cases d 53) as [C | C]; [exact C |].
    assert (2 ^ 53 <= 2 ^ (d - 1)) by (apply Z.pow_le_mono_r; lia). lia. }
  assert (Hf : fexp Float64.prec Float64.emax (d + 0) = d - 53).
  { unfold fexp, emin, Float64.prec, Float64.emax. lia. }
  rewrite Hf.
  assert (Hal : exists mz, shl_align p 0 (d - 53) = (mz, d - 53) /\
                           Z.pos mz = Z.pos p * 2 ^ (53 - d)).
  { unfold shl_align. destruct (d - 53 - 0) as [| k | k] eqn:E; try lia.
    - exists p. replace (d - 53) with 0 by lia. replace (53 - d) with 0 by lia.
      split; [reflexivity | change (2 ^ 0) with 1; lia].
    - exists (Pos.iter xO p k). split; [reflexivity |].
      rewrite Pos_iter_xO. f_equal. f_equal. lia. }
  destruct Hal as (mz & -> & Hmz).
  assert (Hmz53 : 2 ^ 52 <= Z.pos mz < 2 ^ 53).
  { rewrite Hmz.
    assert (E1 : 2 ^ 52 = 2 ^ (d - 1) * 2 ^ (53 - d))
      by (rewrite <- Z.pow_add_r by lia; f_equal; lia).
    assert (E2 : 2 ^ 53 = 2 ^ d * 2 ^ (53 - d))
      by (rewrite <- Z.pow_add_r by lia; f_equal; lia).
    pose proof (Z.pow_pos_nonneg 2 (53 - d) ltac:(lia) ltac:(lia)). nia. }
  assert (Hdz : Zdigits2 (Z.pos mz) = 53) by (apply Zdigits2_unique; [exact Hmz53 | lia]).
  destruct (binary_round_aux_normal (Z.pos mz) (d - 53) loc_Exact (Z.pos mz) 1)
    as (m & e & Hres & Hnorm & Hcase);
    try lia; try (now rewrite Z.div_1_r); try (now rewrite location_of_one).
  rewrite Hdz in Hcase. change (2 ^ (53 - 53) * 1) with 1 in Hcase.
  assert (Hr : rne_div (Z.pos mz) 1 = Z.pos mz).
  { pose proof (rne_div_exact (Z.pos mz) 1 ltac:(lia) ltac:(lia)) as Hr.
    now rewrite Z.mul_1_r in Hr. }
  rewrite Hr in Hcase.
  destruct Hcase as [(Hm & He) | (Htop & _)]; [| lia].
  exists m, e. split; [exact Hres |]. split; [exact Hnorm |].
  split; [lia |]. rewrite Hm, Hmz. f_equal. f_equal. lia.
Qed.

Lemma product_digits (mx my : positive) (ex ey : Z) :
  normal mx ex -> normal my ey ->
  105 <= Zdigits2 (Z.pos (mx * my)) <= 106.
Proof.
  intros [Hx _] [Hy _]. rewrite Pos2Z.inj_mul.
  assert (H : 104 < Zdigits2 (Z.pos mx * Z.pos my) <= 106).
  { apply Zdigits2_range; [lia |].
    change (2 ^ 104) with (2 ^ 52 * 2 ^ 52). change (2 ^ 106) with (2 ^ 53 * 2 ^ 53). nia. }
  lia.
Qed.

(** The product of two normal floats is their exact product, rounded. *)
Lemma fmul_rounds (mx my : positive) (ex ey : Z) :
  normal mx ex -> normal my ey -> -1126 <= ex + ey < 918 ->
  exists m e,
    Float64.fmul (S754_finite false mx ex) (S754_finite false my ey)
      = S754_finite false m e /\
    rounds (fval mx ex * fval my ey) m e.
Proof.
  intros Hx Hy He.
  pose proof (product_digits mx my ex ey Hx Hy) as Hd.
  unfold Float64.fmul, SFmul. cbn [xorb].
  destruct (round_aux_rounds (Z.pos (mx * my)) (ex + ey) loc_Exact (Z.pos (mx * my)) 1)
    as (m & e & Hres & Hr);
    try lia; try (now rewrite Z.div_1_r); try (now rewrite location_of_one).
  exists m, e. split; [exact Hres |].
  assert (E : (fval mx ex * fval my ey ==
               inject_Z (Z.pos (mx * my)) / inject_Z 1 * pow2 (ex + ey))%Q).
  { unfold fval. rewrite Pos2Z.inj_mul, inject_Z_mult, pow2_add. field. }
  destruct Hr as (Hn & Herr & Hbr). split; [exact Hn |]. split.
  - now rewrite E.
  - intros A B HAB. apply Hbr. now rewrite <- E.
Qed.

(** Multiplying by 1.0 changes nothing. *)
Lemma fmul_one_l (m : positive) (e : Z) :
  normal m e -> e < 971 ->
  Float64.fmul Float64.one (S754_finite false m e) = S754_finite false m e.
Proof.
  intros Hn He. pose proof Hn as [Hm Hrange].
  change Float64.one with (S754_finite false 4503599627370496 (-52)).
  unfold Float64.fmul, SFmul, Float64.prec, Float64.emax. cbn [xorb].
  remember (Z.pos (4503599627370496 * m)) as N eqn:EN.
  assert (HN : N = Z.pos m * 2 ^ 52) by (rewrite EN, Pos2Z.inj_mul; apply Z.mul_comm).
  assert (HNpos : 0 < N) by (rewrite EN; lia).
  assert (Hd : Zdigits2 N = 105).
  { apply Zdigits2_unique; [| lia]. rewrite HN.
    change (2 ^ (105 - 1)) with (2 ^ 52 * 2 ^ 52). change (2 ^ 105) with (2 ^ 53 * 2 ^ 52). lia. }
  destruct (binary_round_aux_normal N (-52 + e) loc_Exact N 1)
    as (m' & e' & Hres & _ & Hcase);
    try lia; try (now rewrite Z.div_1_r); try (now rewrite location_of_one).
  rewrite Hres. rewrite Hd in Hcase.
  change (2 ^ (105 - 53) * 1) with (2 ^ 52) in Hcase.
  rewrite HN, rne_div_exact in Hcase by lia.
  destruct Hcase as [(Hm' & He') | (Htop & _)]; [| lia].
  f_equal; [| lia]. now injection Hm'.
Qed.

Lemma new_location_spec (T r : Z) :
  0 < T -> 0 <= r < T ->
  new_location T r = if r =? 0 then loc_Exact else loc_Inexact (2 * r ?= T).
Proof.
  intros HT Hr. unfold new_location.
  destruct (Z.even T) eqn:Hev; unfold new_location_even, new_location_odd;
    destruct (r =? 0) eqn:E0; try reflexivity.
  f_equal.
  assert (Hodd : Z.odd T = true) by (rewrite <- Z.negb_even, Hev; reflexivity).
  apply Z.odd_spec in Hodd. destruct Hodd as [c Hc].
  destruct (Z.compare_spec (2 * r + 1) T) as [C | C | C];
    symmetry; [apply Z.compare_lt_iff | apply Z.compare_lt_iff | apply Z.compare_gt_iff]; lia.
Qed.

(** The quotient of two normal floats is their exact quotient, rounded. *)
Lemma fdiv_rounds (mx my : positive) (ex ey : Z) :
  normal mx ex -> normal my ey -> -1021 <= ex - ey < 1022 ->
  exists m e,
    Float64.fdiv (S754_finite false mx ex) (S754_finite false my ey)
      = S754_finite false m e /\
    rounds (fval mx ex / fval my ey) m e.
Proof.
  intros Hx Hy He. pose proof Hx as [Hmx _]. pose proof Hy as [Hmy _].
  unfold Float64.fdiv, SFdiv, SFdiv_core_binary, Float64.prec, Float64.emax. cbn [xorb].
  rewrite (normal_digits mx ex Hx), (normal_digits my ey Hy).
  assert (Hf : Z.min (fexp 53 1024 (53 + ex - (53 + ey))) (ex - ey) = ex - ey - 53).
  { unfold fexp, emin. lia. }
  rewrite Hf.
  replace (ex - ey - (ex - ey - 53)) with 53 by lia.
  rewrite Z.shiftl_mul_pow2 by lia.
  set (N := Z.pos mx * 2 ^ 53).
  assert (HN : 0 <= N) by (unfold N; lia).
  pose proof (Z.div_mod N (Z.pos my) ltac:(lia)) as Hdm.
  pose proof (Z.mod_pos_bound N (Z.pos my) ltac:(lia)) as Hrb.
  unfold Z.div, Z.modulo in Hdm, Hrb.
  destruct (Z.div_eucl N (Z.pos my)) as [q r] eqn:Hqr.
  assert (Eq : q = N / Z.pos my) by (unfold Z.div; now rewrite Hqr).
  assert (Er : r = N mod Z.pos my) by (unfold Z.modulo; now rewrite Hqr).
  assert (Hq : 2 ^ 52 <= q < 2 ^ 54).
  { change (2 ^ 54) with (2 * 2 ^ 53). unfold N in *.
    change (2 ^ 53) with (2 * 2 ^ 52) in *. nia. }
  assert (Hd : 53 <= Zdigits2 q <= 54).
  { pose proof (Zdigits2_range q 52 54 ltac:(lia) Hq). lia. }
  destruct (round_aux_rounds q (ex - ey - 53) (new_location (Z.pos my) r) N (Z.pos my))
    as (m & e & Hres & Hr); try lia.
  { rewrite new_location_spec by lia. unfold location_of. now rewrite <- Er. }
  exists m, e. split; [exact Hres |].
  assert (E : (fval mx ex / fval my ey ==
               inject_Z N / inject_Z (Z.pos my) * pow2 (ex - ey - 53))%Q).
  { unfold fval, N. rewrite inject_Z_mult, <- (pow2_Z 53) by lia.
    replace ex with ((ex - ey - 53) + 53 + ey) at 1 by lia.
    rewrite !pow2_add.
    pose proof (pow2_pos ey). pose proof (pow2_pos 53).
    pose proof (inject_Z_pos (Z.pos my) ltac:(lia)).
    field. split; lra. }
  destruct Hr as (Hn & Herr & Hbr). split; [exact Hn |]. split.
  - now rewrite E.
  - intros A B HAB. apply Hbr. now rewrite <- E.
Qed.

(** [int(x)] of a positive float is the floor of its value. *)
Lemma int_of_float_floor (m : positive) (e : Z) :
  Float64.int_of_float (S754_finite false m e) = Ok (Qfloor (fval m e)).
Proof.
  unfold Float64.int_of_float, fval. f_equal.
  destruct e as [| p | p].
  - change (pow2 0) with 1%Q. rewrite Qmult_1_r, Qfloor_Z. change (2 ^ 0) with 1. lia.
  - rewrite (pow2_Z (Z.pos p)) by lia. rewrite <- inject_Z_mult. now rewrite Qfloor_Z.
  - rewrite Zdiv_Qdiv. apply Qfloor_comp.
    change (Z.neg p) with (- Z.pos p). unfold pow2. rewrite Qpower_opp.
    fold (pow2 (Z.pos p)). rewrite (pow2_Z (Z.pos p)) by lia. reflexivity.
Qed.

(** Comparison of normal floats is comparison of their values. *)
Lemma fltb_normal (mx my : positive) (ex ey : Z) :
  normal mx ex -> normal my ey ->
  if Float64.fltb (S754_finite false mx ex) (S754_finite false my ey)
  then (fval mx ex < fval my ey)%Q
  else (fval my ey <= fval mx ex)%Q.
Proof.
  intros [Hx _] [Hy _]. unfold Float64.fltb, SFltb, SFcompare, fval.
  assert (Hgap : forall (a b : positive) (ea eb : Z),
             2 ^ 52 <= Z.pos a < 2 ^ 53 -> 2 ^ 52 <= Z.pos b < 2 ^ 53 -> ea < eb ->
             (inject_Z (Z.pos a) * pow2 ea < inject_Z (Z.pos b) * pow2 eb)%Q).
  { intros a b ea eb Ha Hb Hlt.
    assert (Hp : (2 * pow2 ea <= pow2 eb)%Q).
    { rewrite <- pow2_succ. apply pow2_le. lia. }
    pose proof (pow2_pos ea) as Hpa.
    assert (Ha' : (inject_Z (Z.pos a) < 2 * inject_Z (2 ^ 52))%Q).
    { change 2%Q with (inject_Z 2). rewrite <- inject_Z_mult, <- Zlt_Qlt.
      change (2 * 2 ^ 52) with (2 ^ 53). lia. }
    assert (Hb' : (inject_Z (2 ^ 52) <= inject_Z (Z.pos b))%Q) by (rewrite <- Zle_Qle; lia).
    assert (H52 : (0 < inject_Z (2 ^ 52))%Q) by reflexivity.
    set (qa := inject_Z (Z.pos a)) in *. set (qb := inject_Z (Z.pos b)) in *.
    set (c := inject_Z (2 ^ 52)) in *. clearbody qa qb c.
    apply Qlt_le_trans with (2 * c * pow2 ea)%Q; [nra |].
    apply Qle_trans with (c * pow2 eb)%Q; nra. }
  destruct (Z.compare_spec ex ey) as [E | L | G].
  - subst ey. rewrite Pos.compare_cont_spec. cbn [Pos.switch_Eq].
    pose proof (pow2_pos ex) as Hp.
    destruct (Pos.compare_spec mx my) as [E | L | G]; cbn [Pos.switch_Eq].
    + subst my. apply Qle_refl.
    + assert (inject_Z (Z.pos mx) < inject_Z (Z.pos my))%Q by (rewrite <- Zlt_Qlt; lia). nra.
    + assert (inject_Z (Z.pos my) < inject_Z (Z.pos mx))%Q by (rewrite <- Zlt_Qlt; lia). nra.
  - now apply Hgap.
  - apply Qlt_le_weak. now apply Hgap.
Qed.

(** ** Consequences of correct rounding *)

Local Open Scope Q_scope.

(** A rounded value never crosses a multiple of a coarser power of two. *)
Lemma rounds_grid (x : Q) (m : positive) (e : Z) (c g : Z) :
  rounds x m e -> (e <= g)%Z ->
  (x <= inject_Z c * pow2 g -> fval m e <= inject_Z c * pow2 g) /\
  (inject_Z c * pow2 g <= x -> inject_Z c * pow2 g <= fval m e).
Proof.
  intros (_ & _ & Hbr) Hg.
  pose proof (pow2_pos e) as Hp.
  assert (Eg : inject_Z c * pow2 g == inject_Z (c * 2 ^ (g - e)) * pow2 e).
  { rewrite inject_Z_mult, <- (pow2_Z (g - e)) by lia.
    replace g with ((g - e) + e)%Z at 1 by lia. rewrite pow2_add. ring. }
  assert (Hlo : inject_Z (Qfloor (x / pow2 e)) * pow2 e <= x).
  { pose proof (Qfloor_le (x / pow2 e)) as H.
    apply (Qmult_le_compat_r _ _ (pow2 e)) in H; [| lra].
    rewrite Qdiv_mult_cancel in H by exact Hp. exact H. }
  assert (Hhi : x <= inject_Z (Qfloor (x / pow2 e) + 1) * pow2 e).
  { pose proof (Qlt_floor (x / pow2 e)) as H.
    apply Qlt_le_weak in H.
    apply (Qmult_le_compat_r _ _ (pow2 e)) in H; [| lra].
    rewrite Qdiv_mult_cancel in H by exact Hp. exact H. }
  unfold fval. split; intros H; rewrite Eg in *.
  - destruct (Hbr (Qfloor (x / pow2 e)) (c * 2 ^ (g - e))%Z (conj Hlo H)) as [_ Hm].
    rewrite Zle_Qle in Hm. nra.
  - destruct (Hbr (c * 2 ^ (g - e))%Z (Qfloor (x / pow2 e) + 1)%Z (conj H Hhi)) as [Hm _].
    rewrite Zle_Qle in Hm. nra.
Qed.

Lemma fval_bounds (m : positive) (e : Z) :
  normal m e -> pow2 (e + 52) <= fval m e < pow2 (e + 53).
Proof.
  intros [[H1 H2] _]. unfold fval. rewrite !pow2_add.
  rewrite Zle_Qle in H1. rewrite Zlt_Qlt in H2.
  rewrite (pow2_Z 52), (pow2_Z 53) by lia.
  pose proof (pow2_pos e). split; nra.
Qed.

Lemma rounds_exp_upper (x : Q) (m : positive) (e k : Z) :
  rounds x m e -> x <= pow2 k -> (e <= k - 52)%Z.
Proof.
  intros Hr Hx. destruct (Z.le_gt_cases e (k - 52)) as [C | C]; [exact C | exfalso].
  pose proof Hr as (Hn & Herr & _). pose proof (fval_bounds m e Hn) as [Hlo _].
  pose proof (pow2_pos k) as Hpk. pose proof (pow2_pos e) as Hpe.
  destruct (Z.le_gt_cases e k) as [D | D].
  - destruct (rounds_grid x m e 1 k Hr D) as [Hup _].
    rewrite Qmult_1_l in Hup. specialize (Hup Hx).
    assert (Hk : pow2 (k + 1) <= pow2 (e + 52)) by (apply pow2_le; lia).
    rewrite pow2_succ in Hk. lra.
  - apply Qabs_Qle_condition in Herr. destruct Herr as [_ Herr].
    assert (Hk : pow2 k <= pow2 e) by (apply pow2_le; lia).
    rewrite pow2_add in Hlo. rewrite (pow2_Z 52) in Hlo by lia.
    assert (H52 : 2 <= inject_Z (2 ^ 52)) by (change 2 with (inject_Z 2); rewrite <- Zle_Qle; lia).
    nra.
Qed.

Lemma rounds_exp_lower (x : Q) (m : positive) (e k : Z) :
  rounds x m e -> pow2 k <= x -> (-1074 <= k - 53)%Z -> (k - 53 < e)%Z \/ (k - 53 = e)%Z.
Proof.
  intros Hr Hx Hk. destruct (Z.le_gt_cases (k - 53) e) as [C | C]; [lia | exfalso].
  destruct (rounds_grid x m e 1 k Hr ltac:(lia)) as [_ Hdn].
  rewrite Qmult_1_l in Hdn. specialize (Hdn Hx).
  destruct Hr as (Hn & _). pose proof (fval_bounds m e Hn) as [_ Hhi].
  assert (Hk' : pow2 (e + 53) <= pow2 k) by (apply pow2_le; lia).
  lra.
Qed.

End Binary64.

(** ** Scaling *)

Section Scaling.

Local Open Scope Q_scope.

Lemma float_of_int_value (n : Z) :
  (0 < n < 2 ^ 53)%Z ->
  exists m e,
    Float64.float_of_int n = S754_finite false m e /\ normal m e /\
    (-52 <= e <= 0)%Z /\ fval m e == inject_Z n.
Proof.
  intros Hn. destruct (float_of_int_exact n Hn) as (m & e & Hres & Hnorm & He & Hm).
  exists m, e. repeat (split; [assumption |]).
  unfold fval. rewrite Hm, inject_Z_mult, <- (pow2_Z (- e)) by lia.
  rewrite <- Qmult_assoc, <- pow2_add. replace (- e + e)%Z with 0%Z by lia.
  change (pow2 0) with 1. ring.
Qed.

(** The quotient of two sides, as a float. *)
Lemma int_truediv_rounds (a b : Z) :
  (0 < a < 2 ^ 31)%Z -> (0 < b < 2 ^ 31)%Z ->
  exists m e,
    Float64.int_truediv a b = Ok (S754_finite false m e) /\
    rounds (inject_Z a / inject_Z b) m e /\ (-84 <= e <= -21)%Z.
Proof.
  intros Ha Hb. unfold Float64.int_truediv.
  destruct (Z.eqb_spec b 0) as [E | _]; [lia |].
  destruct (float_of_int_value a ltac:(lia)) as (ma & ea & -> & Hna & Hea & Hva).
  destruct (float_of_int_value b ltac:(lia)) as (mb & eb & -> & Hnb & Heb & Hvb).
  destruct (fdiv_rounds ma mb ea eb Hna Hnb ltac:(lia)) as (m & e & Hres & Hr).
  exists m, e. split; [now rewrite Hres |].
  assert (Hr' : rounds (inject_Z a / inject_Z b) m e).
  { destruct Hr as (Hn & Herr & Hbr). split; [exact Hn |]. split.
    - now rewrite <- Hva, <- Hvb.
    - intros A B HAB. apply Hbr. now rewrite Hva, Hvb. }
  split; [exact Hr' |].
  pose proof (inject_Z_pos a ltac:(lia)) as Hqa. pose proof (inject_Z_pos b ltac:(lia)) as Hqb.
  assert (Ha31 : inject_Z a <= inject_Z (2 ^ 31)) by (rewrite <- Zle_Qle; lia).
  assert (Hb31 : inject_Z b <= inject_Z (2 ^ 31)) by (rewrite <- Zle_Qle; lia).
  assert (Ha1 : 1 <= inject_Z a) by (change 1 with (inject_Z 1); rewrite <- Zle_Qle; lia).
  assert (Hb1 : 1 <= inject_Z b) by (change 1 with (inject_Z 1); rewrite <- Zle_Qle; lia).
  split.
  - assert (Hlow : pow2 (-31) <= inject_Z a / inject_Z b).
    { apply Qle_shift_div_l; [exact Hqb |].
      change (pow2 (-31)) with (/ inject_Z (2 ^ 31)).
      apply Qle_trans with (/ inject_Z (2 ^ 31) * inject_Z (2 ^ 31)).
      - apply Qmult_le_l; [reflexivity | exact Hb31].
      - rewrite Qmult_comm, Qmult_inv_r by discriminate. exact Ha1. }
    destruct (rounds_exp_lower _ m e (-31) Hr' Hlow ltac:(lia)); lia.
  - assert (Hup : inject_Z a / inject_Z b <= pow2 31).
    { apply Qle_shift_div_r; [exact Hqb |].
      change (pow2 31) with (inject_Z (2 ^ 31)).
      apply Qle_trans with (inject_Z (2 ^ 31) * 1); [lra |].
      apply Qmult_le_l; [reflexivity | exact Hb1]. }
    pose proof (rounds_exp_upper _ m e 31 Hr' Hup). lia.
Qed.

(** Multiplying the rounded quotient back by the divisor lands within
    half a pixel of the dividend. *)
Lemma quotient_back (a b : Z) (m : positive) (e : Z) :
  (0 < a < 2 ^ 31)%Z -> (0 < b)%Z -> rounds (inject_Z a / inject_Z b) m e ->
  inject_Z a - (1 # 2) <= inject_Z b * fval m e <= inject_Z a + (1 # 2).
Proof.
  intros Ha Hb (Hn & Herr & _).
  pose proof (fval_bounds m e Hn) as [Hlo _].
  rewrite pow2_add, (pow2_Z 52) in Hlo by lia.
  pose proof (pow2_pos e) as Hp.
  pose proof (inject_Z_pos b Hb) as Hqb.
  pose proof (Qdiv_mult_cancel (inject_Z a) (inject_Z b) Hqb) as Ex.
  apply Qabs_Qle_condition in Herr. destruct Herr as [E1 E2].
  assert (Ha31 : inject_Z a <= inject_Z (2 ^ 31)) by (rewrite <- Zle_Qle; lia).
  change (inject_Z (2 ^ 31)) with 2147483648 in Ha31.
  change (inject_Z (2 ^ 52)) with 4503599627370496 in Hlo.
  set (x := inject_Z a / inject_Z b) in *. clearbody x.
  set (qa := inject_Z a) in *. set (qb := inject_Z b) in *. clearbody qa qb.
  set (v := fval m e) in *. clearbody v.
  set (p := pow2 e) in *. clearbody p.
  assert (Hz1 : qb * v - qa <= qb * p * (1 # 2)) by nra.
  assert (Hz2 : qa - qb * v <= qb * p * (1 # 2)) by nra.
  assert (Hz3 : 4503599627370496 * (qb * p) <= qb * v) by nra.
  set (z := qb * v) in *. set (u := qb * p) in *. clearbody z u.
  split; lra.
Qed.

Lemma min_normal (ma mb : positive) (ea eb : Z) :
  normal ma ea -> normal mb eb ->
  exists m e,
    Float64.min (S754_finite false ma ea) (S754_finite false mb eb) = S754_finite false m e /\
    ((m = ma /\ e = ea) \/ (m = mb /\ e = eb)) /\
    fval m e <= fval ma ea /\ fval m e <= fval mb eb.
Proof.
  intros Ha Hb. unfold Float64.min.
  pose proof (fltb_normal mb ma eb ea Hb Ha) as H.
  destruct (Float64.fltb (S754_finite false mb eb) (S754_finite false ma ea)).
  - exists mb, eb. split; [reflexivity |]. split; [now right |]. split; lra.
  - exists ma, ea. split; [reflexivity |]. split; [now left |]. split; lra.
Qed.

(** One side, scaled: [int(n * f)] for a normal factor [f]. *)
Lemma side_scaled (n : Z) (mF : positive) (eF : Z) :
  (0 < n < 2 ^ 31)%Z -> normal mF eF -> (-200 <= eF <= 200)%Z ->
  inject_Z n * fval mF eF <= pow2 51 ->
  exists z,
    Float64.int_of_float (Float64.int_mul_float n (S754_finite false mF eF)) = Ok z /\
    (0 <= z)%Z /\
    inject_Z z - 1 < inject_Z n * fval mF eF < inject_Z z + 1 /\
    forall c : Z,
      (inject_Z n * fval mF eF <= inject_Z c + (1 # 2) -> (z <= c)%Z) /\
      (inject_Z c - (1 # 2) <= inject_Z n * fval mF eF -> (c - 1 <= z)%Z).
Proof.
  intros Hn HF HeF Hx. unfold Float64.int_mul_float.
  destruct (float_of_int_value n ltac:(lia)) as (mn & en & -> & Hnn & Hen & Hvn).
  destruct (fmul_rounds mn mF en eF Hnn HF ltac:(lia)) as (m & e & -> & Hr0).
  set (x := inject_Z n * fval mF eF) in *.
  assert (Hr : rounds x m e).
  { destruct Hr0 as (Hnm & Herr & Hbr). split; [exact Hnm |]. split.
    - unfold x. now rewrite <- Hvn.
    - intros A B HAB. apply Hbr. rewrite Hvn. exact HAB. }
  clear Hr0. rewrite int_of_float_floor.
  pose proof (rounds_exp_upper x m e 51 Hr Hx) as He.
  pose proof Hr as (Hnm & _ & _). pose proof (fval_bounds m e Hnm) as [Hvlo _].
  pose proof (pow2_pos (e + 52)) as Hppos.
  set (v := fval m e) in *.
  pose proof (Qfloor_le v) as Hf1. pose proof (Qlt_floor v) as Hf2.
  rewrite inject_Z_plus in Hf2. change (inject_Z 1) with 1 in Hf2.
  assert (Hint : forall c : Z, (x <= inject_Z c -> v <= inject_Z c) /\
                               (inject_Z c <= x -> inject_Z c <= v)).
  { intros c. pose proof (rounds_grid x m e c 0 Hr ltac:(lia)) as H.
    change (pow2 0) with 1 in H. now rewrite Qmult_1_r in H. }
  assert (Hhalf : forall c : Z, (x <= inject_Z c + (1 # 2) -> v <= inject_Z c + (1 # 2)) /\
                                (inject_Z c - (1 # 2) <= x -> inject_Z c - (1 # 2) <= v)).
  { intros c.
    pose proof (rounds_grid x m e (2 * c + 1) (-1) Hr ltac:(lia)) as [H1 _].
    pose proof (rounds_grid x m e (2 * c - 1) (-1) Hr ltac:(lia)) as [_ H2].
    change (pow2 (-1)) with (1 # 2) in H1, H2.
    assert (E1 : inject_Z (2 * c + 1) * (1 # 2) == inject_Z c + (1 # 2)).
    { rewrite inject_Z_plus, inject_Z_mult. change (inject_Z 2) with 2.
      change (inject_Z 1) with 1. ring. }
    assert (E2 : inject_Z (2 * c - 1) * (1 # 2) == inject_Z c - (1 # 2)).
    { replace (2 * c - 1)%Z with (2 * c + -1)%Z by lia.
      rewrite inject_Z_plus, inject_Z_mult. change (inject_Z 2) with 2.
      change (inject_Z (-1)) with (-1). ring. }
    rewrite E1 in H1. rewrite E2 in H2. split; assumption. }
  exists (Qfloor v). split; [reflexivity |].
  assert (Hz0 : (0 <= Qfloor v)%Z).
  { change 0%Z with (Qfloor 0). apply Qfloor_resp_le. lra. }
  split; [exact Hz0 |].
  pose proof (Qfloor_le x) as Hx1. pose proof (Qlt_floor x) as Hx2.
  rewrite inject_Z_plus in Hx2. change (inject_Z 1) with 1 in Hx2.
  set (n0 := Qfloor x) in *.
  destruct (Hint n0) as [_ Hn0lo]. specialize (Hn0lo Hx1).
  destruct (Hint (n0 + 1)%Z) as [Hn0hi _].
  rewrite inject_Z_plus in Hn0hi. change (inject_Z 1) with 1 in Hn0hi.
  specialize (Hn0hi ltac:(lra)).
  assert (Hzlo : (n0 <= Qfloor v)%Z).
  { rewrite <- (Qfloor_Z n0). now apply Qfloor_resp_le. }
  assert (Hzhi : (Qfloor v <= n0 + 1)%Z).
  { rewrite Zle_Qle, inject_Z_plus. change (inject_Z 1) with 1. lra. }
  split; [split |].
  - destruct (Z.eq_dec (Qfloor v) n0) as [E | E].
    + rewrite E. lra.
    + assert (E' : Qfloor v = (n0 + 1)%Z) by lia.
      rewrite E', inject_Z_plus. change (inject_Z 1) with 1.
      destruct (Qlt_le_dec (inject_Z n0) x) as [C | C]; [lra | exfalso].
      destruct (Hint n0) as [Hup _]. specialize (Hup C).
      rewrite E', inject_Z_plus in Hf1. change (inject_Z 1) with 1 in Hf1. lra.
  - rewrite Zle_Qle in Hzlo. lra.
  - intros c. destruct (Hhalf c) as [Hc1 Hc2]. split; intros H.
    + specialize (Hc1 H).
      assert (Hlt : inject_Z (Qfloor v) < inject_Z (c + 1)).
      { rewrite inject_Z_plus. change (inject_Z 1) with 1. lra. }
      rewrite <- Zlt_Qlt in Hlt. lia.
    + specialize (Hc2 H).
      assert (Hlt : inject_Z (c - 2) < inject_Z (Qfloor v)).
      { replace (c - 2)%Z with (c + -2)%Z by lia.
        rewrite inject_Z_plus. change (inject_Z (-2)) with (-2). lra. }
      rewrite <- Zlt_Qlt in Hlt. lia.
Qed.

(** The best-fit ratio [min(fw / w, fh / h)] of two images. *)
Lemma best_fit (w h fw fh : Z) :
  (0 < w < 2 ^ 31)%Z -> (0 < h < 2 ^ 31)%Z -> (0 < fw < 2 ^ 31)%Z -> (0 < fh < 2 ^ 31)%Z ->
  exists qw qh m e,
    Float64.int_truediv fw w = Ok qw /\ Float64.int_truediv fh h = Ok qh /\
    Float64.min qw qh = S754_finite false m e /\
    normal m e /\ (-84 <= e <= -21)%Z /\
    inject_Z w * fval m e <= inject_Z fw + (1 # 2) /\
    inject_Z h * fval m e <= inject_Z fh + (1 # 2) /\
    (inject_Z fw - (1 # 2) <= inject_Z w * fval m e \/
     inject_Z fh - (1 # 2) <= inject_Z h * fval m e).
Proof.
  intros Hw Hh Hfw Hfh.
  destruct (int_truediv_rounds fw w Hfw Hw) as (mw & ew & Hqw & Hrw & Hew).
  destruct (int_truediv_rounds fh h Hfh Hh) as (mh & eh & Hqh & Hrh & Heh).
  pose proof (quotient_back fw w mw ew Hfw ltac:(lia) Hrw) as [Hw1 Hw2].
  pose proof (quotient_back fh h mh eh Hfh ltac:(lia) Hrh) as [Hh1 Hh2].
  pose proof Hrw as (Hnw & _). pose proof Hrh as (Hnh & _).
  destruct (min_normal mw mh ew eh Hnw Hnh) as (m & e & Hmin & Hwhich & Hle1 & Hle2).
  exists (S754_finite false mw ew), (S754_finite false mh eh), m, e.
  pose proof (inject_Z_pos w ltac:(lia)) as Hqw'. pose proof (inject_Z_pos h ltac:(lia)) as Hqh'.
  split; [exact Hqw |]. split; [exact Hqh |]. split; [exact Hmin |].
  split; [destruct Hwhich as [[-> ->] | [-> ->]]; assumption |].
  split; [destruct Hwhich as [[-> ->] | [-> ->]]; lia |].
  split; [nra |]. split; [nra |].
  destruct Hwhich as [[-> ->] | [-> ->]]; [left | right]; assumption.
Qed.

(** The factor of line 57 for a moderate multiplier. *)
Lemma factor_normal (k : number) (image frame : PIL.Image) :
  moderate k ->
  (0 < PIL.width image < 2 ^ 31)%Z -> (0 < PIL.height image < 2 ^ 31)%Z ->
  (0 < PIL.width frame < 2 ^ 31)%Z -> (0 < PIL.height frame < 2 ^ 31)%Z ->
  exists m e,
    scale_factor_of k image frame = Ok (S754_finite false m e) /\
    normal m e /\ (-200 <= e <= 200)%Z /\
    inject_Z (PIL.width image) * fval m e <= pow2 51 /\
    inject_Z (PIL.height image) * fval m e <= pow2 51.
Proof.
  intros (my & ey & Hk & Hny & Hey) Hw Hh Hfw Hfh.
  destruct (best_fit _ _ _ _ Hw Hh Hfw Hfh)
    as (qw & qh & mq & eq & Hqw & Hqh & Hmin & Hnq & Heq & Hbw & Hbh & _).
  unfold scale_factor_of, number_mul_float. rewrite Hqw, Hqh, Hmin, Hk.
  destruct (fmul_rounds my mq ey eq Hny Hnq ltac:(lia)) as (m & e & Hres & Hr).
  exists m, e. split; [now rewrite Hres |].
  pose proof Hr as (Hn & Herr & _). split; [exact Hn |].
  pose proof (fval_bounds my ey Hny) as [Hy1 Hy2].
  pose proof (fval_bounds mq eq Hnq) as [Hq1 Hq2].
  pose proof (fval_bounds m e Hn) as [Hv1 _].
  pose proof (pow2_pos (ey + 52)) as Hp1. pose proof (pow2_pos (eq + 52)) as Hp2.
  assert (Hlow : pow2 (ey + 52 + (eq + 52)) <= fval my ey * fval mq eq).
  { rewrite pow2_add. nra. }
  assert (Hup : fval my ey * fval mq eq <= pow2 (ey + 53 + (eq + 53))).
  { rewrite pow2_add. pose proof (pow2_pos (ey + 53)). pose proof (pow2_pos (eq + 53)). nra. }
  pose proof (rounds_exp_upper _ m e _ Hr Hup) as He1.
  destruct (rounds_exp_lower _ m e _ Hr Hlow ltac:(lia)) as [He2 | He2].
  all: split; [lia |].
  all: apply Qabs_Qle_condition in Herr; destruct Herr as [_ Herr].
  all: rewrite pow2_add, (pow2_Z 52) in Hv1 by lia.
  all: change (inject_Z (2 ^ 52)) with 4503599627370496 in Hv1.
  all: assert (Hy10 : fval my ey <= 1024)
         by (apply Qle_trans with (pow2 (ey + 53)); [lra |];
             change 1024 with (pow2 10); apply pow2_le; lia).
  all: assert (Hw31 : inject_Z (PIL.width frame) <= 2147483648)
         by (change 2147483648 with (inject_Z (2 ^ 31)); rewrite <- Zle_Qle; lia).
  all: assert (Hh31 : inject_Z (PIL.height frame) <= 2147483648)
         by (change 2147483648 with (inject_Z (2 ^ 31)); rewrite <- Zle_Qle; lia).
  all: pose proof (inject_Z_pos (PIL.width image) ltac:(lia)) as Hiw.
  all: pose proof (inject_Z_pos (PIL.height image) ltac:(lia)) as Hih.
  all: pose proof (pow2_pos e) as Hpe.
  all: change (pow2 51) with 2251799813685248.
  all: set (y := fval my ey) in *; set (q := fval mq eq) in *; set (v := fval m e) in *;
       set (p := pow2 e) in *; clearbody y q v p.
  all: assert (Hv2 : v <= 2 * (y * q)) by nra.
  all: assert (Hyq : 0 < y * q) by nra.
  all: split.
  all: try (apply Qle_trans with (inject_Z (PIL.width image) * (2 * (y * q))); [nra |];
            apply Qle_trans with (2 * y * (inject_Z (PIL.width frame) + (1 # 2))); nra).
  all: try (apply Qle_trans with (inject_Z (PIL.height image) * (2 * (y * q))); [nra |];
            apply Qle_trans with (2 * y * (inject_Z (PIL.height frame) + (1 # 2))); nra).
Qed.

(** The relative error of a rounding is at most 2^-52. *)
Lemma rounds_rel (x : Q) (m : positive) (e : Z) :
  rounds x m e -> 0 < x ->
  Qabs (fval m e - x) <= x * (1 # 4503599627370496).
Proof.
  intros (Hn & Herr & _) Hx.
  pose proof (fval_bounds m e Hn) as [Hlo _].
  rewrite pow2_add, (pow2_Z 52) in Hlo by lia.
  change (inject_Z (2 ^ 52)) with 4503599627370496 in Hlo.
  pose proof (pow2_pos e) as Hp.
  apply Qabs_Qle_condition in Herr. destruct Herr as [E1 E2].
  apply Qabs_Qle_condition.
  set (v := fval m e) in *. set (p := pow2 e) in *. clearbody v p.
  split; lra.
Qed.

(** The float best-fit ratio is the exact one, up to 2^-52 of it. *)
Lemma best_fit_exact (w h fw fh : Z) (qw qh : Float64.float) (m : positive) (e : Z) :
  (0 < w < 2 ^ 31)%Z -> (0 < h < 2 ^ 31)%Z -> (0 < fw < 2 ^ 31)%Z -> (0 < fh < 2 ^ 31)%Z ->
  Float64.int_truediv fw w = Ok qw -> Float64.int_truediv fh h = Ok qh ->
  Float64.min qw qh = S754_finite false m e ->
  let fx := Qmin (inject_Z fw / inject_Z w) (inject_Z fh / inject_Z h) in
  0 < fx /\ Qabs (fval m e - fx) <= fx * (1 # 4503599627370496) /\
  inject_Z w * fx <= inject_Z fw /\ inject_Z h * fx <= inject_Z fh.
Proof.
  intros Hw Hh Hfw Hfh Hqw Hqh Hmin fx.
  destruct (int_truediv_rounds fw w Hfw Hw) as (mw & ew & Hqw' & Hrw & _).
  destruct (int_truediv_rounds fh h Hfh Hh) as (mh & eh & Hqh' & Hrh & _).
  rewrite Hqw in Hqw'. rewrite Hqh in Hqh'.
  injection Hqw' as ->. injection Hqh' as ->.
  pose proof Hrw as (Hnw & _). pose proof Hrh as (Hnh & _).
  destruct (min_normal mw mh ew eh Hnw Hnh) as (m' & e' & Hmin' & Hwhich & Hle1 & Hle2).
  rewrite Hmin in Hmin'. injection Hmin' as <- <-.
  pose proof (inject_Z_pos w ltac:(lia)) as Hiw. pose proof (inject_Z_pos h ltac:(lia)) as Hih.
  pose proof (inject_Z_pos fw ltac:(lia)) as Hifw. pose proof (inject_Z_pos fh ltac:(lia)) as Hifh.
  pose proof (Qdiv_mult_cancel (inject_Z fw) (inject_Z w) Hiw) as Ea.
  pose proof (Qdiv_mult_cancel (inject_Z fh) (inject_Z h) Hih) as Eb.
  set (a := inject_Z fw / inject_Z w) in *. set (b := inject_Z fh / inject_Z h) in *.
  assert (Ha : 0 < a).
  { apply Qnot_le_lt. intros C.
    assert (a * inject_Z w <= 0) by nra. lra. }
  assert (Hb : 0 < b).
  { apply Qnot_le_lt. intros C.
    assert (b * inject_Z h <= 0) by nra. lra. }
  pose proof (rounds_rel a mw ew Hrw Ha) as Hra.
  pose proof (rounds_rel b mh eh Hrh Hb) as Hrb.
  apply Qabs_Qle_condition in Hra. apply Qabs_Qle_condition in Hrb.
  destruct Hra as [Hra1 Hra2]. destruct Hrb as [Hrb1 Hrb2].
  pose proof (Q.le_min_l a b) as Hmin1. pose proof (Q.le_min_r a b) as Hmin2.
  fold fx in Hmin1, Hmin2.
  assert (Hfx : fx == a \/ fx == b).
  { unfold fx. destruct (Q.min_spec a b) as [[_ E] | [_ E]]; [left | right]; exact E. }
  assert (Hfx0 : 0 < fx) by (destruct Hfx as [E | E]; rewrite E; assumption).
  clearbody a b fx.
  set (va := fval mw ew) in *. set (vb := fval mh eh) in *. set (v := fval m e) in *.
  assert (Hv : v == va \/ v == vb).
  { destruct Hwhich as [[-> ->] | [-> ->]]; [left | right]; reflexivity. }
  clearbody va vb v.
  split; [exact Hfx0 |]. split; [| split; nra].
  apply Qabs_Qle_condition.
  destruct Hfx as [Ef | Ef]; destruct Hv as [Ev | Ev]; rewrite Ef, Ev in *; split; lra.
Qed.

(** A side scaled by the float ratio is within one pixel of the floor
    of the side scaled by the exact ratio. *)
Lemma side_near_exact (n z : Z) (v fx : Q) :
  (0 < n)%Z -> 0 < fx -> inject_Z n * fx <= 2147483648 ->
  Qabs (v - fx) <= fx * (1 # 4503599627370496) ->
  (forall c : Z,
      (inject_Z n * v <= inject_Z c + (1 # 2) -> (z <= c)%Z) /\
      (inject_Z c - (1 # 2) <= inject_Z n * v -> (c - 1 <= z)%Z)) ->
  (Z.abs (z - Qfloor (inject_Z n * fx)) <= 1)%Z.
Proof.
  intros Hn Hfx Hbound Hnear Hc.
  pose proof (inject_Z_pos n Hn) as Hqn.
  apply Qabs_Qle_condition in Hnear. destruct Hnear as [N1 N2].
  pose proof (Qfloor_le (inject_Z n * fx)) as F1.
  pose proof (Qlt_floor (inject_Z n * fx)) as F2.
  rewrite inject_Z_plus in F2. change (inject_Z 1) with 1 in F2.
  set (k := Qfloor (inject_Z n * fx)) in *.
  set (q := inject_Z n) in *. clearbody q.
  assert (D1 : q * v - q * fx <= 1 # 2) by nra.
  assert (D2 : q * fx - q * v <= 1 # 2) by nra.
  destruct (Hc k) as [_ Hlo]. destruct (Hc (k + 1)%Z) as [Hhi _].
  rewrite inject_Z_plus in Hhi. change (inject_Z 1) with 1 in Hhi.
  specialize (Hlo ltac:(lra)). specialize (Hhi ltac:(lra)). lia.
Qed.

Variable resample : PIL.resampler.

Local Open Scope Z_scope.

(** [scale_image], once the factor and the two sides are computed, is
    the [resize]. *)
Lemma scale_image_run (image frame : PIL.Image) (s : State) (cc : CurrentConfig)
      (f : Float64.float) (nw nh : Z) :
  current_config s = Some cc ->
  scale_factor_of (cc_scale_factor cc) image frame = Ok f ->
  Float64.int_of_float (Float64.int_mul_float (PIL.width image) f) = Ok nw ->
  Float64.int_of_float (Float64.int_mul_float (PIL.height image) f) = Ok nh ->
  scale_image resample image frame s =
  (match PIL.resize resample image nw nh with
   | Ok out => Ok out
   | SystemExit c => SystemExit c
   | Raised e => Raised e
   end, s).
Proof.
  intros Hcc Hf Hnw Hnh.
  unfold scale_image, bind, get_current_config, lift, ret.
  rewrite Hcc, Hf, Hnw, Hnh. now destruct (PIL.resize resample image nw nh).
Qed.

Lemma resize_result (image : PIL.Image) (nw nh : Z) :
  0 < PIL.width image -> 0 < PIL.height image ->
  (1 <= nw -> 1 <= nh ->
   exists out, PIL.resize resample image nw nh = Ok out /\
               PIL.size out = (nw, nh) /\ PIL.mode out = PIL.mode image) /\
  (nw < 1 \/ nh < 1 ->
   PIL.resize resample image nw nh = Raised (ValueError "height and width must be > 0")).
Proof.
  intros Hw Hh. unfold PIL.resize, PIL.copy, PIL.size. split.
  - intros H1 H2.
    destruct (Z.eqb_spec (PIL.width image) nw) as [E1 | E1];
      destruct (Z.eqb_spec (PIL.height image) nh) as [E2 | E2]; cbn [andb];
      try (destruct (Z.ltb_spec nw 1); [lia |]; destruct (Z.ltb_spec nh 1); [lia |]; cbn [orb]);
      eexists; (split; [reflexivity |]); (split; [| reflexivity]);
      cbn [PIL.width PIL.height]; congruence.
  - intros H.
    destruct (Z.eqb_spec (PIL.width image) nw) as [E1 | E1];
      destruct (Z.eqb_spec (PIL.height image) nh) as [E2 | E2]; cbn [andb];
      try lia;
      destruct (Z.ltb_spec nw 1); destruct (Z.ltb_spec nh 1); cbn [orb]; try reflexivity; lia.
Qed.

(** Whatever the multiplier, an image [scale_image] returns has the
    sides [int(width * f)] and [int(height * f)] for the float factor
    [f] of line 57. *)
Lemma scale_image_sides (image frame : PIL.Image) (s s' : State) (out : PIL.Image) :
  scale_image resample image frame s = (Ok out, s') ->
  exists cc qw qh nw nh,
    current_config s = Some cc /\
    Float64.int_truediv (PIL.width frame) (PIL.width image) = Ok qw /\
    Float64.int_truediv (PIL.height frame) (PIL.height image) = Ok qh /\
    Float64.int_of_float
      (Float64.int_mul_float (PIL.width image)
         (number_mul_float (cc_scale_factor cc) (Float64.min qw qh))) = Ok nw /\
    Float64.int_of_float
      (Float64.int_mul_float (PIL.height image)
         (number_mul_float (cc_scale_factor cc) (Float64.min qw qh))) = Ok nh /\
    PIL.size out = (nw, nh) /\ s' = s.
Proof.
  unfold scale_image. intros H.
  apply bind_ok_inv in H. destruct H as (cc & s1 & Hcc & H).
  unfold get_current_config in Hcc.
  destruct (current_config s) as [cc0 |] eqn:Ecc; inversion Hcc; subst cc0 s1; clear Hcc.
  apply bind_ok_inv in H. destruct H as (f & s1 & Hf & H).
  apply lift_ok_inv in Hf. destruct Hf as (Hf & ->).
  apply bind_ok_inv in H. destruct H as (nw & s1 & Hnw & H).
  apply lift_ok_inv in Hnw. destruct Hnw as (Hnw & ->).
  apply bind_ok_inv in H. destruct H as (nh & s1 & Hnh & H).
  apply lift_ok_inv in Hnh. destruct Hnh as (Hnh & ->).
  apply bind_ok_inv in H. destruct H as (im & s1 & Hres & H).
  apply lift_ok_inv in Hres. destruct Hres as (Hres & ->).
  inversion H; subst. clear H.
  unfold scale_factor_of in Hf.
  destruct (Float64.int_truediv (PIL.width frame) (PIL.width image)) as [qw | |] eqn:Hqw;
    try discriminate Hf.
  destruct (Float64.int_truediv (PIL.height frame) (PIL.height image)) as [qh | |] eqn:Hqh;
    try discriminate Hf.
  injection Hf as <-.
  exists cc, qw, qh, nw, nh. repeat (split; [reflexivity || assumption |]).
  split; [| reflexivity].
  unfold PIL.resize, PIL.copy in Hres.
  destruct (Z.eqb_spec (PIL.width image) nw); destruct (Z.eqb_spec (PIL.height image) nh);
    cbn [andb] in Hres;
    try (destruct ((nw <? 1) || (nh <? 1)); [discriminate |]);
    inversion Hres; unfold PIL.size; cbn [PIL.width PIL.height]; congruence.
Qed.

(** C1, as the code has it: an image [scale_image] returns has width
    [int(image.width * f)] and height [int(image.height * f)], where
    [f = multiplier * min(frame.width / image.width,
    frame.height / image.height)] and every operation is the binary64
    one, rounded to nearest.  With multiplier 1.0 and positive sides
    below 2^31, each new side is within one pixel of the floor of the
    side times the exact factor, the new width is at most the frame's
    width and the new height at most its height, one of the two is
    short of the frame by at most one pixel, and [scale_image] returns
    such an image when both sides are at least 1 and raises Pillow's
    ValueError otherwise. *)
Theorem scale_image_fits_frame
  (image frame : PIL.Image) (s : State) (cc : CurrentConfig) :
  current_config s = Some cc ->
  (forall out s',
      scale_image resample image frame s = (Ok out, s') ->
      exists qw qh nw nh,
        Float64.int_truediv (PIL.width frame) (PIL.width image) = Ok qw /\
        Float64.int_truediv (PIL.height frame) (PIL.height image) = Ok qh /\
        Float64.int_of_float
          (Float64.int_mul_float (PIL.width image)
             (number_mul_float (cc_scale_factor cc) (Float64.min qw qh))) = Ok nw /\
        Float64.int_of_float
          (Float64.int_mul_float (PIL.height image)
             (number_mul_float (cc_scale_factor cc) (Float64.min qw qh))) = Ok nh /\
        PIL.size out = (nw, nh)) /\
  (float_of_number (cc_scale_factor cc) = Float64.one ->
   0 < PIL.width image < 2 ^ 31 -> 0 < PIL.height image < 2 ^ 31 ->
   0 < PIL.width frame < 2 ^ 31 -> 0 < PIL.height frame < 2 ^ 31 ->
   exists nw nh,
     Z.abs (nw - fst (spec_scaled_size 1 image frame)) <= 1 /\
     Z.abs (nh - snd (spec_scaled_size 1 image frame)) <= 1 /\
     0 <= nw <= PIL.width frame /\ 0 <= nh <= PIL.height frame /\
     (PIL.width frame - 1 <= nw \/ PIL.height frame - 1 <= nh) /\
     (1 <= nw -> 1 <= nh ->
      exists out, scale_image resample image frame s = (Ok out, s) /\
                  PIL.size out = (nw, nh) /\ PIL.mode out = PIL.mode image) /\
     (nw < 1 \/ nh < 1 ->
      scale_image resample image frame s =
      (Raised (ValueError "height and width must be > 0"), s))).
Proof.
  intros Hcc. split.
  { intros out s' Hrun.
    destruct (scale_image_sides image frame s s' out Hrun)
      as (cc' & qw & qh & nw & nh & Hcc' & Hqw & Hqh & Hnw & Hnh & Hsize & _).
    rewrite Hcc in Hcc'. injection Hcc' as <-.
    now exists qw, qh, nw, nh. }
  intros Hone Hw Hh Hfw Hfh.
  destruct (best_fit _ _ _ _ Hw Hh Hfw Hfh)
    as (qw & qh & m & e & Hqw & Hqh & Hmin & Hn & He & Hbw & Hbh & Hfill).
  destruct (best_fit_exact _ _ _ _ qw qh m e Hw Hh Hfw Hfh Hqw Hqh Hmin)
    as (Hfx0 & Hnear & Hxw & Hxh).
  assert (Hf : scale_factor_of (cc_scale_factor cc) image frame
               = Ok (Float64.fmul Float64.one (Float64.min qw qh))).
  { unfold scale_factor_of, number_mul_float. now rewrite Hqw, Hqh, Hone. }
  assert (Hid : Float64.fmul Float64.one (Float64.min qw qh) = S754_finite false m e).
  { rewrite Hmin. apply fmul_one_l; [exact Hn | lia]. }
  assert (H31 : forall z : Z, z < 2 ^ 31 -> (inject_Z z <= 2147483648)%Q).
  { intros z Hz. change 2147483648%Q with (inject_Z (2 ^ 31)). rewrite <- Zle_Qle. lia. }
  assert (H51 : forall z : Z, z < 2 ^ 31 -> (inject_Z z + (1 # 2) <= pow2 51)%Q).
  { intros z Hz. specialize (H31 z Hz).
    change (pow2 51) with 2251799813685248%Q. lra. }
  destruct (side_scaled (PIL.width image) m e Hw Hn ltac:(lia))
    as (nw & Hnw & Hnw0 & _ & Hcw).
  { apply Qle_trans with (inject_Z (PIL.width frame) + (1 # 2))%Q; [exact Hbw |].
    apply H51; lia. }
  destruct (side_scaled (PIL.height image) m e Hh Hn ltac:(lia))
    as (nh & Hnh & Hnh0 & _ & Hch).
  { apply Qle_trans with (inject_Z (PIL.height frame) + (1 # 2))%Q; [exact Hbh |].
    apply H51; lia. }
  rewrite <- Hid in Hnw, Hnh.
  exists nw, nh.
  assert (Espec : forall side : Z,
             Qfloor (inject_Z side * spec_factor 1 image frame) =
             Qfloor (inject_Z side *
                     Qmin (inject_Z (PIL.width frame) / inject_Z (PIL.width image))
                          (inject_Z (PIL.height frame) / inject_Z (PIL.height image)))).
  { intros side. apply Qfloor_comp. unfold spec_factor. ring. }
  split.
  { unfold spec_scaled_size. cbn [fst]. rewrite Espec.
    apply side_near_exact with (v := fval m e); try assumption; try lia.
    apply Qle_trans with (inject_Z (PIL.width frame)); [exact Hxw | apply H31; lia]. }
  split.
  { unfold spec_scaled_size. cbn [snd]. rewrite Espec.
    apply side_near_exact with (v := fval m e); try assumption; try lia.
    apply Qle_trans with (inject_Z (PIL.height frame)); [exact Hxh | apply H31; lia]. }
  split; [split; [exact Hnw0 | now apply (Hcw (PIL.width frame))] |].
  split; [split; [exact Hnh0 | now apply (Hch (PIL.height frame))] |].
  split.
  { destruct Hfill as [H | H]; [left; now apply (Hcw (PIL.width frame))
                                | right; now apply (Hch (PIL.height frame))]. }
  rewrite (scale_image_run image frame s cc _ nw nh Hcc Hf Hnw Hnh).
  destruct (resize_result image nw nh ltac:(lia) ltac:(lia)) as [Hok Hbad].
  split.
  - intros H1 H2. destruct (Hok H1 H2) as (out & -> & Hsize & Hmode). now exists out.
  - intros H. now rewrite (Hbad H).
Qed.

(** C8, as the code has it: for a multiplier between 2^-10 and 2^10
    and sides below 2^31, the factor that [scale_image] computes is a
    positive finite float, both new sides are [int] of the float
    product of the old side with that one factor, and each is less than
    one pixel away from the old side times the value of the factor, so
    the aspect ratio is kept up to one pixel on each axis. *)
Theorem scale_image_keeps_aspect
  (image frame : PIL.Image) (s : State) (cc : CurrentConfig) :
  current_config s = Some cc ->
  moderate (cc_scale_factor cc) ->
  0 < PIL.width image < 2 ^ 31 -> 0 < PIL.height image < 2 ^ 31 ->
  0 < PIL.width frame < 2 ^ 31 -> 0 < PIL.height frame < 2 ^ 31 ->
  exists m e nw nh,
    scale_factor_of (cc_scale_factor cc) image frame = Ok (S754_finite false m e) /\
    Float64.int_of_float
      (Float64.int_mul_float (PIL.width image) (S754_finite false m e)) = Ok nw /\
    Float64.int_of_float
      (Float64.int_mul_float (PIL.height image) (S754_finite false m e)) = Ok nh /\
    (0 < fval m e)%Q /\
    (inject_Z nw - 1 < inject_Z (PIL.width image) * fval m e < inject_Z nw + 1)%Q /\
    (inject_Z nh - 1 < inject_Z (PIL.height image) * fval m e < inject_Z nh + 1)%Q /\
    Z.abs (nw * PIL.height image - nh * PIL.width image)
      < PIL.width image + PIL.height image /\
    (forall out s', scale_image resample image frame s = (Ok out, s') ->
                    PIL.size out = (nw, nh)).
Proof.
  intros Hcc Hk Hw Hh Hfw Hfh.
  destruct (factor_normal _ image frame Hk Hw Hh Hfw Hfh)
    as (m & e & Hf & Hn & He & Hxw & Hxh).
  destruct (side_scaled (PIL.width image) m e Hw Hn He Hxw) as (nw & Hnw & _ & Hrw & _).
  destruct (side_scaled (PIL.height image) m e Hh Hn He Hxh) as (nh & Hnh & _ & Hrh & _).
  exists m, e, nw, nh.
  split; [exact Hf |]. split; [exact Hnw |]. split; [exact Hnh |].
  pose proof (fval_bounds m e Hn) as [Hv _]. pose proof (pow2_pos (e + 52)) as Hp.
  split; [lra |]. split; [exact Hrw |]. split; [exact Hrh |].
  split.
  - pose proof (inject_Z_pos _ (proj1 Hw)) as Hqw. pose proof (inject_Z_pos _ (proj1 Hh)) as Hqh.
    assert (H1 : nh * PIL.width image < nw * PIL.height image + (PIL.width image + PIL.height image)
                 /\ nw * PIL.height image < nh * PIL.width image + (PIL.width image + PIL.height image)).
    { rewrite !Zlt_Qlt, !inject_Z_plus, !inject_Z_mult.
      set (W := inject_Z (PIL.width image)) in *. set (H := inject_Z (PIL.height image)) in *.
      set (a := inject_Z nw) in *. set (b := inject_Z nh) in *. set (r := fval m e) in *.
      clearbody W H a b r.
      destruct Hrw as [Hw1 Hw2]. destruct Hrh as [Hh1 Hh2]. split; nra. }
    lia.
  - intros out s' Hrun.
    rewrite (scale_image_run image frame s cc _ nw nh Hcc Hf Hnw Hnh) in Hrun.
    destruct (PIL.resize resample image nw nh) as [o | c | x] eqn:Hres;
      inversion Hrun; subst.
    unfold PIL.resize, PIL.copy in Hres.
    destruct (Z.eqb_spec (PIL.width image) nw); destruct (Z.eqb_spec (PIL.height image) nh);
      cbn [andb] in Hres;
      try (destruct ((nw <? 1) || (nh <? 1)); [discriminate |]);
      inversion Hres; unfold PIL.size; cbn [PIL.width PIL.height]; congruence.
Qed.

End Scaling.

(** *** The scaler on the sample sizes *)

Lemma moderate_one : moderate (Float Float64.one).
Proof.
  exists 4503599627370496%positive, (-52). split; [reflexivity |].
  split; [| lia]. split; [split; [apply Z.leb_le | apply Z.ltb_lt]; reflexivity | lia].
Qed.

(** C1 as stated fails: a 1002 x 1503 image has the aspect ratio of the
    1200 x 1800 frame, and floor(1503 x 1800/1503) is 1800, but the
    binary64 product [1503 * (1800 / 1503)] is just below 1800 and
    [int] gives 1799. *)
Lemma scale_image_floor_counterexample :
  exists out,
    fst (scale_image Sample.nearest (Sample.photo 1002 1503) (Sample.border_frame 1200 1800)
           unit_scale_state) = Ok out /\
    PIL.size out = (1200, 1799) /\
    spec_scaled_size 1 (Sample.photo 1002 1503) (Sample.border_frame 1200 1800) = (1200, 1800) /\
    PIL.height out <>
      snd (spec_scaled_size 1 (Sample.photo 1002 1503) (Sample.border_frame 1200 1800)).
Proof.
  assert (H : match fst (scale_image Sample.nearest (Sample.photo 1002 1503)
                           (Sample.border_frame 1200 1800) unit_scale_state) with
              | Ok out => PIL.size out = (1200, 1799)
              | _ => False
              end) by (vm_compute; reflexivity).
  destruct (fst (scale_image _ _ _ _)) as [out | c | e]; try contradiction.
  assert (Hspec : spec_scaled_size 1 (Sample.photo 1002 1503) (Sample.border_frame 1200 1800)
                  = (1200, 1800)) by (vm_compute; reflexivity).
  exists out. split; [reflexivity |]. split; [exact H |]. split; [exact Hspec |].
  rewrite Hspec. unfold PIL.size in H. injection H as _ ->. discriminate.
Qed.

(** C8 as stated fails: the 2900 x 1900 image of the specification's
    own scenario becomes 1200 x 786 in the 1200 x 1800 frame, and
    1200/786 is not 2900/1900. *)
Lemma scale_image_aspect_counterexample :
  exists out,
    fst (scale_image Sample.nearest (Sample.photo 2900 1900) (Sample.border_frame 1200 1800)
           unit_scale_state) = Ok out /\
    PIL.size out = (1200, 786) /\
    ~ (inject_Z (PIL.width out) / inject_Z (PIL.height out) ==
       inject_Z 2900 / inject_Z 1900)%Q.
Proof.
  assert (H : match fst (scale_image Sample.nearest (Sample.photo 2900 1900)
                           (Sample.border_frame 1200 1800) unit_scale_state) with
              | Ok out => PIL.size out = (1200, 786)
              | _ => False
              end) by (vm_compute; reflexivity).
  destruct (fst (scale_image _ _ _ _)) as [out | c | e]; try contradiction.
  exists out. split; [reflexivity |]. split; [exact H |].
  unfold PIL.size in H. injection H as -> ->. vm_compute. discriminate.
Qed.

Lemma scale_image_fits_frame_witness :
  exists nw nh, 0 <= nw <= 1200 /\ 0 <= nh <= 1800 /\ (1199 <= nw \/ 1799 <= nh) /\
                Z.abs (nh - 1800) <= 1.
Proof.
  destruct (proj2 (scale_image_fits_frame Sample.nearest
              (Sample.photo 1002 1503) (Sample.border_frame 1200 1800) unit_scale_state
              (mkCurrentConfig "frames/port.png" (mkCrop 0 0 0 0) (Float Float64.one))
              eq_refl)
              eq_refl
              ltac:(cbn; lia) ltac:(cbn; lia) ltac:(cbn; lia) ltac:(cbn; lia))
    as (nw & nh & _ & Hspec & H1 & H2 & H3 & _).
  exists nw, nh. split; [exact H1 |]. split; [exact H2 |]. split; [exact H3 |].
  replace 1800 with (snd (spec_scaled_size 1 (Sample.photo 1002 1503)
                            (Sample.border_frame 1200 1800)))
    by (vm_compute; reflexivity).
  exact Hspec.
Defined.

Lemma scale_image_keeps_aspect_witness :
  exists nw nh, Z.abs (nw * 1900 - nh * 2900) < 2900 + 1900.
Proof.
  destruct (scale_image_keeps_aspect Sample.nearest
              (Sample.photo 2900 1900) (Sample.border_frame 1200 1800) unit_scale_state
              (mkCurrentConfig "frames/port.png" (mkCrop 0 0 0 0) (Float Float64.one))
              eq_refl moderate_one
              ltac:(cbn; lia) ltac:(cbn; lia) ltac:(cbn; lia) ltac:(cbn; lia))
    as (m & e & nw & nh & _ & _ & _ & _ & _ & _ & H & _).
  exists nw, nh. exact H.
Defined.


(** ** What each action does to the state *)

Section Actions.

Variable resample : PIL.resampler.
Variable json_config : JsonConfig.
Variable config : Config.

Lemma logging_inv lvl msg s r s' :
  logging config lvl msg s = (r, s') ->
  r = Ok tt /\ fs s' = fs s /\ current_config s' = current_config s.
Proof.
  unfold logging. intros H. inversion H; subst. destruct (enabled config lvl); auto.
Qed.

Lemma Image_open_inv path s im s' :
  Image_open path s = (Ok im, s') -> s' = s /\ lookup path (fs s) = Some im.
Proof.
  unfold Image_open. destruct (lookup path (fs s)); intros H; inversion H; auto.
Qed.

Lemma Image_save_inv im path s s' :
  Image_save im path s = (Ok tt, s') ->
  fs s' = (path, im) :: fs s /\ current_config s' = current_config s /\
  Py.lower (snd (Py.splitext path)) = ".jpg"%string \/
  fs s' = (path, im) :: fs s /\ current_config s' = current_config s.
Proof.
  unfold Image_save.
  destruct (existsb _ PIL.EXTENSION); intros H; inversion H; subst; cbn; auto.
Qed.

Lemma Image_save_fs im path s s' :
  Image_save im path s = (Ok tt, s') ->
  fs s' = (path, im) :: fs s /\ current_config s' = current_config s.
Proof. intros H. apply Image_save_inv in H. tauto. Qed.

Lemma get_current_config_inv s cc s' :
  get_current_config s = (Ok cc, s') -> s' = s /\ current_config s = Some cc.
Proof.
  unfold get_current_config. destruct (current_config s); intros H; inversion H; auto.
Qed.

Lemma save_image_inv image filename postfix s s' :
  save_image config image filename postfix s = (Ok tt, s') ->
  fs s' = (Py.join (cfg_output config)
             (fst (Py.splitext filename) ++ postfix ++ snd (Py.splitext filename)),
           PIL.convert PIL.RGB image) :: fs s /\
  current_config s' = current_config s.
Proof.
  unfold save_image, output_filename_with_postfix. intros H.
  apply bind_ok_inv in H. destruct H as (name & s1 & H1 & H2).
  apply bind_ok_inv in H1. destruct H1 as ([] & s0 & H0 & H1).
  apply logging_inv in H0. destruct H0 as (_ & Hfs0 & Hcc0).
  inversion H1; subst. apply Image_save_fs in H2.
  destruct H2 as (H2 & H3). rewrite H2, H3, Hfs0, Hcc0. auto.
Qed.

Lemma set_current_config_inv image s s' :
  set_current_config json_config config image s = (Ok tt, s') ->
  fs s' = fs s /\ image_orientation image <> "square"%string /\
  exists cc, current_config s' = Some cc.
Proof.
  unfold set_current_config.
  destruct (String.eqb_spec (image_orientation image) "landscape") as [E | _].
  - intros H. inversion H; subst. cbn. rewrite E. repeat split; [discriminate | eauto].
  - destruct (String.eqb_spec (image_orientation image) "portrait") as [E | _].
    + intros H. inversion H; subst. cbn. rewrite E. repeat split; [discriminate | eauto].
    + intros H. apply bind_ok_inv in H. destruct H as (? & ? & _ & H). discriminate H.
Qed.

Lemma crop_image_inv image s out s' :
  crop_image image s = (Ok out, s') -> s' = s /\ PIL.mode out = PIL.mode image.
Proof.
  unfold crop_image. intros H.
  apply bind_ok_inv in H. destruct H as (cc & s1 & H1 & H).
  apply get_current_config_inv in H1. destruct H1 as (-> & _).
  apply bind_ok_inv in H. destruct H as (im & s2 & H2 & H).
  apply lift_ok_inv in H2. destruct H2 as (H2 & ->).
  inversion H; subst. split; [reflexivity |].
  unfold PIL.crop in H2.
  destruct (_ <? _) in H2; [discriminate |].
  destruct (_ <? _) in H2; [discriminate |].
  now inversion H2.
Qed.

Lemma resize_mode im w h out :
  PIL.resize resample im w h = Ok out -> PIL.mode out = PIL.mode im.
Proof.
  unfold PIL.resize.
  destruct (_ && _); [intros H; injection H as <-; reflexivity |].
  destruct (_ || _); [discriminate |]. intros H; injection H as <-; reflexivity.
Qed.

Lemma scale_image_inv image frame s out s' :
  scale_image resample image frame s = (Ok out, s') ->
  s' = s /\ PIL.mode out = PIL.mode image.
Proof.
  unfold scale_image. intros H.
  apply bind_ok_inv in H. destruct H as (cc & s1 & H1 & H).
  apply get_current_config_inv in H1. destruct H1 as (-> & _).
  apply bind_ok_inv in H. destruct H as (k & s2 & H2 & H).
  apply lift_ok_inv in H2. destruct H2 as (_ & ->).
  apply bind_ok_inv in H. destruct H as (nw & s2 & H2 & H).
  apply lift_ok_inv in H2. destruct H2 as (_ & ->).
  apply bind_ok_inv in H. destruct H as (nh & s2 & H2 & H).
  apply lift_ok_inv in H2. destruct H2 as (_ & ->).
  apply bind_ok_inv in H. destruct H as (im & s2 & H2 & H).
  apply lift_ok_inv in H2. destruct H2 as (H2 & ->).
  inversion H; subst. split; [reflexivity |]. now apply resize_mode in H2.
Qed.

Lemma expand_mode im border fill out :
  PIL.expand im border fill = Ok out -> PIL.mode out = PIL.mode im.
Proof.
  unfold PIL.expand. destruct border as [[[l t] r] b].
  destruct (PIL.getcolor fill); try discriminate.
  unfold PIL.new. destruct (_ || _); [discriminate |].
  unfold PIL.paste. cbn. intros H. now inversion H.
Qed.

Lemma pad_image_inv image frame s out s' :
  pad_image config image frame s = (Ok out, s') ->
  s' = s /\ PIL.mode out = PIL.mode image.
Proof.
  unfold pad_image. intros H.
  apply bind_ok_inv in H. destruct H as (im & s2 & H2 & H).
  apply lift_ok_inv in H2. destruct H2 as (H2 & ->).
  inversion H; subst. split; [reflexivity |]. now apply expand_mode in H2.
Qed.

Lemma frame_image_inv image frame s out s' :
  frame_image image frame s = (Ok out, s') -> s' = s /\ PIL.mode out = PIL.RGB.
Proof.
  unfold frame_image. intros H.
  apply bind_ok_inv in H. destruct H as (im & s2 & H2 & H).
  apply lift_ok_inv in H2. destruct H2 as (H2 & ->).
  inversion H; subst. split; [reflexivity |].
  unfold PIL.convert, PIL.copy. destruct (PIL.mode im) eqn:E; cbn; auto.
Qed.

Lemma convert_same m im : PIL.mode im = m -> PIL.convert m im = im.
Proof. intros <-. unfold PIL.convert, PIL.copy. now destruct (PIL.mode im). Qed.

Lemma convert_mode m im : PIL.mode (PIL.convert m im) = m.
Proof. unfold PIL.convert, PIL.copy. destruct m, (PIL.mode im) eqn:E; cbn; auto. Qed.

Lemma final_image_of_mode original framed :
  PIL.mode (final_image_of json_config original framed) = PIL.mode framed.
Proof. unfold final_image_of. now destruct (_ && _). Qed.

End Actions.

(** ** One entry of the batch *)

Section Batch.

Variable resample : PIL.resampler.
Variable json_config : JsonConfig.
Variable config : Config.

Local Open Scope string_scope.
Local Open Scope Z_scope.
Local Open Scope list_scope.

Lemma ret_inv {A} (a b : A) (s s' : State) : ret a s = (Ok b, s') -> b = a /\ s' = s.
Proof. unfold ret. intros H. inversion H. auto. Qed.

Tactic Notation "step" hyp(H) ident(a) ident(s1) ident(H1) :=
  apply bind_ok_inv in H; destruct H as (a & s1 & H1 & H).

Ltac log_step H :=
  let u := fresh "u" in let s1 := fresh "s" in let H1 := fresh "H" in
  let Hfs := fresh "Hfs" in let Hcc := fresh "Hcc" in
  step H u s1 H1; apply logging_inv in H1; destruct H1 as (_ & Hfs & Hcc).

(** A snapshot step: in debug mode a [save_image] and the next
    ordinal, otherwise nothing. *)
Ltac snapshot H :=
  first
    [ apply ret_inv in H; destruct H as (-> & ->)
    | let v := fresh "v" in let t := fresh "t" in let Hs := fresh "Hsnap" in
      step H v t Hs; destruct v; apply save_image_inv in Hs; destruct Hs as (Hs & _);
      apply ret_inv in H; destruct H as (-> & ->) ].

(** A run of [process_file] that ends normally opened the source,
    found it landscape or portrait, went through the four stages, and
    wrote the final image, after the four snapshots in debug mode. *)
Lemma process_file_ok (filename : string) (s s' : State) :
  process_file resample json_config config filename s = (Ok tt, s') ->
  exists original0 frame cropped scaled padded framed sf,
    lookup (Py.join (cfg_input config) filename) (fs s) = Some original0 /\
    image_orientation (PIL.convert PIL.RGBA original0) <> "square" /\
    PIL.mode cropped = PIL.RGBA /\ PIL.mode scaled = PIL.RGBA /\
    PIL.mode padded = PIL.RGBA /\ PIL.mode framed = PIL.RGB /\
    frame_image padded frame sf = (Ok framed, sf) /\
    fs s' =
      (saved_name config filename (if cfg_debug config then "_4_framed" else "_framed"),
       final_image_of json_config (PIL.convert PIL.RGBA original0) framed)
      :: (if cfg_debug config
          then [ (saved_name config filename "_3_padded", PIL.convert PIL.RGB padded);
                 (saved_name config filename "_2_scaled", PIL.convert PIL.RGB scaled);
                 (saved_name config filename "_1_cropped", PIL.convert PIL.RGB cropped);
                 (saved_name config filename "_0_original",
                  PIL.convert PIL.RGB (PIL.convert PIL.RGBA original0)) ]
          else [])
      ++ fs s.
Proof.
  unfold process_file, logging_debug, logging_info. intros H. revert H.
  destruct (cfg_debug config) eqn:Hdebug; intros H;
  log_step H;
  step H original0 st1 Hopen; apply Image_open_inv in Hopen; destruct Hopen as (-> & Hopen);
  do 3 log_step H;
  step H xu1 st1 Hset; destruct xu1; apply set_current_config_inv in Hset;
  destruct Hset as (Hkeep & Hnsq & _);
  step H c1 st2 Hsave1; snapshot Hsave1;
  step H cc st3 Hget; apply get_current_config_inv in Hget; destruct Hget as (-> & _);
  step H frame0 st4 Hframe; apply Image_open_inv in Hframe; destruct Hframe as (-> & _);
  do 3 log_step H;
  step H cropped st5 Hcrop; apply crop_image_inv in Hcrop; destruct Hcrop as (-> & Hmc);
  log_step H;
  step H c2 st6 Hsave2; snapshot Hsave2;
  step H scaled st7 Hscale; apply scale_image_inv in Hscale; destruct Hscale as (-> & Hms);
  log_step H;
  step H c3 st8 Hsave3; snapshot Hsave3;
  step H padded st9 Hpad; apply pad_image_inv in Hpad; destruct Hpad as (-> & Hmp);
  log_step H;
  step H c4 st10 Hsave4; snapshot Hsave4;
  step H framed st11 Hfr; pose proof Hfr as Hfr';
  apply frame_image_inv in Hfr'; destruct Hfr' as (-> & Hmf);
  log_step H;
  step H xu2 st12 Hsave5; destruct xu2; apply save_image_inv in Hsave5;
  destruct Hsave5 as (Hwrite & _);
  step H xu3 st13 Hunset; unfold unset_current_config, put_current_config in Hunset;
  inversion Hunset; subst st13; clear Hunset;
  apply logging_inv in H; destruct H as (_ & Hlast & _); cbn [fs] in Hlast;
    rewrite convert_mode in Hmc; rewrite Hmc in Hms; rewrite Hms in Hmp;
    rewrite convert_same in Hwrite by (now rewrite final_image_of_mode);
    exists original0, (PIL.convert PIL.RGBA frame0), cropped, scaled, padded, framed;
    eexists;
    (split; [now rewrite <- Hopen; f_equal |]);
    repeat (split; [eassumption |]);
    unfold saved_name;
    repeat match goal with
           | E : fs ?x = _ |- context [fs ?x] => rewrite E
           end;
    reflexivity.
Qed.

Lemma orientation_portrait (image : PIL.Image) :
  String.eqb (image_orientation image) "portrait" = (PIL.width image <? PIL.height image).
Proof.
  unfold image_orientation.
  destruct (Z.gtb_spec (PIL.width image) (PIL.height image));
    destruct (Z.ltb_spec (PIL.width image) (PIL.height image)); try reflexivity; lia.
Qed.

Lemma orientation_square (image : PIL.Image) :
  PIL.width image = PIL.height image -> image_orientation image = "square".
Proof.
  intros E. unfold image_orientation. rewrite E, Z.ltb_irrefl.
  destruct (Z.gtb_spec (PIL.height image) (PIL.height image)); [lia | reflexivity].
Qed.

Lemma convert_size m im : PIL.size (PIL.convert m im) = PIL.size im.
Proof. unfold PIL.convert, PIL.copy. destruct m, (PIL.mode im); reflexivity. Qed.

Lemma convert_width m im : PIL.width (PIL.convert m im) = PIL.width im.
Proof. unfold PIL.convert, PIL.copy. destruct m, (PIL.mode im); reflexivity. Qed.

Lemma convert_height m im : PIL.height (PIL.convert m im) = PIL.height im.
Proof. unfold PIL.convert, PIL.copy. destruct m, (PIL.mode im); reflexivity. Qed.

(** *** What gets written *)

Lemma writes_rgb_same_fs {A} (m : M A) :
  (forall s, fs (snd (m s)) = fs s) -> writes_rgb m.
Proof. intros H s. exists []. now rewrite H. Qed.

Lemma writes_rgb_ret {A} (a : A) : writes_rgb (ret a).
Proof. now apply writes_rgb_same_fs. Qed.

Lemma writes_rgb_lift {A} (r : result A) : writes_rgb (lift r).
Proof. now apply writes_rgb_same_fs. Qed.

Lemma writes_rgb_bind {A B} (m : M A) (k : A -> M B) :
  writes_rgb m -> (forall a, writes_rgb (k a)) -> writes_rgb (bind m k).
Proof.
  intros Hm Hk s. unfold bind. destruct (Hm s) as (w1 & E1 & F1).
  destruct (m s) as [[a | c | e] s1]; cbn [snd] in *; try (now exists w1).
  destruct (Hk a s1) as (w2 & E2 & F2).
  exists (w2 ++ w1). rewrite E2, E1, app_assoc. split; [reflexivity |].
  apply Forall_app. now split.
Qed.

Lemma writes_rgb_logging lvl msg : writes_rgb (logging config lvl msg).
Proof.
  apply writes_rgb_same_fs. intros s. unfold logging. cbn.
  now destruct (enabled config lvl).
Qed.

Lemma writes_rgb_Image_open path : writes_rgb (Image_open path).
Proof.
  apply writes_rgb_same_fs. intros s. unfold Image_open.
  now destruct (lookup path (fs s)).
Qed.

Lemma writes_rgb_get_current_config : writes_rgb get_current_config.
Proof.
  apply writes_rgb_same_fs. intros s. unfold get_current_config.
  now destruct (current_config s).
Qed.

Lemma writes_rgb_put_current_config cc : writes_rgb (put_current_config cc).
Proof. now apply writes_rgb_same_fs. Qed.

Lemma writes_rgb_os_listdir dir : writes_rgb (os_listdir dir).
Proof. now apply writes_rgb_same_fs. Qed.

Lemma rgb_entry_convert name im : rgb_entry (name, PIL.convert PIL.RGB im).
Proof.
  unfold rgb_entry, PIL.getbands. cbn [snd]. now rewrite convert_mode.
Qed.

Lemma writes_rgb_Image_save im path :
  PIL.mode im = PIL.RGB -> writes_rgb (Image_save im path).
Proof.
  intros Hm s. unfold Image_save. destruct (existsb _ PIL.EXTENSION); cbn [snd fs].
  - exists [(path, im)]. split; [reflexivity |]. constructor; [| constructor].
    unfold rgb_entry, PIL.getbands. cbn [snd]. now rewrite Hm.
  - now exists [].
Qed.

Create HintDb writes.

#[local] Hint Resolve writes_rgb_ret writes_rgb_lift writes_rgb_logging
  writes_rgb_Image_open writes_rgb_get_current_config writes_rgb_put_current_config
  writes_rgb_os_listdir : writes.

Ltac writes :=
  repeat first
    [ solve [auto with writes]
    | match goal with
      | |- writes_rgb (if ?b then _ else _) => destruct b
      | |- writes_rgb (Image_save (PIL.convert PIL.RGB _) _) =>
          apply writes_rgb_Image_save, convert_mode
      end
    | apply writes_rgb_bind; [| intros ?] ].

Lemma writes_rgb_save_image image filename postfix :
  writes_rgb (save_image config image filename postfix).
Proof. unfold save_image, output_filename_with_postfix, logging_debug. writes. Qed.

Lemma writes_rgb_process_file filename :
  writes_rgb (process_file resample json_config config filename).
Proof.
  pose proof writes_rgb_save_image as Hsave.
  unfold process_file, set_current_config, unset_current_config, crop_image, scale_image,
    pad_image, frame_image, exit, logging_debug, logging_info, logging_error.
  writes.
Qed.

Lemma writes_rgb_for_each {A} (xs : list A) (body : A -> M unit) :
  (forall x, writes_rgb (body x)) -> writes_rgb (for_each xs body).
Proof.
  intros Hbody. induction xs as [| x rest IH]; cbn [for_each].
  - apply writes_rgb_ret.
  - apply writes_rgb_bind; [apply Hbody | intros _; exact IH].
Qed.

(** C10: every image [save_image] persists has been converted to RGB:
    it has mode RGB and three bands, the size and the colour bands of
    the image given; whatever [process] writes, in any mode and
    whatever its outcome, is such an image, while the original, the
    cropped, the scaled and the padded image of a run are RGBA in
    memory. *)
Theorem saved_images_are_rgb :
  (forall s, exists written,
      fs (snd (process resample json_config config s)) = written ++ fs s /\
      Forall rgb_entry written) /\
  (forall image filename postfix s, exists written,
      fs (snd (save_image config image filename postfix s)) = written ++ fs s /\
      Forall (fun e => rgb_entry e /\ PIL.size (snd e) = PIL.size image /\
                       forall x y, PIL.getpixel (snd e) x y =
                                   firstn 3 (PIL.getpixel image x y)) written) /\
  (forall filename s s',
      process_file resample json_config config filename s = (Ok tt, s') ->
      exists original cropped scaled padded final,
        lookup (Py.join (cfg_input config) filename) (fs s) = Some original /\
        PIL.mode (PIL.convert PIL.RGBA original) = PIL.RGBA /\
        PIL.mode cropped = PIL.RGBA /\ PIL.mode scaled = PIL.RGBA /\
        PIL.mode padded = PIL.RGBA /\ PIL.mode final = PIL.RGB /\
        fs s' =
          (saved_name config filename (if cfg_debug config then "_4_framed" else "_framed"), final)
          :: (if cfg_debug config
              then [ (saved_name config filename "_3_padded", PIL.convert PIL.RGB padded);
                     (saved_name config filename "_2_scaled", PIL.convert PIL.RGB scaled);
                     (saved_name config filename "_1_cropped", PIL.convert PIL.RGB cropped);
                     (saved_name config filename "_0_original",
                      PIL.convert PIL.RGB (PIL.convert PIL.RGBA original)) ]
              else [])
          ++ fs s).
Proof.
  split; [| split].
  - unfold process, process_entry.
    apply writes_rgb_bind; [apply writes_rgb_os_listdir | intros names].
    apply writes_rgb_for_each. intros filename.
    destruct (Py.endswith filename ".jpg");
      [apply writes_rgb_process_file | apply writes_rgb_ret].
  - intros image filename postfix s.
    unfold save_image, output_filename_with_postfix, logging_debug, bind, logging, ret, Image_save.
    cbn [fs snd].
    match goal with
    | |- context [existsb ?f PIL.EXTENSION] => destruct (existsb f PIL.EXTENSION)
    end; cbn [snd fs].
    + eexists (_ :: nil). split.
      * destruct (enabled config DEBUG); reflexivity.
      * constructor; [| constructor]. cbn [snd].
        split; [apply rgb_entry_convert |]. split; [apply convert_size |].
        intros x y. unfold PIL.getpixel, PIL.convert, PIL.copy.
        destruct (PIL.mode image) eqn:E; cbn [PIL.mode PIL.pixel]; rewrite ?E; reflexivity.
    + exists []. split; [| constructor].
      destruct (enabled config DEBUG); reflexivity.
  - intros filename s s' H. apply process_file_ok in H.
    destruct H as (original0 & frame & cropped & scaled & padded & framed & sf &
                   Hopen & _ & Hmc & Hms & Hmp & Hmf & _ & Hfs).
    exists original0, cropped, scaled, padded. eexists.
    split; [exact Hopen |]. split; [apply convert_mode |].
    repeat (split; [assumption |]).
    split; [| exact Hfs].
    now rewrite final_image_of_mode.
Qed.

(** *** A square source *)

Lemma for_each_app {A} (xs ys : list A) (body : A -> M unit) (s s1 : State) :
  for_each xs body s = (Ok tt, s1) ->
  for_each (xs ++ ys) body s = for_each ys body s1.
Proof.
  revert s. induction xs as [| x rest IH]; intros s H; cbn [for_each app] in *.
  - apply ret_inv in H. now destruct H as (_ & ->).
  - apply bind_ok_inv in H. destruct H as ([] & s0 & Hx & Hrest).
    rewrite (bind_ok _ _ _ _ _ Hx). now apply IH.
Qed.

Lemma process_file_square (filename : string) (s : State) (im : PIL.Image) :
  lookup (Py.join (cfg_input config) filename) (fs s) = Some im ->
  PIL.width im = PIL.height im ->
  process_file resample json_config config filename s =
  (SystemExit 1, mkState (fs s) (log s ++ square_log config filename im) (current_config s)).
Proof.
  intros Hopen Hsq.
  assert (Hor : image_orientation (PIL.convert PIL.RGBA im) = "square").
  { apply orientation_square. now rewrite convert_width, convert_height. }
  unfold process_file.
  unfold bind at 1. unfold logging_info at 1. unfold logging at 1. cbn [enabled].
  unfold bind at 1. unfold Image_open at 1. cbn [fs]. rewrite Hopen.
  unfold set_current_config. rewrite Hor. cbn [String.eqb Ascii.eqb Bool.eqb].
  unfold bind, logging_debug, logging_error, logging, exit, lift, square_log, enabled.
  destruct (cfg_debug config); cbn [fs log current_config app];
    rewrite <- ?app_assoc; reflexivity.
Qed.

(** C5: when the loop reaches a [.jpg] entry whose image is square,
    the run ends there with [exit(1)]: the error is logged, the exit
    status is 1, nothing is written for that entry, and the entries
    after it are not processed, whatever they are. *)
Theorem square_image_aborts_run
  (s s1 : State) (before after : list string) (filename : string) (im : PIL.Image) :
  os_listdir (cfg_input config) s = (Ok (before ++ filename :: after), s) ->
  for_each before (process_entry resample json_config config) s = (Ok tt, s1) ->
  Py.endswith filename ".jpg" = true ->
  lookup (Py.join (cfg_input config) filename) (fs s1) = Some im ->
  PIL.width im = PIL.height im ->
  exists s2,
    process resample json_config config s = (SystemExit 1, s2) /\
    exit_status (fst (process resample json_config config s)) = 1 /\
    fs s2 = fs s1 /\
    log s2 = log s1 ++ square_log config filename im /\
    last (log s2) (INFO, "") = (ERROR, "Can't process square image") /\
    for_each (before ++ [filename]) (process_entry resample json_config config) s =
      (SystemExit 1, s2).
Proof.
  intros Hlist Hbefore Hjpg Hopen Hsq.
  pose proof (process_file_square filename s1 im Hopen Hsq) as Hfile.
  assert (Hrun : forall rest,
             for_each (before ++ filename :: rest) (process_entry resample json_config config) s =
             (SystemExit 1, mkState (fs s1) (log s1 ++ square_log config filename im) (current_config s1))).
  { intros rest. rewrite (for_each_app _ _ _ _ _ Hbefore). cbn [for_each].
    unfold bind, process_entry at 1. now rewrite Hjpg, Hfile. }
  eexists. split; [| split; [| split; [| split; [| split]]]].
  - unfold process. rewrite (bind_ok _ _ _ _ _ Hlist). apply Hrun.
  - unfold process. rewrite (bind_ok _ _ _ _ _ Hlist). now rewrite Hrun.
  - reflexivity.
  - reflexivity.
  - cbn [log]. unfold square_log. rewrite !app_assoc. apply last_last.
  - apply Hrun.
Qed.

(** *** The name of the final file *)

Lemma len_app (a b : string) : Py.len (a ++ b) = Py.len a + Py.len b.
Proof.
  unfold Py.len. induction a as [| c a IH]; cbn [String.append String.length]; lia.
Qed.

Lemma rfind_from_rel (c : ascii) (a : string) (i acc i' acc' : Z) :
  (Py.rfind_from c a i acc = acc /\ Py.rfind_from c a i' acc' = acc') \/
  (exists k, 0 <= k < Py.len a /\
             Py.rfind_from c a i acc = i + k /\ Py.rfind_from c a i' acc' = i' + k).
Proof.
  revert i acc i' acc'. induction a as [| x a IH]; intros i acc i' acc'; cbn [Py.rfind_from].
  - now left.
  - assert (Hlen : Py.len (String x a) = Py.len a + 1) by (unfold Py.len; cbn [String.length]; lia).
    destruct (Ascii.eqb x c).
    + right. destruct (IH (i + 1) i (i' + 1) i') as [(E1 & E2) | (k & Hk & E1 & E2)].
      * exists 0. rewrite E1, E2. unfold Py.len in *. lia.
      * exists (k + 1). rewrite E1, E2. lia.
    + destruct (IH (i + 1) acc (i' + 1) acc') as [(E1 & E2) | (k & Hk & E1 & E2)].
      * now left.
      * right. exists (k + 1). rewrite E1, E2. lia.
Qed.

Lemma rfind_from_absent (c : ascii) (a : string) (i acc : Z) :
  Py.rfind c a = -1 -> Py.rfind_from c a i acc = acc.
Proof.
  unfold Py.rfind. intros H.
  destruct (rfind_from_rel c a i acc 0 (-1)) as [(E1 & _) | (k & Hk & _ & E2)]; [exact E1 | lia].
Qed.

Lemma rfind_from_app (c : ascii) (a b : string) (i acc : Z) :
  Py.rfind_from c (a ++ b) i acc = Py.rfind_from c b (i + Py.len a) (Py.rfind_from c a i acc).
Proof.
  revert i acc. induction a as [| x a IH]; intros i acc; cbn [String.append Py.rfind_from].
  - unfold Py.len. cbn [String.length]. now rewrite Z.add_0_r.
  - rewrite IH. f_equal. unfold Py.len. cbn [String.length]. lia.
Qed.

Lemma substring_app_l (a b : string) : substring 0 (String.length a) (a ++ b) = a.
Proof.
  induction a as [| x a IH]; cbn [String.append String.length substring].
  - now destruct b.
  - now rewrite IH.
Qed.

Lemma substring_all (b : string) : substring 0 (String.length b) b = b.
Proof. induction b as [| x b IH]; cbn [String.length substring]; [| rewrite IH]; reflexivity. Qed.

Lemma substring_app_r (a b : string) :
  substring (String.length a) (String.length b) (a ++ b) = b.
Proof.
  induction a as [| x a IH]; cbn [String.append String.length substring].
  - apply substring_all.
  - exact IH.
Qed.

(** [splitext] on a name that ends in [.jpg] after a stem that is not
    made of dots only. *)
Lemma splitext_jpg (stem : string) :
  Py.rfind Py.sep stem = -1 -> Py.has_non_dot stem = true ->
  Py.splitext (stem ++ ".jpg") = (stem, ".jpg").
Proof.
  intros Hsep Hdot. unfold Py.splitext, Py.rfind.
  rewrite !rfind_from_app. cbn [Py.rfind_from Ascii.eqb Bool.eqb Py.sep Py.extsep].
  rewrite (rfind_from_absent _ _ _ _ Hsep), Z.add_0_l.
  assert (Hlen : 0 <= Py.len stem) by (unfold Py.len; lia).
  destruct (Z.ltb_spec (-1) (Py.len stem)) as [_ | Hbad]; [| lia].
  unfold Py.slice. rewrite len_app.
  change (-1 + 1) with 0. rewrite !Z.sub_0_r.
  replace (Py.len stem + Py.len ".jpg" - Py.len stem) with (Py.len ".jpg") by lia.
  unfold Py.len. rewrite !Nat2Z.id. change (Z.to_nat 0) with 0%nat.
  rewrite substring_app_l, substring_app_r, Hdot. reflexivity.
Qed.

(** C9, as the code has it: for a source named [stem.jpg], the final
    image is written in the output directory as [stem_framed.jpg]
    outside debug mode, where it is the only file written, and as
    [stem_4_framed.jpg] in debug mode, after the four snapshots. *)
Theorem final_image_name (stem : string) (s s' : State) :
  Py.rfind Py.sep stem = -1 -> Py.has_non_dot stem = true ->
  process_file resample json_config config (stem ++ ".jpg") s = (Ok tt, s') ->
  exists final rest,
    fs s' =
      (Py.join (cfg_output config)
         (stem ++ (if cfg_debug config then "_4_framed" else "_framed") ++ ".jpg")%string,
       final) :: rest /\
    PIL.mode final = PIL.RGB /\
    (cfg_debug config = false -> rest = fs s).
Proof.
  intros Hsep Hdot H. apply process_file_ok in H.
  destruct H as (original0 & frame & cropped & scaled & padded & framed & sf &
                 _ & _ & _ & _ & _ & Hmf & _ & Hfs).
  unfold saved_name in Hfs. rewrite (splitext_jpg stem Hsep Hdot) in Hfs. cbn [fst snd] in Hfs.
  do 2 eexists. split; [exact Hfs |]. split.
  - now rewrite final_image_of_mode.
  - intros ->. reflexivity.
Qed.

End Batch.

(** ** The properties on the sample run *)

Section SampleRuns.

Local Open Scope string_scope.
Local Open Scope Z_scope.
Local Open Scope list_scope.

Let landscape_state : State :=
  mkState Sample.files []
    (Some (mkCurrentConfig "frames/land.png" (mkCrop 1 1 1 1) (Float Float64.one))).

Lemma crop_image_spec_witness :
  exists out,
    crop_image (Sample.photo 8 6) landscape_state = (Ok out, landscape_state) /\
    PIL.size out = (6, 4) /\
    PIL.getpixel out 0 0 = PIL.getpixel (Sample.photo 8 6) 1 1.
Proof.
  destruct (crop_image_spec (Sample.photo 8 6) landscape_state
              (mkCurrentConfig "frames/land.png" (mkCrop 1 1 1 1) (Float Float64.one))
              eq_refl
              ltac:(vm_compute; discriminate) ltac:(vm_compute; discriminate)
              ltac:(vm_compute; discriminate) ltac:(vm_compute; discriminate)
              ltac:(vm_compute; reflexivity) ltac:(vm_compute; reflexivity)
              ltac:(vm_compute; discriminate))
    as (out & Hrun & Hsize & _ & Hpix).
  exists out. split; [exact Hrun |]. split; [exact Hsize |].
  apply Hpix.
  - rewrite (f_equal fst Hsize : PIL.width out = _). vm_compute. split; [discriminate | reflexivity].
  - rewrite (f_equal snd Hsize : PIL.height out = _). vm_compute. split; [discriminate | reflexivity].
Defined.

Lemma pad_image_spec_witness :
  exists out,
    pad_image (Sample.config false) (Sample.photo 3 6) (Sample.border_frame 4 7) Sample.initial
      = (Ok out, Sample.initial) /\
    PIL.size out = (4, 7) /\
    padding_of (Sample.photo 3 6) (Sample.border_frame 4 7) = (0, 0, 1, 1).
Proof.
  destruct (pad_image_spec (Sample.config false) (Sample.photo 3 6) (Sample.border_frame 4 7)
              Sample.initial
              ltac:(vm_compute; split; discriminate) ltac:(vm_compute; split; discriminate))
    as (out & lp & tp & rp & bp & Hrun & Hsize & _).
  exists out. split; [exact Hrun |]. split; [exact Hsize | reflexivity].
Defined.

Lemma frame_image_spec_witness :
  exists out,
    frame_image (Sample.photo 6 4) (Sample.border_frame 6 4) Sample.initial
      = (Ok out, Sample.initial) /\
    PIL.mode out = PIL.RGB /\
    PIL.getpixel out 2 1 = [2; 1; 3] /\
    PIL.getpixel out 0 0 = [0; 0; 200].
Proof.
  destruct (frame_image_spec (Sample.photo 6 4) (Sample.border_frame 6 4) Sample.initial
              eq_refl eq_refl)
    as (out & Hrun & Hmode & _ & _ & Hpix).
  exists out. split; [exact Hrun |]. split; [exact Hmode |]. split.
  - refine (proj1 (Hpix 2 1 _ _ _ _) eq_refl);
      vm_compute; repeat split; discriminate.
  - refine (proj2 (Hpix 0 0 _ _ _ _) eq_refl);
      vm_compute; repeat split; discriminate.
Defined.

(** The run of one portrait entry outside debug mode, and of one
    landscape entry in debug mode. *)
Let run_b : result unit * State :=
  process_file Sample.nearest Sample.json_config (Sample.config false) "b.jpg" Sample.initial.

Let run_a_debug : result unit * State :=
  process_file Sample.nearest Sample.json_config (Sample.config true) "a.jpg" Sample.initial.

Lemma outcome_and_state {A} (p : result A * State) (r : result A) :
  fst p = r -> p = (r, snd p).
Proof. intros <-. now destruct p. Qed.

Lemma run_b_ok : run_b = (Ok tt, snd run_b).
Proof. apply outcome_and_state. vm_compute. reflexivity. Qed.

Lemma run_a_debug_ok : run_a_debug = (Ok tt, snd run_a_debug).
Proof. apply outcome_and_state. vm_compute. reflexivity. Qed.

Lemma final_image_name_witness :
  exists final rest,
    fs (snd run_b) = ("out/b_framed.jpg", final) :: rest /\ rest = Sample.files.
Proof.
  destruct (final_image_name Sample.nearest Sample.json_config (Sample.config false) "b"
              Sample.initial (snd run_b) eq_refl eq_refl run_b_ok)
    as (final & rest & Hfs & _ & Hrest).
  exists final, rest. split; [exact Hfs | exact (Hrest eq_refl)].
Defined.

(** C9 as stated fails in debug mode: the run of [a.jpg] writes its
    final image as [out/a_4_framed.jpg], and no [out/a_framed.jpg]
    exists afterwards. *)
Lemma final_image_name_debug_counterexample :
  fst run_a_debug = Ok tt /\
  map fst (firstn 1 (fs (snd run_a_debug))) = ["out/a_4_framed.jpg"] /\
  lookup "out/a_framed.jpg" (fs (snd run_a_debug)) = None /\
  ~ (exists final rest, fs (snd run_a_debug) = ("out/a_framed.jpg", final) :: rest).
Proof.
  split; [vm_compute; reflexivity |]. split; [vm_compute; reflexivity |].
  assert (Hnone : lookup "out/a_framed.jpg" (fs (snd run_a_debug)) = None)
    by (vm_compute; reflexivity).
  split; [exact Hnone |].
  intros (final & rest & E). rewrite E in Hnone. cbn in Hnone. discriminate Hnone.
Qed.

Lemma saved_images_are_rgb_witness :
  exists original cropped scaled padded final,
    PIL.mode (PIL.convert PIL.RGBA original) = PIL.RGBA /\
    PIL.mode cropped = PIL.RGBA /\ PIL.mode scaled = PIL.RGBA /\
    PIL.mode padded = PIL.RGBA /\ PIL.mode final = PIL.RGB /\
    map fst (fs (snd run_a_debug)) =
      ["out/a_4_framed.jpg"; "out/a_3_padded.jpg"; "out/a_2_scaled.jpg";
       "out/a_1_cropped.jpg"; "out/a_0_original.jpg"] ++ map fst Sample.files.
Proof.
  destruct (proj2 (proj2 (saved_images_are_rgb
                            Sample.nearest Sample.json_config (Sample.config true)))
              "a.jpg" Sample.initial (snd run_a_debug) run_a_debug_ok)
    as (original & cropped & scaled & padded & final & _ & H1 & H2 & H3 & H4 & H5 & Hfs).
  exists original, cropped, scaled, padded, final.
  repeat (split; [assumption |]).
  rewrite Hfs. reflexivity.
Defined.

Lemma square_image_aborts_run_witness :
  exists s2,
    process Sample.nearest Sample.json_config (Sample.config false) Sample.initial
      = (SystemExit 1, s2) /\
    map fst (fs s2) = ["out/b_framed.jpg"; "out/a_framed.jpg"] ++ map fst Sample.files.
Proof.
  destruct (square_image_aborts_run
              Sample.nearest Sample.json_config (Sample.config false) Sample.initial
              (snd (for_each ["a.jpg"; "notes.txt"; "b.jpg"]
                      (process_entry Sample.nearest Sample.json_config (Sample.config false))
                      Sample.initial))
              ["a.jpg"; "notes.txt"; "b.jpg"] ["d.jpg"] "c.jpg" (Sample.photo 5 5)
              ltac:(vm_compute; reflexivity)
              ltac:(apply outcome_and_state; vm_compute; reflexivity)
              ltac:(vm_compute; reflexivity) ltac:(vm_compute; reflexivity)
              ltac:(vm_compute; reflexivity))
    as (s2 & Hrun & _ & Hfs & _).
  exists s2. split; [exact Hrun |]. rewrite Hfs. vm_compute. reflexivity.
Defined.

End SampleRuns.

(** * Further properties *)

(** ** The stages on their own *)

Section Stages.

Variable resample : PIL.resampler.
Variable config : Config.

Local Open Scope string_scope.
Local Open Scope Z_scope.

(** [pad_image] for any two sizes: the canvas it returns. *)
Lemma pad_image_run (image frame : PIL.Image) (s : State) :
  0 <= PIL.width frame -> 0 <= PIL.height frame ->
  exists out,
    pad_image config image frame s = (Ok out, s) /\
    PIL.size out = PIL.size frame /\ PIL.mode out = PIL.mode image /\
    forall x y,
      if PIL.inside image (x - (PIL.width frame - PIL.width image) / 2)
                          (y - (PIL.height frame - PIL.height image) / 2)
      then PIL.getpixel out x y =
           PIL.getpixel image (x - (PIL.width frame - PIL.width image) / 2)
                              (y - (PIL.height frame - PIL.height image) / 2)
      else PIL.pixel out x y =
           (if cfg_debug config then (255, 0, 0, 255) else (255, 255, 255, 255)).
Proof.
  intros Hw Hh.
  set (dw := PIL.width frame - PIL.width image).
  set (dh := PIL.height frame - PIL.height image).
  unfold pad_image, bind, lift, padding_of. rewrite !Z.add_0_r. fold dw dh.
  unfold PIL.expand.
  assert (Hcol : PIL.getcolor (fill_color config) =
                 Ok (if cfg_debug config then (255, 0, 0, 255) else (255, 255, 255, 255))).
  { unfold fill_color. now destruct (cfg_debug config). }
  rewrite Hcol. unfold PIL.new.
  replace (dw / 2 + PIL.width image + (dw - dw / 2)) with (PIL.width frame) by (unfold dw; lia).
  replace (dh / 2 + PIL.height image + (dh - dh / 2)) with (PIL.height frame) by (unfold dh; lia).
  destruct (Z.ltb_spec (PIL.width frame) 0) as [Hbad | _]; [lia |].
  destruct (Z.ltb_spec (PIL.height frame) 0) as [Hbad | _]; [lia |].
  cbn [orb]. unfold PIL.paste; cbn [PIL.mode option_map].
  eexists. split; [reflexivity |]. split; [reflexivity |]. split; [reflexivity |].
  intros x y. unfold PIL.getpixel; cbn [PIL.pixel PIL.mode].
  assert (Hsame : match PIL.mode image, PIL.mode image with
                  | PIL.RGB, PIL.RGBA => PIL.convert PIL.RGB image
                  | PIL.RGBA, PIL.RGB => PIL.convert PIL.RGBA image
                  | _, _ => image
                  end = image) by now destruct (PIL.mode image).
  rewrite Hsame.
  destruct (PIL.inside image (x - dw / 2) (y - dh / 2)).
  - destruct (PIL.mode image); reflexivity.
  - destruct (PIL.mode image), (cfg_debug config); reflexivity.
Qed.

Lemma half_of_nonpositive (d : Z) : d <= 0 -> d / 2 = - ((- d + 1) / 2).
Proof.
  intros Hd.
  pose proof (Z.div_mod d 2 ltac:(lia)). pose proof (Z.mod_pos_bound d 2 ltac:(lia)).
  pose proof (Z.div_mod (- d + 1) 2 ltac:(lia)).
  pose proof (Z.mod_pos_bound (- d + 1) 2 ltac:(lia)). lia.
Qed.

(** X1: [pad_image] returns a canvas of exactly the frame's size also
    for an image larger than the frame (an overscaled one): the canvas
    is then the centred window of the image, no fill colour shows, and
    what is cut off on the left (top) is what is cut off on the right
    (bottom), or one pixel more. *)
Theorem pad_image_centre_crop (image frame : PIL.Image) (s : State) :
  0 <= PIL.width frame <= PIL.width image ->
  0 <= PIL.height frame <= PIL.height image ->
  exists out cx cy,
    pad_image config image frame s = (Ok out, s) /\
    PIL.size out = (PIL.width frame, PIL.height frame) /\
    cx = (PIL.width image - PIL.width frame + 1) / 2 /\
    cy = (PIL.height image - PIL.height frame + 1) / 2 /\
    0 <= PIL.width image - PIL.width frame - cx <= cx /\
    cx <= PIL.width image - PIL.width frame - cx + 1 /\
    0 <= PIL.height image - PIL.height frame - cy <= cy /\
    cy <= PIL.height image - PIL.height frame - cy + 1 /\
    forall x y, 0 <= x < PIL.width frame -> 0 <= y < PIL.height frame ->
      PIL.inside image (x + cx) (y + cy) = true /\
      PIL.getpixel out x y = PIL.getpixel image (x + cx) (y + cy).
Proof.
  intros Hw Hh.
  destruct (pad_image_run image frame s ltac:(lia) ltac:(lia)) as (out & Hrun & Hsize & _ & Hpix).
  set (cx := (PIL.width image - PIL.width frame + 1) / 2).
  set (cy := (PIL.height image - PIL.height frame + 1) / 2).
  assert (Ex : (PIL.width frame - PIL.width image) / 2 = - cx).
  { rewrite half_of_nonpositive by lia. unfold cx. do 2 f_equal. lia. }
  assert (Ey : (PIL.height frame - PIL.height image) / 2 = - cy).
  { rewrite half_of_nonpositive by lia. unfold cy. do 2 f_equal. lia. }
  pose proof (Z.div_mod (PIL.width image - PIL.width frame + 1) 2 ltac:(lia)) as Dx.
  pose proof (Z.mod_pos_bound (PIL.width image - PIL.width frame + 1) 2 ltac:(lia)) as Bx.
  pose proof (Z.div_mod (PIL.height image - PIL.height frame + 1) 2 ltac:(lia)) as Dy.
  pose proof (Z.mod_pos_bound (PIL.height image - PIL.height frame + 1) 2 ltac:(lia)) as By.
  fold cx in Dx. fold cy in Dy.
  exists out, cx, cy. split; [exact Hrun |]. split; [exact Hsize |].
  split; [reflexivity |]. split; [reflexivity |].
  split; [lia |]. split; [lia |]. split; [lia |]. split; [lia |].
  intros x y Hx Hy. specialize (Hpix x y). rewrite Ex, Ey in Hpix.
  replace (x - - cx) with (x + cx) in Hpix by lia.
  replace (y - - cy) with (y + cy) in Hpix by lia.
  assert (Hin : PIL.inside image (x + cx) (y + cy) = true).
  { unfold PIL.inside. rewrite !andb_true_iff, !Z.leb_le, !Z.ltb_lt. lia. }
  rewrite Hin in Hpix. now split.
Qed.

(** X2: a crop whose left and right margins add up to the whole width,
    or whose top and bottom margins add up to the whole height, is
    accepted and gives an image with an empty side; [scale_image] then
    divides by that side and raises ZeroDivisionError, whatever the
    frame and the multiplier. *)
Theorem crop_to_nothing_stops_scaling
  (image : PIL.Image) (s : State) (cc : CurrentConfig) :
  current_config s = Some cc ->
  crop_left (cc_crop cc) + crop_right (cc_crop cc) <= PIL.width image ->
  crop_top (cc_crop cc) + crop_bottom (cc_crop cc) <= PIL.height image ->
  crop_left (cc_crop cc) + crop_right (cc_crop cc) = PIL.width image \/
  crop_top (cc_crop cc) + crop_bottom (cc_crop cc) = PIL.height image ->
  exists out,
    crop_image image s = (Ok out, s) /\
    (PIL.width out = 0 \/ PIL.height out = 0) /\
    forall frame,
      scale_image resample out frame s = (Raised ZeroDivisionError, s).
Proof.
  intros Hcc Hw Hh Hzero.
  unfold crop_image, bind, get_current_config, lift, ret. rewrite Hcc. unfold PIL.crop.
  destruct (Z.ltb_spec (PIL.width image - crop_right (cc_crop cc)) (crop_left (cc_crop cc)));
    [lia |].
  destruct (Z.ltb_spec (PIL.height image - crop_bottom (cc_crop cc)) (crop_top (cc_crop cc)));
    [lia |].
  eexists. split; [reflexivity |]. cbn [PIL.width PIL.height]. split; [lia |].
  intros frame. unfold scale_image, bind, get_current_config, lift. rewrite Hcc.
  unfold scale_factor_of, Float64.int_truediv. cbn [PIL.width PIL.height].
  destruct Hzero as [E | E].
  - replace (PIL.width image - crop_right (cc_crop cc) - crop_left (cc_crop cc)) with 0 by lia.
    reflexivity.
  - replace (PIL.height image - crop_bottom (cc_crop cc) - crop_top (cc_crop cc)) with 0 by lia.
    cbn [Z.eqb]. now destruct (_ =? 0).
Qed.

(** The composite over a canvas of the frame's size, band by band. *)
Lemma frame_image_bands (canvas frame : PIL.Image) (s : State) :
  PIL.mode frame = PIL.RGBA ->
  PIL.size canvas = PIL.size frame ->
  exists out,
    frame_image canvas frame s = (Ok out, s) /\
    PIL.mode out = PIL.RGB /\ PIL.size out = PIL.size frame /\
    forall x y, 0 <= x < PIL.width frame -> 0 <= y < PIL.height frame ->
      PIL.byte_bands (PIL.pixel frame x y) ->
      (PIL.alpha_of (PIL.pixel frame x y) = 255 ->
       PIL.getpixel out x y = firstn 3 (PIL.getpixel frame x y)) /\
      (PIL.alpha_of (PIL.pixel frame x y) = 0 ->
       0 <= PIL.red_of (PIL.pixel canvas x y) <= 255 ->
       0 <= PIL.green_of (PIL.pixel canvas x y) <= 255 ->
       0 <= PIL.blue_of (PIL.pixel canvas x y) <= 255 ->
       PIL.getpixel out x y =
       [PIL.red_of (PIL.pixel canvas x y); PIL.green_of (PIL.pixel canvas x y);
        PIL.blue_of (PIL.pixel canvas x y)]).
Proof.
  intros Hmode Hsize. unfold PIL.size in Hsize. injection Hsize as Hw Hh.
  unfold frame_image, bind, lift, PIL.paste, PIL.copy.
  rewrite Hw, Hh, !Z.sub_diag. change (0 / 2) with 0.
  cbn [option_map]. rewrite Hmode.
  eexists. split; [reflexivity |].
  split; [now destruct (PIL.mode canvas) |].
  split; [destruct (PIL.mode canvas); unfold PIL.size; cbn; congruence |].
  intros x y Hx Hy (Hfr & Hfg & Hfb & Hfa).
  assert (Hin : PIL.inside frame (x - 0) (y - 0) = true).
  { unfold PIL.inside. rewrite !andb_true_iff, !Z.leb_le, !Z.ltb_lt. lia. }
  split.
  - intros Halpha.
    destruct (PIL.mode canvas) eqn:Hmi;
      unfold PIL.getpixel, PIL.convert, PIL.copy; cbn [PIL.mode PIL.pixel PIL.width PIL.height];
      rewrite ?Hmi, ?Hmode; cbn [PIL.mode PIL.pixel PIL.width PIL.height];
      unfold PIL.inside in *; cbn [PIL.mode PIL.pixel PIL.width PIL.height] in *;
      rewrite Hin, !Z.sub_0_r, Halpha; unfold PIL.blend, PIL.opaque;
      cbn [PIL.red_of PIL.green_of PIL.blue_of PIL.alpha_of firstn];
      rewrite !BLEND8_opaque by assumption; reflexivity.
  - intros Halpha Hr Hg Hb.
    destruct (PIL.mode canvas) eqn:Hmi;
      unfold PIL.getpixel, PIL.convert, PIL.copy; cbn [PIL.mode PIL.pixel PIL.width PIL.height];
      rewrite ?Hmi, ?Hmode; cbn [PIL.mode PIL.pixel PIL.width PIL.height];
      unfold PIL.inside in *; cbn [PIL.mode PIL.pixel PIL.width PIL.height] in *;
      rewrite Hin, !Z.sub_0_r, Halpha; unfold PIL.blend, PIL.opaque;
      cbn [PIL.red_of PIL.green_of PIL.blue_of PIL.alpha_of firstn];
      rewrite !(BLEND8_transparent (PIL.red_of (PIL.pixel canvas x y))),
              !(BLEND8_transparent (PIL.green_of (PIL.pixel canvas x y))),
              !(BLEND8_transparent (PIL.blue_of (PIL.pixel canvas x y))) by assumption;
      reflexivity.
Qed.

(** X21: padding and compositing together.  For a frame with an alpha
    band, [frame_image] of the canvas [pad_image] made is an RGB image
    of the frame's size; where the frame is fully opaque it shows the
    frame, and where the frame is fully transparent it shows the pixel
    of the image that the centring puts there, or the fill colour,
    white, or red in debug mode, where the image does not reach. *)
Theorem pad_then_frame_pixels (image frame : PIL.Image) (s : State) :
  PIL.mode frame = PIL.RGBA ->
  0 <= PIL.width frame -> 0 <= PIL.height frame ->
  exists padded out,
    pad_image config image frame s = (Ok padded, s) /\
    frame_image padded frame s = (Ok out, s) /\
    PIL.mode out = PIL.RGB /\ PIL.size out = PIL.size frame /\
    forall x y, 0 <= x < PIL.width frame -> 0 <= y < PIL.height frame ->
      PIL.byte_bands (PIL.pixel frame x y) ->
      (PIL.alpha_of (PIL.pixel frame x y) = 255 ->
       PIL.getpixel out x y = firstn 3 (PIL.getpixel frame x y)) /\
      (PIL.alpha_of (PIL.pixel frame x y) = 0 ->
       if PIL.inside image (x - (PIL.width frame - PIL.width image) / 2)
                           (y - (PIL.height frame - PIL.height image) / 2)
       then PIL.byte_bands
              (PIL.pixel image (x - (PIL.width frame - PIL.width image) / 2)
                               (y - (PIL.height frame - PIL.height image) / 2)) ->
            PIL.getpixel out x y =
            firstn 3 (PIL.getpixel image (x - (PIL.width frame - PIL.width image) / 2)
                                         (y - (PIL.height frame - PIL.height image) / 2))
       else PIL.getpixel out x y =
            (if cfg_debug config then [255; 0; 0] else [255; 255; 255])).
Proof.
  intros Hmode Hw Hh.
  destruct (pad_image_run image frame s Hw Hh) as (padded & Hpad & Hsize & Hpmode & Hpix).
  destruct (frame_image_bands padded frame s Hmode Hsize)
    as (out & Hrun & Hrgb & Hosize & Hout).
  exists padded, out. repeat (split; [assumption |]).
  intros x y Hx Hy Hbytes. destruct (Hout x y Hx Hy Hbytes) as [Hopaque Hclear].
  split; [exact Hopaque |]. intros Halpha.
  specialize (Hpix x y).
  destruct (PIL.inside image (x - (PIL.width frame - PIL.width image) / 2)
                             (y - (PIL.height frame - PIL.height image) / 2)).
  - intros (Hr & Hg & Hb & _).
    unfold PIL.getpixel in Hpix. rewrite Hpmode in Hpix.
    assert (Hbands : PIL.red_of (PIL.pixel padded x y) =
                     PIL.red_of (PIL.pixel image (x - (PIL.width frame - PIL.width image) / 2)
                                   (y - (PIL.height frame - PIL.height image) / 2)) /\
                     PIL.green_of (PIL.pixel padded x y) =
                     PIL.green_of (PIL.pixel image (x - (PIL.width frame - PIL.width image) / 2)
                                     (y - (PIL.height frame - PIL.height image) / 2)) /\
                     PIL.blue_of (PIL.pixel padded x y) =
                     PIL.blue_of (PIL.pixel image (x - (PIL.width frame - PIL.width image) / 2)
                                    (y - (PIL.height frame - PIL.height image) / 2))).
    { destruct (PIL.mode image); injection Hpix; auto. }
    destruct Hbands as (Er & Eg & Eb).
    rewrite Hclear by (try exact Halpha; rewrite ?Er, ?Eg, ?Eb; assumption).
    rewrite Er, Eg, Eb. unfold PIL.getpixel. now destruct (PIL.mode image).
  - rewrite Hclear; try exact Halpha; rewrite Hpix;
      destruct (cfg_debug config); cbn; try lia; reflexivity.
Qed.

End Stages.

(** ** The scaler at multiplier 1.0 *)

Section UnitScale.

Variable resample : PIL.resampler.
Variable config : Config.

Local Open Scope Q_scope.

(** The only normal float of value 1 is [1.0]. *)
Lemma fval_one_unique (m : positive) (e : Z) :
  normal m e -> fval m e == 1 -> S754_finite false m e = Float64.one.
Proof.
  intros Hn Hv. pose proof (fval_bounds m e Hn) as [Hlo Hhi]. rewrite Hv in Hlo, Hhi.
  assert (He : e = (-52)%Z).
  { destruct (Z.le_gt_cases 1 (e + 52)) as [C | C].
    - pose proof (pow2_le 1 (e + 52) C) as H. change (pow2 1) with 2 in H. lra.
    - destruct (Z.le_gt_cases (e + 53) 0) as [D | D]; [| lia].
      pose proof (pow2_le (e + 53) 0 D) as H. change (pow2 0) with 1 in H. lra. }
  subst e. change Float64.one with (S754_finite false 4503599627370496 (-52)).
  f_equal. unfold fval in Hv. change (pow2 (-52)) with (1 # 4503599627370496) in Hv.
  unfold Qeq in Hv. cbn in Hv. lia.
Qed.

Lemma fmul_one_r (m : positive) (e : Z) :
  normal m e -> (e < 971)%Z ->
  Float64.fmul (S754_finite false m e) Float64.one = S754_finite false m e.
Proof.
  intros Hn He. pose proof Hn as [Hm Hrange].
  change Float64.one with (S754_finite false 4503599627370496 (-52)).
  unfold Float64.fmul, SFmul, Float64.prec, Float64.emax. cbn [xorb].
  remember (Z.pos (m * 4503599627370496)) as N eqn:EN.
  assert (HN : N = (Z.pos m * 2 ^ 52)%Z) by (rewrite EN, Pos2Z.inj_mul; reflexivity).
  assert (HNpos : (0 < N)%Z) by (rewrite EN; lia).
  assert (Hd : Zdigits2 N = 105%Z).
  { apply Zdigits2_unique; [| lia]. rewrite HN.
    change (2 ^ (105 - 1))%Z with (2 ^ 52 * 2 ^ 52)%Z.
    change (2 ^ 105)%Z with (2 ^ 53 * 2 ^ 52)%Z. lia. }
  destruct (binary_round_aux_normal N (e + -52) loc_Exact N 1)
    as (m' & e' & Hres & _ & Hcase);
    try lia; try (now rewrite Z.div_1_r); try (now rewrite location_of_one).
  rewrite Hres. rewrite Hd in Hcase.
  change (2 ^ (105 - 53) * 1)%Z with (2 ^ 52)%Z in Hcase.
  rewrite HN, rne_div_exact in Hcase by lia.
  destruct Hcase as [(Hm' & He') | (Htop & _)]; [| lia].
  f_equal; [| lia]. now injection Hm'.
Qed.

(** [int(n * 1.0)] is [n]. *)
Lemma side_times_one (n : Z) :
  (0 < n < 2 ^ 31)%Z ->
  Float64.int_of_float (Float64.int_mul_float n Float64.one) = Ok n.
Proof.
  intros Hn. unfold Float64.int_mul_float.
  destruct (float_of_int_value n ltac:(lia)) as (m & e & -> & Hnm & He & Hv).
  rewrite fmul_one_r by (assumption || lia).
  rewrite int_of_float_floor. f_equal.
  rewrite (Qfloor_comp _ _ Hv). apply Qfloor_Z.
Qed.

(** The quotient of a side by a side no longer is at least 1.0. *)
Lemma quotient_at_least_one (a b : Z) :
  (0 < b <= a)%Z -> (a < 2 ^ 31)%Z ->
  exists m e,
    Float64.int_truediv a b = Ok (S754_finite false m e) /\ normal m e /\
    1 <= fval m e /\ (a = b -> fval m e == 1).
Proof.
  intros Hb Ha.
  destruct (int_truediv_rounds a b ltac:(lia) ltac:(lia)) as (m & e & Hq & Hr & He).
  exists m, e. split; [exact Hq |]. pose proof Hr as (Hn & _). split; [exact Hn |].
  pose proof (inject_Z_pos b ltac:(lia)) as Hqb.
  pose proof (Qdiv_mult_cancel (inject_Z a) (inject_Z b) Hqb) as Ex.
  assert (Hab : inject_Z b <= inject_Z a) by (rewrite <- Zle_Qle; lia).
  pose proof (rounds_grid _ m e 1 0 Hr ltac:(lia)) as [Hup Hlow].
  change (inject_Z 1 * pow2 0) with 1 in Hup, Hlow.
  assert (H1 : 1 <= inject_Z a / inject_Z b).
  { apply Qle_shift_div_l; [exact Hqb | lra]. }
  split; [now apply Hlow |].
  intros ->. apply Qle_antisym; [| now apply Hlow].
  apply Hup. apply Qle_shift_div_r; [exact Hqb | lra].
Qed.

(** X3: at multiplier 1.0, an image that already fits the frame and
    has its width or its height is returned as it is: the factor is
    exactly 1.0, both sides come out unchanged, and [resize] to the
    same size resamples nothing. *)
Theorem scale_image_fitting_unchanged
  (image frame : PIL.Image) (s : State) (cc : CurrentConfig) :
  current_config s = Some cc ->
  float_of_number (cc_scale_factor cc) = Float64.one ->
  (0 < PIL.width image <= PIL.width frame)%Z -> (PIL.width frame < 2 ^ 31)%Z ->
  (0 < PIL.height image <= PIL.height frame)%Z -> (PIL.height frame < 2 ^ 31)%Z ->
  PIL.width image = PIL.width frame \/ PIL.height image = PIL.height frame ->
  scale_factor_of (cc_scale_factor cc) image frame = Ok Float64.one /\
  scale_image resample image frame s = (Ok image, s).
Proof.
  intros Hcc Hone Hw Hfw Hh Hfh Htouch.
  destruct (quotient_at_least_one (PIL.width frame) (PIL.width image) Hw Hfw)
    as (mw & ew & Hqw & Hnw & Hw1 & Hweq).
  destruct (quotient_at_least_one (PIL.height frame) (PIL.height image) Hh Hfh)
    as (mh & eh & Hqh & Hnh & Hh1 & Hheq).
  destruct (min_normal mw mh ew eh Hnw Hnh) as (m & e & Hmin & Hwhich & Hle1 & Hle2).
  assert (Hm1 : fval m e == 1).
  { apply Qle_antisym.
    - destruct Htouch as [E | E].
      + rewrite <- (Hweq (eq_sym E)). exact Hle1.
      + rewrite <- (Hheq (eq_sym E)). exact Hle2.
    - destruct Hwhich as [[-> ->] | [-> ->]]; assumption. }
  assert (Hn : normal m e) by (destruct Hwhich as [[-> ->] | [-> ->]]; assumption).
  pose proof (fval_one_unique m e Hn Hm1) as Emin.
  assert (Hone1 : Float64.fmul Float64.one Float64.one = Float64.one)
    by (vm_compute; reflexivity).
  assert (Hf : scale_factor_of (cc_scale_factor cc) image frame = Ok Float64.one).
  { unfold scale_factor_of, number_mul_float.
    now rewrite Hqw, Hqh, Hmin, Emin, Hone, Hone1. }
  split; [exact Hf |].
  rewrite (scale_image_run resample image frame s cc Float64.one
             (PIL.width image) (PIL.height image) Hcc Hf
             (side_times_one (PIL.width image) ltac:(lia))
             (side_times_one (PIL.height image) ltac:(lia))).
  unfold PIL.resize, PIL.copy. now rewrite !Z.eqb_refl.
Qed.

Local Open Scope Z_scope.

(** At multiplier 1.0 the two new sides fit the frame, and one of them
    is short of it by at most one pixel. *)
Lemma unit_scale_run (image frame : PIL.Image) (s : State) (cc : CurrentConfig) :
  current_config s = Some cc ->
  float_of_number (cc_scale_factor cc) = Float64.one ->
  0 < PIL.width image < 2 ^ 31 -> 0 < PIL.height image < 2 ^ 31 ->
  0 < PIL.width frame < 2 ^ 31 -> 0 < PIL.height frame < 2 ^ 31 ->
  exists nw nh,
    0 <= nw <= PIL.width frame /\ 0 <= nh <= PIL.height frame /\
    (PIL.width frame - 1 <= nw \/ PIL.height frame - 1 <= nh) /\
    scale_image resample image frame s =
    (match PIL.resize resample image nw nh with
     | Ok out => Ok out
     | SystemExit c => SystemExit c
     | Raised e => Raised e
     end, s).
Proof.
  intros Hcc Hone Hw Hh Hfw Hfh.
  destruct (best_fit _ _ _ _ Hw Hh Hfw Hfh)
    as (qw & qh & m & e & Hqw & Hqh & Hmin & Hn & He & Hbw & Hbh & Hfill).
  assert (Hf : scale_factor_of (cc_scale_factor cc) image frame
               = Ok (Float64.fmul Float64.one (Float64.min qw qh))).
  { unfold scale_factor_of, number_mul_float. now rewrite Hqw, Hqh, Hone. }
  assert (Hid : Float64.fmul Float64.one (Float64.min qw qh) = S754_finite false m e).
  { rewrite Hmin. apply fmul_one_l; [exact Hn | lia]. }
  assert (H51 : forall z : Z, z < 2 ^ 31 -> (inject_Z z + (1 # 2) <= pow2 51)%Q).
  { intros z Hz.
    assert (inject_Z z <= 2147483648)%Q
      by (change 2147483648%Q with (inject_Z (2 ^ 31)); rewrite <- Zle_Qle; lia).
    change (pow2 51) with 2251799813685248%Q. lra. }
  destruct (side_scaled (PIL.width image) m e Hw Hn ltac:(lia))
    as (nw & Hnw & Hnw0 & _ & Hcw).
  { apply Qle_trans with (inject_Z (PIL.width frame) + (1 # 2))%Q; [exact Hbw |].
    apply H51; lia. }
  destruct (side_scaled (PIL.height image) m e Hh Hn ltac:(lia))
    as (nh & Hnh & Hnh0 & _ & Hch).
  { apply Qle_trans with (inject_Z (PIL.height frame) + (1 # 2))%Q; [exact Hbh |].
    apply H51; lia. }
  rewrite <- Hid in Hnw, Hnh.
  exists nw, nh.
  split; [split; [exact Hnw0 | now apply (Hcw (PIL.width frame))] |].
  split; [split; [exact Hnh0 | now apply (Hch (PIL.height frame))] |].
  split.
  { destruct Hfill as [H | H]; [left; now apply (Hcw (PIL.width frame))
                                | right; now apply (Hch (PIL.height frame))]. }
  exact (scale_image_run resample image frame s cc _ nw nh Hcc Hf Hnw Hnh).
Qed.

(** At multiplier 1.0, sides and a frame that are not more than a
    factor of the frame's shorter side apart in aspect give two new
    sides of at least one pixel, so [scale_image] returns an image. *)
Lemma unit_scale_succeeds (image frame : PIL.Image) (s : State) (cc : CurrentConfig) :
  current_config s = Some cc ->
  float_of_number (cc_scale_factor cc) = Float64.one ->
  0 < PIL.width image < 2 ^ 31 -> 0 < PIL.height image < 2 ^ 31 ->
  2 <= PIL.width frame < 2 ^ 31 -> 2 <= PIL.height frame < 2 ^ 31 ->
  2 * PIL.height image <= PIL.width image * PIL.height frame ->
  2 * PIL.width image <= PIL.height image * PIL.width frame ->
  exists out, scale_image resample image frame s = (Ok out, s).
Proof.
  intros Hcc Hone Hw Hh Hfw Hfh Hasp1 Hasp2.
  assert (Hfw' : 0 < PIL.width frame < 2 ^ 31) by lia.
  assert (Hfh' : 0 < PIL.height frame < 2 ^ 31) by lia.
  destruct (best_fit _ _ _ _ Hw Hh Hfw' Hfh')
    as (qw & qh & m & e & Hqw & Hqh & Hmin & Hn & He & Hbw & Hbh & _).
  destruct (best_fit_exact _ _ _ _ qw qh m e Hw Hh Hfw' Hfh' Hqw Hqh Hmin)
    as (Hfx0 & Hnear & _ & _).
  assert (Hf : scale_factor_of (cc_scale_factor cc) image frame
               = Ok (Float64.fmul Float64.one (Float64.min qw qh))).
  { unfold scale_factor_of, number_mul_float. now rewrite Hqw, Hqh, Hone. }
  assert (Hid : Float64.fmul Float64.one (Float64.min qw qh) = S754_finite false m e).
  { rewrite Hmin. apply fmul_one_l; [exact Hn | lia]. }
  assert (H51 : forall z : Z, z < 2 ^ 31 -> (inject_Z z + (1 # 2) <= pow2 51)%Q).
  { intros z Hz.
    assert (inject_Z z <= 2147483648)%Q
      by (change 2147483648%Q with (inject_Z (2 ^ 31)); rewrite <- Zle_Qle; lia).
    change (pow2 51) with 2251799813685248%Q. lra. }
  destruct (side_scaled (PIL.width image) m e Hw Hn ltac:(lia))
    as (nw & Hnw & _ & _ & Hcw).
  { apply Qle_trans with (inject_Z (PIL.width frame) + (1 # 2))%Q; [exact Hbw |].
    apply H51; lia. }
  destruct (side_scaled (PIL.height image) m e Hh Hn ltac:(lia))
    as (nh & Hnh & _ & _ & Hch).
  { apply Qle_trans with (inject_Z (PIL.height frame) + (1 # 2))%Q; [exact Hbh |].
    apply H51; lia. }
  rewrite <- Hid in Hnw, Hnh.
  (* each side times the exact ratio is at least two pixels *)
  pose proof (inject_Z_pos _ (proj1 Hw)) as Hqw'.
  pose proof (inject_Z_pos _ (proj1 Hh)) as Hqh'.
  pose proof (Qdiv_mult_cancel (inject_Z (PIL.width frame)) _ Hqw') as Ea.
  pose proof (Qdiv_mult_cancel (inject_Z (PIL.height frame)) _ Hqh') as Eb.
  assert (Ifw : (2 <= inject_Z (PIL.width frame))%Q)
    by (change 2%Q with (inject_Z 2); rewrite <- Zle_Qle; lia).
  assert (Ifh : (2 <= inject_Z (PIL.height frame))%Q)
    by (change 2%Q with (inject_Z 2); rewrite <- Zle_Qle; lia).
  assert (Ia1 : (2 * inject_Z (PIL.height image)
                 <= inject_Z (PIL.width image) * inject_Z (PIL.height frame))%Q).
  { change 2%Q with (inject_Z 2). rewrite <- !inject_Z_mult, <- Zle_Qle. exact Hasp1. }
  assert (Ia2 : (2 * inject_Z (PIL.width image)
                 <= inject_Z (PIL.height image) * inject_Z (PIL.width frame))%Q).
  { change 2%Q with (inject_Z 2). rewrite <- !inject_Z_mult, <- Zle_Qle. exact Hasp2. }
  set (fx := Qmin (inject_Z (PIL.width frame) / inject_Z (PIL.width image))
                  (inject_Z (PIL.height frame) / inject_Z (PIL.height image))) in *.
  assert (Hfx : (fx == inject_Z (PIL.width frame) / inject_Z (PIL.width image) \/
                 fx == inject_Z (PIL.height frame) / inject_Z (PIL.height image))%Q).
  { unfold fx. destruct (Q.min_spec (inject_Z (PIL.width frame) / inject_Z (PIL.width image))
                           (inject_Z (PIL.height frame) / inject_Z (PIL.height image)))
      as [[_ E] | [_ E]]; [left | right]; exact E. }
  apply Qabs_Qle_condition in Hnear. destruct Hnear as [N1 _].
  set (a := (inject_Z (PIL.width frame) / inject_Z (PIL.width image))%Q) in *.
  set (b := (inject_Z (PIL.height frame) / inject_Z (PIL.height image))%Q) in *.
  set (W := inject_Z (PIL.width image)) in *. set (H := inject_Z (PIL.height image)) in *.
  set (FW := inject_Z (PIL.width frame)) in *. set (FH := inject_Z (PIL.height frame)) in *.
  set (v := fval m e) in *.
  assert (Hv : (fx * (1 - (1 # 4503599627370496)) <= v)%Q) by lra.
  assert (Hwx : (2 <= W * fx)%Q /\ (2 <= H * fx)%Q).
  { clearbody a b W H FW FH fx v.
    destruct Hfx as [E | E]; rewrite E; split; nra. }
  destruct Hwx as [Hwx Hhx].
  assert (Hwv : (inject_Z 2 - (1 # 2) <= W * v)%Q).
  { change (inject_Z 2) with 2%Q. clearbody a b W H FW FH fx v. nra. }
  assert (Hhv : (inject_Z 2 - (1 # 2) <= H * v)%Q).
  { change (inject_Z 2) with 2%Q. clearbody a b W H FW FH fx v. nra. }
  pose proof (proj2 (Hcw 2) Hwv) as Hnw1. pose proof (proj2 (Hch 2) Hhv) as Hnh1.
  rewrite (scale_image_run resample image frame s cc _ nw nh Hcc Hf Hnw Hnh).
  destruct (resize_result resample image nw nh ltac:(lia) ltac:(lia)) as [Hok _].
  destruct (Hok ltac:(lia) ltac:(lia)) as (out & -> & _). now exists out.
Qed.

(** X20: at multiplier 1.0, an image with the aspect ratio of the
    frame fills it up to one pixel on each axis: [scale_image] returns
    an image whose width is the frame's or one pixel less, and whose
    height is the frame's or one pixel less (the pixel that rounding
    can cost). *)
Theorem same_aspect_fills_frame
  (image frame : PIL.Image) (s : State) (cc : CurrentConfig) :
  current_config s = Some cc ->
  float_of_number (cc_scale_factor cc) = Float64.one ->
  0 < PIL.width image < 2 ^ 31 -> 0 < PIL.height image < 2 ^ 31 ->
  2 <= PIL.width frame < 2 ^ 31 -> 2 <= PIL.height frame < 2 ^ 31 ->
  PIL.width image * PIL.height frame = PIL.height image * PIL.width frame ->
  exists out,
    scale_image resample image frame s = (Ok out, s) /\
    PIL.width frame - 1 <= PIL.width out <= PIL.width frame /\
    PIL.height frame - 1 <= PIL.height out <= PIL.height frame.
Proof.
  intros Hcc Hone Hw Hh Hfw Hfh Hasp.
  assert (Hfw' : 0 < PIL.width frame < 2 ^ 31) by lia.
  assert (Hfh' : 0 < PIL.height frame < 2 ^ 31) by lia.
  destruct (best_fit _ _ _ _ Hw Hh Hfw' Hfh')
    as (qw & qh & m & e & Hqw & Hqh & Hmin & Hn & He & Hbw & Hbh & _).
  destruct (best_fit_exact _ _ _ _ qw qh m e Hw Hh Hfw' Hfh' Hqw Hqh Hmin)
    as (Hfx0 & Hnear & _ & _).
  assert (Hf : scale_factor_of (cc_scale_factor cc) image frame
               = Ok (Float64.fmul Float64.one (Float64.min qw qh))).
  { unfold scale_factor_of, number_mul_float. now rewrite Hqw, Hqh, Hone. }
  assert (Hid : Float64.fmul Float64.one (Float64.min qw qh) = S754_finite false m e).
  { rewrite Hmin. apply fmul_one_l; [exact Hn | lia]. }
  assert (H31 : forall z : Z, z < 2 ^ 31 -> (inject_Z z <= 2147483648)%Q).
  { intros z Hz. change 2147483648%Q with (inject_Z (2 ^ 31)). rewrite <- Zle_Qle. lia. }
  assert (H51 : forall z : Z, z < 2 ^ 31 -> (inject_Z z + (1 # 2) <= pow2 51)%Q).
  { intros z Hz. specialize (H31 z Hz). change (pow2 51) with 2251799813685248%Q. lra. }
  destruct (side_scaled (PIL.width image) m e Hw Hn ltac:(lia))
    as (nw & Hnw & _ & _ & Hcw).
  { apply Qle_trans with (inject_Z (PIL.width frame) + (1 # 2))%Q; [exact Hbw |].
    apply H51; lia. }
  destruct (side_scaled (PIL.height image) m e Hh Hn ltac:(lia))
    as (nh & Hnh & _ & _ & Hch).
  { apply Qle_trans with (inject_Z (PIL.height frame) + (1 # 2))%Q; [exact Hbh |].
    apply H51; lia. }
  rewrite <- Hid in Hnw, Hnh.
  pose proof (inject_Z_pos _ (proj1 Hw)) as Hqw'.
  pose proof (inject_Z_pos _ (proj1 Hh)) as Hqh'.
  pose proof (Qdiv_mult_cancel (inject_Z (PIL.width frame)) _ Hqw') as Ea.
  pose proof (Qdiv_mult_cancel (inject_Z (PIL.height frame)) _ Hqh') as Eb.
  pose proof (H31 _ (proj2 Hfw)) as Ifw. pose proof (H31 _ (proj2 Hfh)) as Ifh.
  assert (Iasp : (inject_Z (PIL.width image) * inject_Z (PIL.height frame)
                  == inject_Z (PIL.height image) * inject_Z (PIL.width frame))%Q).
  { rewrite <- !inject_Z_mult. now rewrite Hasp. }
  set (fx := Qmin (inject_Z (PIL.width frame) / inject_Z (PIL.width image))
                  (inject_Z (PIL.height frame) / inject_Z (PIL.height image))) in *.
  assert (Hfx : (fx == inject_Z (PIL.width frame) / inject_Z (PIL.width image) \/
                 fx == inject_Z (PIL.height frame) / inject_Z (PIL.height image))%Q).
  { unfold fx. destruct (Q.min_spec (inject_Z (PIL.width frame) / inject_Z (PIL.width image))
                           (inject_Z (PIL.height frame) / inject_Z (PIL.height image)))
      as [[_ E] | [_ E]]; [left | right]; exact E. }
  apply Qabs_Qle_condition in Hnear. destruct Hnear as [N1 _].
  set (a := (inject_Z (PIL.width frame) / inject_Z (PIL.width image))%Q) in *.
  set (b := (inject_Z (PIL.height frame) / inject_Z (PIL.height image))%Q) in *.
  set (W := inject_Z (PIL.width image)) in *. set (H := inject_Z (PIL.height image)) in *.
  set (FW := inject_Z (PIL.width frame)) in *. set (FH := inject_Z (PIL.height frame)) in *.
  set (v := fval m e) in *.
  assert (Hv : (fx * (1 - (1 # 4503599627370496)) <= v)%Q) by lra.
  assert (Hexact : (W * fx == FW)%Q /\ (H * fx == FH)%Q).
  { clearbody a b W H FW FH fx v.
    assert (Eab : (a == b)%Q).
    { assert (E1 : (a * (W * H) == b * (W * H))%Q) by nra.
      apply Qmult_inj_r in E1; [exact E1 |]. intros C. nra. }
    destruct Hfx as [E | E]; rewrite E; split; nra. }
  destruct Hexact as [Ewx Ehx].
  assert (Hwv : (FW - (1 # 2) <= W * v)%Q).
  { clearbody a b W H FW FH fx v. nra. }
  assert (Hhv : (FH - (1 # 2) <= H * v)%Q).
  { clearbody a b W H FW FH fx v. nra. }
  pose proof (proj2 (Hcw (PIL.width frame)) Hwv) as Hnw1.
  pose proof (proj2 (Hch (PIL.height frame)) Hhv) as Hnh1.
  pose proof (proj1 (Hcw (PIL.width frame)) Hbw) as Hnw2.
  pose proof (proj1 (Hch (PIL.height frame)) Hbh) as Hnh2.
  rewrite (scale_image_run resample image frame s cc _ nw nh Hcc Hf Hnw Hnh).
  destruct (resize_result resample image nw nh ltac:(lia) ltac:(lia)) as [Hok _].
  destruct (Hok ltac:(lia) ltac:(lia)) as (out & -> & Hsize & _).
  exists out. split; [reflexivity |].
  unfold PIL.size in Hsize. injection Hsize as -> ->. lia.
Qed.

Lemma resize_size (image out : PIL.Image) (nw nh : Z) :
  PIL.resize resample image nw nh = Ok out -> PIL.size out = (nw, nh).
Proof.
  unfold PIL.resize, PIL.copy. intros Hres.
  destruct (Z.eqb_spec (PIL.width image) nw); destruct (Z.eqb_spec (PIL.height image) nh);
    cbn [andb] in Hres;
    try (destruct ((nw <? 1) || (nh <? 1)); [discriminate |]);
    inversion Hres; unfold PIL.size; cbn [PIL.width PIL.height]; congruence.
Qed.

(** X4: scaling at multiplier 1.0 and then padding never cuts the
    image: the four paddings are non-negative, the right (bottom) one is
    the left (top) one or one pixel more, the fill shows on one axis
    only, up to a one-pixel seam on the other, and the
    whole scaled image is on the frame-sized canvas. *)
Theorem scale_then_pad_shows_whole_image
  (image frame scaled : PIL.Image) (s s' : State) (cc : CurrentConfig) :
  current_config s = Some cc ->
  float_of_number (cc_scale_factor cc) = Float64.one ->
  0 < PIL.width image < 2 ^ 31 -> 0 < PIL.height image < 2 ^ 31 ->
  0 < PIL.width frame < 2 ^ 31 -> 0 < PIL.height frame < 2 ^ 31 ->
  scale_image resample image frame s = (Ok scaled, s') ->
  exists out lp tp rp bp,
    pad_image config scaled frame s' = (Ok out, s') /\
    PIL.size out = (PIL.width frame, PIL.height frame) /\
    padding_of scaled frame = (lp, tp, rp, bp) /\
    0 <= lp <= rp /\ rp <= lp + 1 /\ 0 <= tp <= bp /\ bp <= tp + 1 /\
    (lp + rp <= 1 \/ tp + bp <= 1) /\
    forall x y, 0 <= x < PIL.width scaled -> 0 <= y < PIL.height scaled ->
      PIL.getpixel out (x + lp) (y + tp) = PIL.getpixel scaled x y.
Proof.
  intros Hcc Hone Hw Hh Hfw Hfh Hrun.
  destruct (unit_scale_run image frame s cc Hcc Hone Hw Hh Hfw Hfh)
    as (nw & nh & Hnw & Hnh & Hfill & Hscale).
  rewrite Hscale in Hrun.
  destruct (PIL.resize resample image nw nh) as [o | c | x] eqn:Hres;
    inversion Hrun; subst o s'. clear Hrun.
  apply resize_size in Hres. unfold PIL.size in Hres.
  injection Hres as Ew Eh.
  destruct (pad_image_run config scaled frame s ltac:(lia) ltac:(lia))
    as (out & Hpad & Hsize & _ & Hpix).
  set (dw := PIL.width frame - PIL.width scaled) in *.
  set (dh := PIL.height frame - PIL.height scaled) in *.
  pose proof (Z.div_mod dw 2 ltac:(lia)) as Dw.
  pose proof (Z.mod_pos_bound dw 2 ltac:(lia)) as Bw.
  pose proof (Z.div_mod dh 2 ltac:(lia)) as Dh.
  pose proof (Z.mod_pos_bound dh 2 ltac:(lia)) as Bh.
  exists out, (dw / 2), (dh / 2), (dw - dw / 2), (dh - dh / 2).
  split; [exact Hpad |]. split; [exact Hsize |].
  split; [unfold padding_of; now rewrite !Z.add_0_r |].
  split; [unfold dw in *; lia |]. split; [lia |].
  split; [unfold dh in *; lia |]. split; [lia |].
  split; [unfold dw, dh in *; lia |].
  intros x y Hx Hy. specialize (Hpix (x + dw / 2) (y + dh / 2)).
  replace (x + dw / 2 - dw / 2) with x in Hpix by lia.
  replace (y + dh / 2 - dh / 2) with y in Hpix by lia.
  assert (Hin : PIL.inside scaled x y = true).
  { unfold PIL.inside. rewrite !andb_true_iff, !Z.leb_le, !Z.ltb_lt. lia. }
  now rewrite Hin in Hpix.
Qed.

End UnitScale.

(** ** Paths *)

Section Paths.

Local Open Scope string_scope.
Local Open Scope Z_scope.

Lemma rfind_bound (c : ascii) (a : string) : -1 <= Py.rfind c a < Py.len a.
Proof.
  unfold Py.rfind.
  destruct (rfind_from_rel c a 0 (-1) 0 (-1)) as [(E & _) | (k & Hk & E & _)];
    rewrite E; unfold Py.len in *; lia.
Qed.

Lemma rfind_app (c : ascii) (a b : string) :
  Py.rfind c (a ++ b) =
  if Py.rfind c b =? -1 then Py.rfind c a else Py.len a + Py.rfind c b.
Proof.
  unfold Py.rfind at 1. rewrite rfind_from_app. fold (Py.rfind c a).
  set (ra := Py.rfind c a). unfold Py.rfind.
  destruct (rfind_from_rel c b (0 + Py.len a) ra 0 (-1))
    as [(E1 & E2) | (k & Hk & E1 & E2)]; rewrite E1, E2.
  - reflexivity.
  - destruct (Z.eqb_spec (0 + k) (-1)); lia.
Qed.

Lemma has_non_dot_app (a b : string) :
  Py.has_non_dot (a ++ b) = Py.has_non_dot a || Py.has_non_dot b.
Proof.
  induction a as [| c a IH]; cbn [String.append Py.has_non_dot]; [reflexivity |].
  now rewrite IH, orb_assoc.
Qed.

Lemma substring_skip (a b : string) (i n : nat) :
  substring (String.length a + i) n (a ++ b) = substring i n b.
Proof. induction a as [| c a IH]; cbn [String.length String.append substring Nat.add]; auto. Qed.

Lemma substring_prefix (a b : string) (n : nat) :
  substring 0 (String.length a + n) (a ++ b) = a ++ substring 0 n b.
Proof.
  induction a as [| c a IH]; cbn [String.length String.append substring Nat.add]; [reflexivity |].
  now rewrite IH.
Qed.

Lemma slice_app_skip (a b : string) (i j : Z) :
  0 <= i -> Py.slice (a ++ b) (Py.len a + i) (Py.len a + j) = Py.slice b i j.
Proof.
  intros Hi. unfold Py.slice, Py.len.
  rewrite Z2Nat.inj_add, Nat2Z.id by lia.
  replace (Z.of_nat (String.length a) + j - (Z.of_nat (String.length a) + i)) with (j - i) by lia.
  apply substring_skip.
Qed.

Lemma slice_app_prefix (a b : string) (k : Z) :
  0 <= k -> Py.slice (a ++ b) 0 (Py.len a + k) = a ++ Py.slice b 0 k.
Proof.
  intros Hk. unfold Py.slice, Py.len. rewrite !Z.sub_0_r.
  rewrite Z2Nat.inj_add, Nat2Z.id by lia. change (Z.to_nat 0) with 0%nat.
  apply substring_prefix.
Qed.

Lemma string_app_assoc (a b c : string) : (a ++ b) ++ c = a ++ b ++ c.
Proof. induction a as [| x a IH]; cbn [String.append]; [reflexivity | now rewrite IH]. Qed.

Lemma last_char_sep (a : string) :
  a <> "" -> substring (String.length a - 1) 1 a = "/" -> exists p0, a = p0 ++ "/".
Proof.
  induction a as [| c t IH]; [congruence |]. intros _ H.
  destruct t as [| c' t'].
  - cbn in H. injection H as ->. now exists "".
  - cbn [String.length Nat.sub] in H. rewrite ?Nat.sub_0_r in H.
    cbn [substring] in H.
    destruct IH as (p0 & E); [discriminate | |].
    + cbn [String.length Nat.sub]. rewrite ?Nat.sub_0_r. exact H.
    + exists (String c p0). cbn [String.append]. now rewrite <- E.
Qed.

Lemma endswith_sep_inv (a : string) :
  Py.endswith a "/" = true -> exists p0, a = p0 ++ "/".
Proof.
  unfold Py.endswith. change (Py.len "/") with 1. intros H.
  apply andb_true_iff in H. destruct H as (Hlen & H).
  apply Z.leb_le in Hlen. apply String.eqb_eq in H. unfold Py.slice in H.
  replace (Z.to_nat (Py.len a - 1)) with (String.length a - 1)%nat in H
    by (unfold Py.len; lia).
  replace (Z.to_nat (Py.len a - (Py.len a - 1))) with 1%nat in H by lia.
  apply last_char_sep; [| exact H].
  intros ->. cbn in Hlen. lia.
Qed.

Lemma no_sep_no_leading (name : string) :
  Py.rfind Py.sep name = -1 -> Py.startswith name "/" = false.
Proof.
  destruct name as [| c t]; [reflexivity |].
  unfold Py.rfind. cbn [Py.rfind_from Py.startswith]. intros H.
  destruct (Ascii.eqb_spec "/"%char c) as [<- | Hne]; [| reflexivity].
  exfalso. cbn [Py.sep Ascii.eqb Bool.eqb] in H.
  destruct (rfind_from_rel Py.sep t (0 + 1) 0 0 (-1)) as [(E & _) | (k & Hk & E & _)];
    unfold Py.sep in *; rewrite E in H; lia.
Qed.

(** [os.path.join(d, name)] puts nothing or a prefix that ends in a
    separator before a relative [name]. *)
Lemma join_form (d name : string) :
  Py.startswith name "/" = false ->
  exists pre, Py.join d name = pre ++ name /\ (pre = "" \/ exists p0, pre = p0 ++ "/").
Proof.
  intros H. unfold Py.join. rewrite H.
  destruct (String.eqb_spec d "") as [-> | Hd]; cbn [orb].
  - exists "". split; [reflexivity | now left].
  - destruct (Py.endswith d "/") eqn:E.
    + exists d. split; [reflexivity |]. right. now apply endswith_sep_inv.
    + exists (d ++ "/"). split; [| right; now exists d].
      symmetry. apply string_app_assoc.
Qed.

(** [splitext] looks at the last component of a path only. *)
Lemma splitext_last_component (pre name : string) :
  pre = "" \/ (exists p0, pre = p0 ++ "/") ->
  Py.rfind Py.sep name = -1 ->
  Py.splitext (pre ++ name) = (pre ++ fst (Py.splitext name), snd (Py.splitext name)).
Proof.
  intros Hpre Hsep.
  assert (Hps : Py.rfind Py.sep pre + 1 = Py.len pre /\
                Py.rfind Py.extsep pre < Py.len pre /\
                (Py.rfind Py.sep pre <? Py.rfind Py.extsep pre) = false).
  { destruct Hpre as [-> | (p0 & ->)];
      [split; [reflexivity | split; reflexivity] |].
    rewrite !rfind_app, len_app.
    change (Py.rfind Py.sep "/" =? -1) with false.
    change (Py.rfind Py.extsep "/" =? -1) with true.
    change (Py.rfind Py.sep "/") with 0. change (Py.len "/") with 1.
    pose proof (rfind_bound Py.extsep p0) as Hb.
    split; [lia |]. split; [lia |]. apply Z.ltb_ge. lia. }
  destruct Hps as (Hs1 & Hd1 & Hlt).
  unfold Py.splitext. rewrite !rfind_app, Hsep. change (-1 =? -1) with true. cbv iota.
  pose proof (rfind_bound Py.extsep name) as Hb.
  destruct (Z.eqb_spec (Py.rfind Py.extsep name) (-1)) as [E | E].
  - rewrite E, Hlt. change (-1 <? -1) with false. cbn [andb fst snd]. reflexivity.
  - set (k := Py.rfind Py.extsep name) in *.
    assert (Hk : 0 <= k) by lia.
    destruct (Z.ltb_spec (Py.rfind Py.sep pre) (Py.len pre + k)) as [_ | Hbad]; [| lia].
    destruct (Z.ltb_spec (-1) k) as [_ | Hbad]; [| lia].
    cbn [andb]. rewrite Hs1. change (-1 + 1) with 0.
    replace (Py.len pre) with (Py.len pre + 0) at 1 by lia.
    rewrite slice_app_skip by lia.
    destruct (Py.has_non_dot (Py.slice name 0 k)); cbn [fst snd]; [| reflexivity].
    rewrite slice_app_prefix, len_app, slice_app_skip by lia. reflexivity.
Qed.

(** The extension [Image.save] sees is that of the file name. *)
Lemma splitext_join_ext (d name : string) :
  Py.rfind Py.sep name = -1 ->
  snd (Py.splitext (Py.join d name)) = snd (Py.splitext name).
Proof.
  intros Hsep.
  destruct (join_form d name (no_sep_no_leading name Hsep)) as (pre & -> & Hpre).
  now rewrite splitext_last_component.
Qed.

(** A name made of dots and a last suffix without one has no
    extension. *)
Lemma splitext_dots (dots rest : string) :
  Py.has_non_dot dots = false ->
  Py.rfind Py.extsep rest = -1 -> Py.rfind Py.sep rest = -1 ->
  Py.rfind Py.sep (dots ++ "." ++ rest) = -1 /\
  Py.splitext (dots ++ "." ++ rest) = (dots ++ "." ++ rest, "").
Proof.
  intros Hdots Hdot Hsep.
  assert (Hd : Py.rfind Py.sep dots = -1).
  { unfold Py.rfind.
    assert (G : forall i acc, Py.rfind_from Py.sep dots i acc = acc).
    { induction dots as [| c t IH]; intros i acc; cbn [Py.rfind_from]; [reflexivity |].
      cbn [Py.has_non_dot] in Hdots. apply orb_false_iff in Hdots.
      destruct Hdots as (Hc & Ht). apply negb_false_iff, Ascii.eqb_eq in Hc. subst c.
      rewrite (IH Ht). reflexivity. }
    apply G. }
  assert (Hs : Py.rfind Py.sep (dots ++ "." ++ rest) = -1).
  { rewrite !rfind_app, Hsep. cbn [Z.eqb]. exact Hd. }
  split; [exact Hs |].
  assert (Hdi : Py.rfind Py.extsep (dots ++ "." ++ rest) = Py.len dots).
  { rewrite rfind_app, (rfind_app Py.extsep "." rest), Hdot.
    change (-1 =? -1) with true. cbv iota.
    change (Py.rfind Py.extsep ".") with 0. change (0 =? -1) with false. cbv iota. lia. }
  assert (Hsl : Py.slice (dots ++ "." ++ rest) 0 (Py.len dots) = dots).
  { replace (Py.len dots) with (Py.len dots + 0) by lia.
    rewrite slice_app_prefix by lia.
    assert (E : Py.slice ("." ++ rest) 0 0 = "") by (now destruct rest).
    rewrite E. clear. induction dots as [| c t IH]; cbn [String.append]; [| rewrite IH];
      reflexivity. }
  unfold Py.splitext. rewrite Hs, Hdi. change (-1 + 1) with 0.
  now rewrite Hsl, Hdots, andb_false_r.
Qed.

Lemma endswith_app (a b : string) : Py.endswith (a ++ b) b = true.
Proof.
  unfold Py.endswith. rewrite len_app.
  assert (Ha : 0 <= Py.len a) by (unfold Py.len; lia).
  assert (Hb : 0 <= Py.len b) by (unfold Py.len; lia).
  apply andb_true_iff. split; [apply Z.leb_le; lia |].
  replace (Py.len a + Py.len b - Py.len b) with (Py.len a + 0) by lia.
  rewrite slice_app_skip by lia. unfold Py.slice, Py.len.
  rewrite Z.sub_0_r, Nat2Z.id. change (Z.to_nat 0) with 0%nat.
  rewrite substring_all. apply String.eqb_refl.
Qed.

Lemma string_app_nil_r (a : string) : a ++ "" = a.
Proof. induction a as [| c a IH]; cbn [String.append]; [| rewrite IH]; reflexivity. Qed.

Lemma startswith_app (a b : string) : Py.startswith (a ++ b) a = true.
Proof.
  induction a as [| c a IH]; cbn [String.append Py.startswith].
  - now destruct b.
  - now rewrite Ascii.eqb_refl, IH.
Qed.

(** [os.path.join(d, name)] is [os.path.join(d, "")] followed by a
    relative [name]. *)
Lemma join_prefix (d name : string) :
  Py.startswith name "/" = false -> Py.join d name = Py.join d "" ++ name.
Proof.
  intros H. unfold Py.join. rewrite H. cbn [Py.startswith].
  destruct (String.eqb d "" || Py.endswith d "/").
  - now rewrite string_app_nil_r.
  - now rewrite !string_app_assoc.
Qed.

End Paths.

(** ** A whole entry, step by step *)

Section Runs.

Variable resample : PIL.resampler.
Variable json_config : JsonConfig.
Variable config : Config.

Local Open Scope string_scope.
Local Open Scope Z_scope.
Local Open Scope list_scope.

Lemma logging_trace lvl msg s r s' :
  logging config lvl msg s = (r, s') ->
  r = Ok tt /\ fs s' = fs s /\ current_config s' = current_config s /\
  log s' = log s ++ (if enabled config lvl then [(lvl, msg)] else []).
Proof.
  unfold logging. intros H. inversion H; subst.
  destruct (enabled config lvl); cbn; rewrite ?app_nil_r; auto.
Qed.

Lemma save_image_trace image filename postfix s s' :
  save_image config image filename postfix s = (Ok tt, s') ->
  fs s' = (saved_name config filename postfix, PIL.convert PIL.RGB image) :: fs s /\
  current_config s' = current_config s /\
  log s' = log s ++
           (if cfg_debug config
            then [(DEBUG, ("generated output filename: " ++
                           saved_name config filename postfix)%string)]
            else []).
Proof.
  unfold save_image, output_filename_with_postfix, logging_debug. intros H.
  apply bind_ok_inv in H. destruct H as (name & s1 & H1 & H2).
  apply bind_ok_inv in H1. destruct H1 as ([] & s0 & H0 & H1).
  apply logging_trace in H0. destruct H0 as (_ & Hfs0 & Hcc0 & Hlog0).
  inversion H1; subst. clear H1. unfold Image_save in H2.
  destruct (existsb _ PIL.EXTENSION); inversion H2; subst; cbn [fs log current_config].
  rewrite Hfs0, Hcc0, Hlog0. repeat split.
Qed.

Lemma set_current_config_trace image s s' :
  set_current_config json_config config image s = (Ok tt, s') ->
  image_orientation image <> "square" /\
  fs s' = fs s /\ log s' = log s /\
  current_config s' = Some (selected_config json_config image).
Proof.
  unfold set_current_config, selected_config.
  destruct (String.eqb_spec (image_orientation image) "landscape") as [E | _].
  - intros H. inversion H; subst. cbn. rewrite E. repeat split. discriminate.
  - destruct (String.eqb_spec (image_orientation image) "portrait") as [E | _].
    + intros H. inversion H; subst. cbn. rewrite E. repeat split. discriminate.
    + intros H. apply bind_ok_inv in H. destruct H as (? & ? & _ & H). discriminate H.
Qed.

Lemma crop_image_trace image s out s' :
  crop_image image s = (Ok out, s') ->
  s' = s /\
  exists cc,
    current_config s = Some cc /\
    PIL.crop image (crop_left (cc_crop cc), crop_top (cc_crop cc),
                    PIL.width image - crop_right (cc_crop cc),
                    PIL.height image - crop_bottom (cc_crop cc)) = Ok out.
Proof.
  unfold crop_image. intros H.
  apply bind_ok_inv in H. destruct H as (cc & s1 & H1 & H).
  apply get_current_config_inv in H1. destruct H1 as (-> & Hcc).
  apply bind_ok_inv in H. destruct H as (im & s2 & H2 & H).
  apply lift_ok_inv in H2. destruct H2 as (H2 & ->).
  inversion H; subst. split; [reflexivity |]. now exists cc.
Qed.

Lemma scale_image_trace image frame s out s' :
  scale_image resample image frame s = (Ok out, s') ->
  s' = s /\
  forall st, current_config st = current_config s ->
             scale_image resample image frame st = (Ok out, st).
Proof.
  intros H. pose proof (scale_image_inv _ _ _ _ _ _ H) as (-> & _).
  split; [reflexivity |]. intros st E. revert H.
  unfold scale_image, bind, get_current_config, lift, ret. rewrite E.
  destruct (current_config s); [| discriminate].
  destruct (scale_factor_of _ _ _); try discriminate.
  destruct (Float64.int_of_float _); try discriminate.
  destruct (Float64.int_of_float _); try discriminate.
  destruct (PIL.resize _ _ _ _); try discriminate.
  intros H. now inversion H.
Qed.

Lemma pad_image_trace image frame s out s' :
  pad_image config image frame s = (Ok out, s') ->
  s' = s /\ PIL.size out = PIL.size frame /\
  forall st, pad_image config image frame st = (Ok out, st).
Proof.
  unfold pad_image, bind, lift, ret.
  destruct (PIL.expand _ _ _) as [im | c | e] eqn:Hexp; intros H; inversion H; subst.
  split; [reflexivity |]. split; [| reflexivity].
  revert Hexp. unfold PIL.expand, padding_of.
  destruct (PIL.getcolor _); try discriminate.
  unfold PIL.new. destruct (_ || _); [discriminate |].
  unfold PIL.paste. cbn [PIL.mode option_map]. intros Hexp. injection Hexp as <-.
  unfold PIL.size. cbn [PIL.width PIL.height]. f_equal; lia.
Qed.

Lemma frame_image_trace image frame s out s' :
  frame_image image frame s = (Ok out, s') ->
  s' = s /\ PIL.size out = PIL.size image /\
  forall st, frame_image image frame st = (Ok out, st).
Proof.
  unfold frame_image, bind, lift, ret.
  destruct (PIL.paste _ _ _ _) as [im | c | e] eqn:Hp; intros H; inversion H; subst.
  split; [reflexivity |]. split; [| reflexivity].
  change (PIL.size (PIL.convert PIL.RGB im) = PIL.size image).
  rewrite convert_size. revert Hp. unfold PIL.paste, PIL.copy.
  destruct (option_map PIL.mode (Some frame)) as [[|] |]; try discriminate;
    intros Hp; injection Hp as <-; reflexivity.
Qed.

Tactic Notation "bstep" hyp(H) ident(a) ident(s1) ident(H1) :=
  apply bind_ok_inv in H; destruct H as (a & s1 & H1 & H).

Ltac tlog H :=
  let u := fresh "u" in let s1 := fresh "s" in let H1 := fresh "H" in
  let Hfs := fresh "Hfs" in let Hcc := fresh "Hcc" in let Hlog := fresh "Hlog" in
  bstep H u s1 H1; apply logging_trace in H1; destruct H1 as (_ & Hfs & Hcc & Hlog).

Ltac tsnap H :=
  first
    [ apply ret_inv in H; destruct H as (-> & ->)
    | let v := fresh "v" in let t := fresh "t" in let Hs := fresh "Hsnap" in
      let Hcc := fresh "Hcc" in let Hlog := fresh "Hlog" in
      bstep H v t Hs; destruct v; apply save_image_trace in Hs;
      destruct Hs as (Hs & Hcc & Hlog);
      apply ret_inv in H; destruct H as (-> & ->) ].

(** Rewriting the projections of the intermediate states down to the
    initial one. *)
Ltac to_initial :=
  repeat match goal with
         | E : fs ?x = _ |- context [fs ?x] => rewrite E
         | E : log ?x = _ |- context [log ?x] => rewrite E
         | E : current_config ?x = _ |- context [current_config ?x] => rewrite E
         end.

Ltac initial_in H :=
  repeat match type of H with
         | context [fs ?x] =>
             match goal with E : fs x = _ |- _ => rewrite E in H end
         end.

(** A run of [process_file] that ends normally, with what each step
    read, computed and wrote. *)
Lemma process_file_trace (filename : string) (s s' : State) :
  process_file resample json_config config filename s = (Ok tt, s') ->
  exists original0 frame0 cropped scaled padded framed,
    lookup (Py.join (cfg_input config) filename) (fs s) = Some original0 /\
    image_orientation (PIL.convert PIL.RGBA original0) <> "square" /\
    lookup (cc_frame_path (selected_config json_config (PIL.convert PIL.RGBA original0)))
      (store_at_frame config filename (PIL.convert PIL.RGBA original0) (fs s))
      = Some frame0 /\
    PIL.crop (PIL.convert PIL.RGBA original0)
      (crop_left (cc_crop (selected_config json_config (PIL.convert PIL.RGBA original0))),
       crop_top (cc_crop (selected_config json_config (PIL.convert PIL.RGBA original0))),
       PIL.width (PIL.convert PIL.RGBA original0)
       - crop_right (cc_crop (selected_config json_config (PIL.convert PIL.RGBA original0))),
       PIL.height (PIL.convert PIL.RGBA original0)
       - crop_bottom (cc_crop (selected_config json_config (PIL.convert PIL.RGBA original0))))
      = Ok cropped /\
    (forall st,
        current_config st = Some (selected_config json_config (PIL.convert PIL.RGBA original0)) ->
        scale_image resample cropped (PIL.convert PIL.RGBA frame0) st = (Ok scaled, st)) /\
    (forall st, pad_image config scaled (PIL.convert PIL.RGBA frame0) st = (Ok padded, st)) /\
    (forall st, frame_image padded (PIL.convert PIL.RGBA frame0) st = (Ok framed, st)) /\
    PIL.size padded = PIL.size frame0 /\ PIL.size framed = PIL.size frame0 /\
    fs s' =
      (saved_name config filename (if cfg_debug config then "_4_framed" else "_framed"),
       final_image_of json_config (PIL.convert PIL.RGBA original0) framed)
      :: (if cfg_debug config
          then [ (saved_name config filename "_3_padded", PIL.convert PIL.RGB padded);
                 (saved_name config filename "_2_scaled", PIL.convert PIL.RGB scaled);
                 (saved_name config filename "_1_cropped", PIL.convert PIL.RGB cropped);
                 (saved_name config filename "_0_original",
                  PIL.convert PIL.RGB (PIL.convert PIL.RGBA original0)) ]
          else [])
      ++ fs s /\
    current_config s' = None /\
    (cfg_debug config = false -> log s' = log s ++ status_log config filename) /\
    (exists st st',
        save_image config
          (final_image_of json_config (PIL.convert PIL.RGBA original0) framed) filename
          (if cfg_debug config then "_4_framed" else "_framed") st = (Ok tt, st')).
Proof.
  unfold process_file, logging_debug, logging_info, store_at_frame, status_log.
  intros H. revert H.
  destruct (cfg_debug config) eqn:Hdebug; intros H;
  tlog H;
  bstep H original0 st1 Hopen; apply Image_open_inv in Hopen; destruct Hopen as (-> & Hopen);
  do 3 tlog H;
  bstep H xu1 st1 Hset; destruct xu1; apply set_current_config_trace in Hset;
  destruct Hset as (Hnsq & Hsetfs & Hsetlog & Hsetcc);
  bstep H c1 st2 Hsave1; tsnap Hsave1;
  bstep H cc st3 Hget; apply get_current_config_inv in Hget; destruct Hget as (-> & Hget);
  bstep H frame0 st4 Hframe; apply Image_open_inv in Hframe; destruct Hframe as (-> & Hframe);
  do 3 tlog H;
  bstep H cropped st5 Hcrop; apply crop_image_trace in Hcrop;
  destruct Hcrop as (-> & conf & Hconf & Hcrop);
  tlog H;
  bstep H c2 st6 Hsave2; tsnap Hsave2;
  bstep H scaled st7 Hscale; apply scale_image_trace in Hscale;
  destruct Hscale as (-> & Hscale);
  tlog H;
  bstep H c3 st8 Hsave3; tsnap Hsave3;
  bstep H padded st9 Hpad; apply pad_image_trace in Hpad; destruct Hpad as (-> & Hpsize & Hpad);
  tlog H;
  bstep H c4 st10 Hsave4; tsnap Hsave4;
  bstep H framed st11 Hfr; pose proof Hfr as Hmf; apply frame_image_inv in Hmf;
  destruct Hmf as (_ & Hmf);
  apply frame_image_trace in Hfr; destruct Hfr as (-> & Hfsize & Hfr);
  tlog H;
  bstep H xu2 st12 Hsave5; destruct xu2; pose proof Hsave5 as Hsaved;
  apply save_image_trace in Hsave5;
  destruct Hsave5 as (Hwrite & Hwcc & Hwlog);
  bstep H xu3 st13 Hunset; unfold unset_current_config, put_current_config in Hunset;
  inversion Hunset; subst st13; clear Hunset;
  apply logging_trace in H; destruct H as (_ & Hlastfs & Hlastcc & Hlastlog);
  cbn [fs log current_config] in Hlastfs, Hlastcc, Hlastlog.
  all: match type of Hget with
       | current_config ?x = _ =>
           assert (Esel : current_config x =
                          Some (selected_config json_config (PIL.convert PIL.RGBA original0)))
             by (clear Hget; to_initial; reflexivity)
       end;
       rewrite Esel in Hget; injection Hget as <-.
  all: match type of Hconf with
       | current_config ?x = _ =>
           assert (Econf : current_config x =
                           Some (selected_config json_config (PIL.convert PIL.RGBA original0)))
             by (clear Hconf; to_initial; reflexivity)
       end;
       rewrite Econf in Hconf; injection Hconf as <-.
  all: assert (Hscaled : forall st,
                  current_config st =
                  Some (selected_config json_config (PIL.convert PIL.RGBA original0)) ->
                  scale_image resample cropped (PIL.convert PIL.RGBA frame0) st
                  = (Ok scaled, st))
         by (intros st Hst; apply Hscale; rewrite Hst; symmetry; to_initial; reflexivity).
  all: initial_in Hopen; initial_in Hframe.
  all: rewrite convert_size in Hpsize.
  all: rewrite convert_same in Hwrite by (now rewrite final_image_of_mode).
  all: exists original0, frame0, cropped, scaled, padded, framed.
  all: split; [exact Hopen |]; split; [exact Hnsq |]; split; [exact Hframe |];
       split; [exact Hcrop |]; split; [exact Hscaled |]; split; [exact Hpad |];
       split; [exact Hfr |]; split; [exact Hpsize |]; split; [now rewrite Hfsize |];
       split; [unfold saved_name; to_initial; reflexivity |];
       split; [exact Hlastcc |];
       (split; [| eexists; eexists; exact Hsaved]).
  - discriminate.
  - intros _. to_initial. unfold enabled. rewrite ?Hdebug, ?app_nil_r, <- ?app_assoc.
    reflexivity.
Qed.

(** *** Rotation *)

(** C7: in a run of [process_file] that ends normally, let the composite
    be what [frame_image] returned for the padded image and the frame,
    themselves the results of [pad_image], [scale_image] and the crop
    of the stored source.  The image saved last is the quarter-turned
    composite when the source is portrait and [rotate-to-landscape] is
    set, and the composite itself, unchanged, in every other case; the
    quarter turn makes a W x H image H x W and keeps every pixel. *)
Theorem final_image_rotated_iff_portrait_and_flag (filename : string) (s s' : State) :
  process_file resample json_config config filename s = (Ok tt, s') ->
  exists original frame cropped scaled padded framed final rest,
    lookup (Py.join (cfg_input config) filename) (fs s) = Some original /\
    lookup (cc_frame_path (selected_config json_config (PIL.convert PIL.RGBA original)))
      (store_at_frame config filename (PIL.convert PIL.RGBA original) (fs s))
      = Some frame /\
    PIL.crop (PIL.convert PIL.RGBA original)
      (crop_left (cc_crop (selected_config json_config (PIL.convert PIL.RGBA original))),
       crop_top (cc_crop (selected_config json_config (PIL.convert PIL.RGBA original))),
       PIL.width (PIL.convert PIL.RGBA original)
       - crop_right (cc_crop (selected_config json_config (PIL.convert PIL.RGBA original))),
       PIL.height (PIL.convert PIL.RGBA original)
       - crop_bottom (cc_crop (selected_config json_config (PIL.convert PIL.RGBA original))))
      = Ok cropped /\
    (forall st,
        current_config st = Some (selected_config json_config (PIL.convert PIL.RGBA original)) ->
        scale_image resample cropped (PIL.convert PIL.RGBA frame) st = (Ok scaled, st)) /\
    (forall st, pad_image config scaled (PIL.convert PIL.RGBA frame) st = (Ok padded, st)) /\
    (forall st, frame_image padded (PIL.convert PIL.RGBA frame) st = (Ok framed, st)) /\
    fs s' =
      (saved_name config filename (if cfg_debug config then "_4_framed" else "_framed"), final)
      :: rest /\
    (rotate_to_landscape json_config = true /\ PIL.width original < PIL.height original ->
     final = rotate_image framed) /\
    (~ (rotate_to_landscape json_config = true /\ PIL.width original < PIL.height original) ->
     final = framed) /\
    PIL.size (rotate_image framed) = (PIL.height framed, PIL.width framed) /\
    PIL.mode (rotate_image framed) = PIL.mode framed /\
    forall x y, 0 <= x < PIL.width framed -> 0 <= y < PIL.height framed ->
      PIL.inside (rotate_image framed) y (PIL.width framed - 1 - x) = true /\
      PIL.pixel (rotate_image framed) y (PIL.width framed - 1 - x) = PIL.pixel framed x y.
Proof.
  intros H. apply process_file_trace in H.
  destruct H as (original0 & frame0 & cropped & scaled & padded & framed &
                 Hopen & _ & Hframe & Hcrop & Hscale & Hpad & Hfr & _ & _ & Hfs & _).
  exists original0, frame0, cropped, scaled, padded, framed. do 2 eexists.
  split; [exact Hopen |]. split; [exact Hframe |]. split; [exact Hcrop |].
  split; [exact Hscale |]. split; [exact Hpad |]. split; [exact Hfr |].
  split; [exact Hfs |].
  assert (Hcond : rotate_to_landscape json_config
                  && String.eqb (image_orientation (PIL.convert PIL.RGBA original0)) "portrait"
                  = rotate_to_landscape json_config
                    && (PIL.width original0 <? PIL.height original0)).
  { now rewrite orientation_portrait, convert_width, convert_height. }
  unfold final_image_of. rewrite Hcond.
  split; [| split].
  - intros [-> Hlt]. apply Z.ltb_lt in Hlt. now rewrite Hlt.
  - intros Hn. destruct (rotate_to_landscape json_config); [| reflexivity].
    destruct (Z.ltb_spec (PIL.width original0) (PIL.height original0)); [| reflexivity].
    exfalso. apply Hn. now split.
  - split; [reflexivity |]. split; [reflexivity |].
    intros x y Hx Hy. unfold rotate_image, PIL.rotate_90_expand, PIL.transpose_ROTATE_90, PIL.inside.
    cbn [PIL.width PIL.height PIL.pixel]. split.
    + rewrite !andb_true_iff, !Z.leb_le, !Z.ltb_lt. lia.
    + f_equal. lia.
Qed.

Lemma orientation_landscape (image : PIL.Image) :
  String.eqb (image_orientation image) "landscape" = (PIL.width image >? PIL.height image).
Proof.
  unfold image_orientation.
  destruct (PIL.width image >? PIL.height image); [reflexivity |].
  now destruct (PIL.width image <? PIL.height image).
Qed.

(** X5: the image a normal run saves last has exactly the size of the
    frame file of the source's orientation, the landscape frame for a
    source wider than high and the portrait frame otherwise, with the
    two sides exchanged when it was rotated; so with
    [rotate-to-landscape] set and frames of the orientation they are
    for, every final image is landscape. *)
Theorem final_image_has_frame_size (filename : string) (s s' : State) :
  process_file resample json_config config filename s = (Ok tt, s') ->
  exists original frame name final rest,
    lookup (Py.join (cfg_input config) filename) (fs s) = Some original /\
    lookup (if PIL.width original >? PIL.height original
            then land_frame_path json_config else port_frame_path json_config)
      (store_at_frame config filename (PIL.convert PIL.RGBA original) (fs s)) = Some frame /\
    fs s' = (name, final) :: rest /\
    PIL.size final =
      (if rotate_to_landscape json_config && (PIL.width original <? PIL.height original)
       then (PIL.height frame, PIL.width frame)
       else (PIL.width frame, PIL.height frame)) /\
    (rotate_to_landscape json_config = true ->
     (PIL.height original < PIL.width original -> PIL.height frame < PIL.width frame) ->
     (PIL.width original < PIL.height original -> PIL.width frame < PIL.height frame) ->
     image_orientation final = "landscape").
Proof.
  intros H. apply process_file_trace in H.
  destruct H as (original0 & frame0 & cropped & scaled & padded & framed &
                 Hopen & Hnsq & Hframe & _ & _ & _ & _ & _ & Hsize & Hfs & _).
  exists original0, frame0. do 3 eexists.
  split; [exact Hopen |].
  split.
  { unfold selected_config in Hframe.
    rewrite orientation_landscape, convert_width, convert_height in Hframe.
    now destruct (PIL.width original0 >? PIL.height original0). }
  split; [exact Hfs |].
  unfold PIL.size in Hsize. injection Hsize as Ew Eh.
  assert (Hfinal : PIL.size (final_image_of json_config (PIL.convert PIL.RGBA original0) framed) =
                   (if rotate_to_landscape json_config
                       && (PIL.width original0 <? PIL.height original0)
                    then (PIL.height frame0, PIL.width frame0)
                    else (PIL.width frame0, PIL.height frame0))).
  { unfold final_image_of. rewrite orientation_portrait, convert_width, convert_height.
    destruct (rotate_to_landscape json_config && (PIL.width original0 <? PIL.height original0));
      unfold PIL.size, rotate_image, PIL.rotate_90_expand, PIL.transpose_ROTATE_90;
      cbn [PIL.width PIL.height]; now rewrite Ew, Eh. }
  split; [exact Hfinal |].
  intros Hrot Hland Hport. rewrite Hrot in Hfinal. cbn [andb] in Hfinal.
  assert (Hne : PIL.width original0 <> PIL.height original0).
  { intros E. apply Hnsq. apply orientation_square.
    now rewrite convert_width, convert_height. }
  unfold image_orientation.
  destruct (Z.ltb_spec (PIL.width original0) (PIL.height original0)) as [L | L];
    pose proof (f_equal fst Hfinal) as Fw; pose proof (f_equal snd Hfinal) as Fh;
    cbn [fst snd PIL.size] in Fw, Fh; rewrite Fw, Fh.
  - specialize (Hport L).
    destruct (Z.gtb_spec (PIL.height frame0) (PIL.width frame0)); [reflexivity | lia].
  - specialize (Hland ltac:(lia)).
    destruct (Z.gtb_spec (PIL.width frame0) (PIL.height frame0)); [reflexivity | lia].
Qed.

(** *** The files of a debug run *)

Lemma append_inv_head (a x y : string) : (a ++ x = a ++ y)%string -> x = y.
Proof.
  induction a as [| c a IH]; cbn [String.append]; intros H; [exact H |].
  injection H as H. now apply IH.
Qed.

Lemma join_inj (d b1 b2 : string) :
  Py.startswith b1 "/" = Py.startswith b2 "/" -> Py.join d b1 = Py.join d b2 -> b1 = b2.
Proof.
  unfold Py.join. intros E. rewrite E.
  destruct (Py.startswith b2 "/"); [auto |].
  destruct (_ || _); intros H; apply append_inv_head in H; [exact H |].
  now apply (append_inv_head "/") in H.
Qed.

(** Two different postfixes give two different names. *)
Lemma saved_name_inj (stem p1 p2 : string) :
  Py.has_non_dot stem = true ->
  Py.join (cfg_output config) (stem ++ p1) = Py.join (cfg_output config) (stem ++ p2) ->
  p1 = p2.
Proof.
  intros Hdot H. apply join_inj in H.
  - now apply append_inv_head in H.
  - destruct stem as [| c stem]; [discriminate Hdot |].
    cbn [String.append Py.startswith].
    now destruct (stem ++ p1)%string, (stem ++ p2)%string.
Qed.

Lemma lookup_here (p : string) (im : PIL.Image) (rest : list (string * PIL.Image)) :
  lookup p ((p, im) :: rest) = Some im.
Proof. cbn [lookup]. now rewrite String.eqb_refl. Qed.

Lemma lookup_later (p q : string) (im : PIL.Image) (rest : list (string * PIL.Image)) :
  q <> p -> lookup p ((q, im) :: rest) = lookup p rest.
Proof. intros H. cbn [lookup]. apply String.eqb_neq in H. now rewrite H. Qed.

(** X6: in debug mode a normal run on [stem.jpg] leaves five files in
    the output directory, [stem_0_original.jpg] to
    [stem_4_framed.jpg]; the five names are different from each other,
    so no snapshot overwrites another, and each can be read back: the
    first is the source converted to RGB, the last has the size of the
    padded canvas, or that size with its sides exchanged. *)
Theorem debug_run_leaves_five_files (stem : string) (s s' : State) :
  cfg_debug config = true ->
  Py.rfind Py.sep stem = -1 -> Py.has_non_dot stem = true ->
  process_file resample json_config config (stem ++ ".jpg") s = (Ok tt, s') ->
  exists source cropped scaled padded final,
    lookup (Py.join (cfg_input config) (stem ++ ".jpg")) (fs s) = Some source /\
    NoDup [Py.join (cfg_output config) (stem ++ "_0_original.jpg");
           Py.join (cfg_output config) (stem ++ "_1_cropped.jpg");
           Py.join (cfg_output config) (stem ++ "_2_scaled.jpg");
           Py.join (cfg_output config) (stem ++ "_3_padded.jpg");
           Py.join (cfg_output config) (stem ++ "_4_framed.jpg")] /\
    lookup (Py.join (cfg_output config) (stem ++ "_0_original.jpg")) (fs s')
      = Some (PIL.convert PIL.RGB (PIL.convert PIL.RGBA source)) /\
    lookup (Py.join (cfg_output config) (stem ++ "_1_cropped.jpg")) (fs s') = Some cropped /\
    lookup (Py.join (cfg_output config) (stem ++ "_2_scaled.jpg")) (fs s') = Some scaled /\
    lookup (Py.join (cfg_output config) (stem ++ "_3_padded.jpg")) (fs s') = Some padded /\
    lookup (Py.join (cfg_output config) (stem ++ "_4_framed.jpg")) (fs s') = Some final /\
    PIL.size (PIL.convert PIL.RGB (PIL.convert PIL.RGBA source)) = PIL.size source /\
    (PIL.size final = PIL.size padded \/
     PIL.size final = (PIL.height padded, PIL.width padded)) /\
    List.length (fs s') = (5 + List.length (fs s))%nat.
Proof.
  intros Hdebug Hsep Hdot H. apply process_file_trace in H.
  destruct H as (original0 & frame0 & cropped & scaled & padded & framed &
                 Hopen & _ & _ & _ & _ & _ & _ & Hpsize & Hfsize & Hfs & _).
  rewrite Hdebug in Hfs. unfold saved_name in Hfs.
  rewrite (splitext_jpg stem Hsep Hdot) in Hfs. cbn [fst snd] in Hfs.
  assert (Hne : forall p1 p2 : string,
             p1 <> p2 ->
             Py.join (cfg_output config) (stem ++ p1) <>
             Py.join (cfg_output config) (stem ++ p2)).
  { intros p1 p2 Hp E. apply Hp. exact (saved_name_inj stem p1 p2 Hdot E). }
  exists original0, (PIL.convert PIL.RGB cropped), (PIL.convert PIL.RGB scaled),
    (PIL.convert PIL.RGB padded),
    (final_image_of json_config (PIL.convert PIL.RGBA original0) framed).
  split; [exact Hopen |].
  split.
  { repeat constructor; cbn [In]; intros Hin;
      repeat (destruct Hin as [Hin | Hin]; [revert Hin; apply Hne; discriminate |]);
      exact Hin. }
  rewrite Hfs. cbn [app].
  split; [| split; [| split; [| split; [| split]]]].
  - rewrite !lookup_later by (apply Hne; discriminate). apply lookup_here.
  - rewrite !lookup_later by (apply Hne; discriminate). apply lookup_here.
  - rewrite !lookup_later by (apply Hne; discriminate). apply lookup_here.
  - rewrite !lookup_later by (apply Hne; discriminate). apply lookup_here.
  - apply lookup_here.
  - split; [now rewrite !convert_size |].
    split; [| reflexivity].
    rewrite convert_size, convert_width, convert_height. unfold final_image_of.
    unfold PIL.size in Hfsize, Hpsize.
    injection Hfsize as Fw Fh. injection Hpsize as Pw Ph.
    destruct (_ && _); [right | left];
      unfold PIL.size, rotate_image, PIL.rotate_90_expand, PIL.transpose_ROTATE_90;
      cbn [PIL.width PIL.height]; now rewrite Fw, Fh, Pw, Ph.
Qed.

(** *** The whole batch *)

Lemma for_each_trace (names : list string) (s s' : State) :
  for_each names (process_entry resample json_config config) s = (Ok tt, s') ->
  exists written,
    fs s' = written ++ fs s /\
    List.length written =
      ((if cfg_debug config then 5 else 1) * List.length (jpg_entries names))%nat /\
    (cfg_debug config = false ->
     map fst written =
     rev (map (fun n => saved_name config n "_framed") (jpg_entries names))) /\
    (cfg_debug config = false ->
     log s' = log s ++ flat_map (status_log config) (jpg_entries names)) /\
    (current_config s = None -> current_config s' = None).
Proof.
  revert s. induction names as [| x rest IH]; intros s H; cbn [for_each] in H.
  - apply ret_inv in H. destruct H as (_ & ->). exists [].
    cbn. rewrite app_nil_r, Nat.mul_0_r. auto.
  - apply bind_ok_inv in H. destruct H as ([] & s1 & Hx & Hrest).
    destruct (IH s1 Hrest) as (w2 & Hfs2 & Hlen2 & Hnames2 & Hlog2 & Hcc2).
    unfold process_entry in Hx. unfold jpg_entries in *. cbn [filter].
    destruct (Py.endswith x ".jpg").
    + apply process_file_trace in Hx.
      destruct Hx as (original0 & frame0 & cropped & scaled & padded & framed &
                      _ & _ & _ & _ & _ & _ & _ & _ & _ & Hfs1 & Hcc1 & Hlog1 & _).
      assert (Hw1 : exists w1,
                 fs s1 = w1 ++ fs s /\
                 List.length w1 = (if cfg_debug config then 5 else 1)%nat /\
                 (cfg_debug config = false ->
                  map fst w1 = [saved_name config x "_framed"])).
      { eexists (_ :: _). split; [rewrite Hfs1; reflexivity |].
        destruct (cfg_debug config); split; try reflexivity; discriminate. }
      destruct Hw1 as (w1 & Hfs1' & Hlen1 & Hnames1).
      exists (w2 ++ w1). rewrite Hfs2, Hfs1'. split; [| split; [| split; [| split]]].
      * now rewrite <- app_assoc.
      * rewrite length_app, Hlen2, Hlen1. cbn [List.length].
        destruct (cfg_debug config); lia.
      * intros Hd. cbn [map rev]. rewrite map_app, (Hnames2 Hd), (Hnames1 Hd). reflexivity.
      * intros Hd. rewrite (Hlog2 Hd), (Hlog1 Hd). cbn [flat_map].
        now rewrite <- app_assoc.
      * intros _. now apply Hcc2.
    + apply ret_inv in Hx. destruct Hx as (_ & ->).
      exists w2. repeat split; assumption.
Qed.

(** X7: outside debug mode a batch that ends normally has written
    exactly one file for each [.jpg] entry of the listing, under the
    entry's name with [_framed] put before the extension, the latest
    first in the store; in debug mode it has written five for each. *)
Theorem batch_writes_one_file_per_entry (s s' : State) :
  process resample json_config config s = (Ok tt, s') ->
  exists names written,
    os_listdir (cfg_input config) s = (Ok names, s) /\
    fs s' = written ++ fs s /\
    List.length written =
      ((if cfg_debug config then 5 else 1) * List.length (jpg_entries names))%nat /\
    (cfg_debug config = false ->
     map fst written =
     rev (map (fun n => saved_name config n "_framed") (jpg_entries names))).
Proof.
  unfold process. intros H. apply bind_ok_inv in H. destruct H as (names & s1 & Hlist & H).
  assert (s1 = s) by (unfold os_listdir in Hlist; now inversion Hlist). subst s1.
  destruct (for_each_trace names s s' H) as (written & Hfs & Hlen & Hnames & _).
  now exists names, written.
Qed.

(** X8: outside debug mode the records a batch that ends normally
    adds to the log are the two status lines of each [.jpg] entry,
    processing and done, in the order of the listing, and nothing
    else. *)
Theorem batch_log_is_status_lines (s s' : State) :
  cfg_debug config = false ->
  process resample json_config config s = (Ok tt, s') ->
  exists names,
    os_listdir (cfg_input config) s = (Ok names, s) /\
    log s' = log s ++ flat_map (status_log config) (jpg_entries names).
Proof.
  unfold process. intros Hd H. apply bind_ok_inv in H. destruct H as (names & s1 & Hlist & H).
  assert (s1 = s) by (unfold os_listdir in Hlist; now inversion Hlist). subst s1.
  destruct (for_each_trace names s s' H) as (written & _ & _ & _ & Hlog & _).
  exists names. split; [exact Hlist | exact (Hlog Hd)].
Qed.

(** X9: the global [current_config] is set for the time of one image
    only: after an entry that was processed normally it is [None]
    again, whatever it was before, and a batch started with [None]
    ends normally with [None]. *)
Theorem current_config_cleared :
  (forall filename s s',
      process_file resample json_config config filename s = (Ok tt, s') ->
      current_config s' = None) /\
  (forall s s',
      current_config s = None ->
      process resample json_config config s = (Ok tt, s') ->
      current_config s' = None).
Proof.
  split.
  - intros filename s s' H. apply process_file_trace in H.
    destruct H as (original0 & frame0 & cropped & scaled & padded & framed &
                   _ & _ & _ & _ & _ & _ & _ & _ & _ & _ & Hcc & _).
    exact Hcc.
  - unfold process. intros s s' Hnone H.
    apply bind_ok_inv in H. destruct H as (names & s1 & Hlist & H).
    assert (s1 = s) by (unfold os_listdir in Hlist; now inversion Hlist). subst s1.
    destruct (for_each_trace names s s' H) as (written & _ & _ & _ & _ & Hcc).
    exact (Hcc Hnone).
Qed.

(** X10: a listing without an entry that ends in [.jpg], in lower
    case, is a batch with nothing to do: it ends normally, with the
    files, the log and the globals as they were. *)
Theorem batch_without_jpg_does_nothing (s : State) (names : list string) :
  os_listdir (cfg_input config) s = (Ok names, s) ->
  jpg_entries names = [] ->
  process resample json_config config s = (Ok tt, s).
Proof.
  intros Hlist Hnone. unfold process. rewrite (bind_ok _ _ _ _ _ Hlist).
  clear Hlist. induction names as [| x rest IH]; [reflexivity |].
  unfold jpg_entries in *. cbn [filter] in Hnone. cbn [for_each].
  unfold bind. unfold process_entry at 1.
  destruct (Py.endswith x ".jpg"); [discriminate Hnone |].
  unfold ret at 1. now apply IH.
Qed.

(** *** Entries that are processed *)

Lemma bind_ok_exists {A B} (m : M A) (k : A -> M B) (s s1 : State) (a : A) (b : B) :
  m s = (Ok a, s1) -> (exists s', k a s1 = (Ok b, s')) -> exists s', bind m k s = (Ok b, s').
Proof. intros Hm (s' & Hk). exists s'. now rewrite (bind_ok _ _ _ _ _ Hm). Qed.

Lemma logging_run lvl msg s :
  exists s1, logging config lvl msg s = (Ok tt, s1) /\
             fs s1 = fs s /\ current_config s1 = current_config s.
Proof.
  unfold logging. eexists. split; [reflexivity |]. now destruct (enabled config lvl).
Qed.

Lemma Image_open_run path s im :
  lookup path (fs s) = Some im -> Image_open path s = (Ok im, s).
Proof. intros H. unfold Image_open. now rewrite H. Qed.

Lemma set_current_config_run image s :
  PIL.width image <> PIL.height image ->
  exists s1, set_current_config json_config config image s = (Ok tt, s1) /\
             fs s1 = fs s /\
             current_config s1 = Some (selected_config json_config image).
Proof.
  intros Hne. unfold set_current_config, selected_config.
  rewrite orientation_landscape, orientation_portrait.
  destruct (Z.gtb_spec (PIL.width image) (PIL.height image)) as [G | G].
  - eexists. split; [reflexivity |]. split; reflexivity.
  - destruct (Z.ltb_spec (PIL.width image) (PIL.height image)) as [L | L]; [| lia].
    eexists. split; [reflexivity |]. split; reflexivity.
Qed.

Lemma get_current_config_run s cc :
  current_config s = Some cc -> get_current_config s = (Ok cc, s).
Proof. intros H. unfold get_current_config. now rewrite H. Qed.

Lemma crop_image_run image s cc :
  current_config s = Some cc ->
  0 <= PIL.width image - crop_left (cc_crop cc) - crop_right (cc_crop cc) ->
  0 <= PIL.height image - crop_top (cc_crop cc) - crop_bottom (cc_crop cc) ->
  exists out,
    crop_image image s = (Ok out, s) /\
    PIL.width out = PIL.width image - crop_left (cc_crop cc) - crop_right (cc_crop cc) /\
    PIL.height out = PIL.height image - crop_top (cc_crop cc) - crop_bottom (cc_crop cc).
Proof.
  intros Hcc Hw Hh. unfold crop_image, bind, get_current_config, lift, ret. rewrite Hcc.
  unfold PIL.crop.
  destruct (Z.ltb_spec (PIL.width image - crop_right (cc_crop cc)) (crop_left (cc_crop cc)));
    [lia |].
  destruct (Z.ltb_spec (PIL.height image - crop_bottom (cc_crop cc)) (crop_top (cc_crop cc)));
    [lia |].
  eexists. split; [reflexivity |]. cbn [PIL.width PIL.height]. lia.
Qed.

Lemma frame_image_run image frame s :
  PIL.mode frame = PIL.RGBA -> exists out, frame_image image frame s = (Ok out, s).
Proof.
  intros Hm. unfold frame_image, bind, lift, ret, PIL.paste. cbn [option_map]. rewrite Hm.
  eexists. reflexivity.
Qed.

(** [save_image] for a source named [stem.jpg] writes [stem<postfix>.jpg]. *)
Lemma save_image_run (stem postfix : string) (image : PIL.Image) (s : State) :
  Py.rfind Py.sep stem = -1 -> Py.has_non_dot stem = true ->
  Py.rfind Py.sep postfix = -1 ->
  exists s1,
    save_image config image (stem ++ ".jpg") postfix s = (Ok tt, s1) /\
    fs s1 = (saved_name config (stem ++ ".jpg") postfix, PIL.convert PIL.RGB image) :: fs s /\
    current_config s1 = current_config s.
Proof.
  intros Hsep Hdot Hpost.
  assert (Hsep2 : Py.rfind Py.sep (stem ++ postfix) = -1) by now rewrite rfind_app, Hpost.
  assert (Hdot2 : Py.has_non_dot (stem ++ postfix) = true) by now rewrite has_non_dot_app, Hdot.
  pose proof (splitext_jpg (stem ++ postfix) Hsep2 Hdot2) as Esplit.
  rewrite string_app_assoc in Esplit.
  assert (Hsep3 : Py.rfind Py.sep (stem ++ postfix ++ ".jpg") = -1).
  { rewrite <- string_app_assoc, rfind_app, Hsep2. reflexivity. }
  unfold save_image, output_filename_with_postfix, saved_name, bind, logging_debug,
    logging, ret, Image_save.
  rewrite (splitext_jpg stem Hsep Hdot). cbn [fst snd].
  rewrite (splitext_join_ext _ _ Hsep3), Esplit. cbn [snd].
  change (existsb (String.eqb (Py.lower ".jpg")) PIL.EXTENSION) with true. cbv iota.
  eexists. split; [reflexivity |]. cbn [fs current_config].
  now destruct (enabled config DEBUG).
Qed.

Ltac run_logging :=
  match goal with
  | |- exists s', bind (logging _ ?lvl ?msg) _ ?s = _ =>
      let s1 := fresh "s" in let R := fresh "R" in
      let F := fresh "F" in let C := fresh "C" in
      destruct (logging_run lvl msg s) as (s1 & R & F & C);
      apply (bind_ok_exists _ _ _ _ _ _ R); cbv beta
  end.

Ltac current_is cc :=
  match goal with
  | |- exists s', bind _ _ ?x = _ =>
      assert (Hcur : current_config x = Some cc) by (to_initial; reflexivity)
  end.

(** A snapshot step that succeeds: nothing outside debug mode, a
    [save_image] in debug mode. *)
Ltac run_snapshot Hsep Hdot :=
  first
    [ match goal with
      | |- exists s', bind (bind (save_image _ ?im (?stem ++ _)%string ?pf) _) _ ?s = _ =>
          let s1 := fresh "s" in let R := fresh "R" in
          let F := fresh "F" in let C := fresh "C" in
          destruct (save_image_run stem pf im s Hsep Hdot eq_refl) as (s1 & R & F & C);
          eapply bind_ok_exists;
          [ unfold bind at 1; rewrite R; reflexivity | cbv beta ]
      end
    | eapply bind_ok_exists; [unfold ret; reflexivity | cbv beta] ].

(** X11: sufficient conditions for an entry to be processed, the
    store standing for files that can be read and an output directory
    that can be written.  Take a source [stem.jpg] that is in the store
    and not square, whose stem is at most 240 characters long, so that
    the longest name written is one of at most 255; the frame of its
    orientation in the store; source and frame within the sizes Pillow
    takes (no side above 65500, at most 89478485 pixels); multiplier
    1.0; non-negative margins that leave a positive width and height; a
    frame of at least two pixels a side; and a cropped image that keeps
    at least two pixels on each side when it is fitted to the frame
    (2h <= w * fh and 2w <= h * fw).  Then the entry is processed to the
    end: [process_file] ends normally, in debug mode and outside it. *)
Theorem process_file_succeeds
  (stem : string) (s : State) (source frame0 : PIL.Image) (cc : CurrentConfig) :
  Py.rfind Py.sep stem = -1 -> Py.has_non_dot stem = true ->
  (String.length stem <= 240)%nat ->
  lookup (Py.join (cfg_input config) (stem ++ ".jpg")) (fs s) = Some source ->
  within_pillow_limits source ->
  PIL.width source <> PIL.height source ->
  cc = selected_config json_config (PIL.convert PIL.RGBA source) ->
  lookup (cc_frame_path cc)
    (store_at_frame config (stem ++ ".jpg") (PIL.convert PIL.RGBA source) (fs s))
    = Some frame0 ->
  within_pillow_limits frame0 ->
  float_of_number (cc_scale_factor cc) = Float64.one ->
  0 <= crop_left (cc_crop cc) -> 0 <= crop_top (cc_crop cc) ->
  0 <= crop_right (cc_crop cc) -> 0 <= crop_bottom (cc_crop cc) ->
  crop_left (cc_crop cc) + crop_right (cc_crop cc) < PIL.width source ->
  crop_top (cc_crop cc) + crop_bottom (cc_crop cc) < PIL.height source ->
  2 <= PIL.width frame0 -> 2 <= PIL.height frame0 ->
  2 * (PIL.height source - crop_top (cc_crop cc) - crop_bottom (cc_crop cc))
    <= (PIL.width source - crop_left (cc_crop cc) - crop_right (cc_crop cc))
       * PIL.height frame0 ->
  2 * (PIL.width source - crop_left (cc_crop cc) - crop_right (cc_crop cc))
    <= (PIL.height source - crop_top (cc_crop cc) - crop_bottom (cc_crop cc))
       * PIL.width frame0 ->
  exists s', process_file resample json_config config (stem ++ ".jpg") s = (Ok tt, s').
Proof.
  intros Hsep Hdot _ Hopen (Hsw & Hsh & _) Hnsq Ecc Hframe (Hfw1 & Hfh1 & _) Hone
    Hl Ht Hr Hb Hcw0 Hch0 Hfw0 Hfh0 Hasp1 Hasp2.
  assert (Hcw : 0 < PIL.width source - crop_left (cc_crop cc) - crop_right (cc_crop cc)
                < 2 ^ 31) by lia.
  assert (Hch : 0 < PIL.height source - crop_top (cc_crop cc) - crop_bottom (cc_crop cc)
                < 2 ^ 31) by lia.
  assert (Hfw : 2 <= PIL.width frame0 < 2 ^ 31) by lia.
  assert (Hfh : 2 <= PIL.height frame0 < 2 ^ 31) by lia.
  clear Hsw Hsh Hfw1 Hfh1 Hl Ht Hr Hb Hcw0 Hch0 Hfw0 Hfh0.
  unfold process_file, logging_info, logging_debug, store_at_frame in *. cbv zeta.
  revert Hframe. destruct (cfg_debug config) eqn:Hdebug; intros Hframe;
    cbn [app] in Hframe.
  all: run_logging.
  all: match goal with
       | E : fs ?x = fs _ |- _ =>
           rewrite <- E in Hopen;
           apply (bind_ok_exists _ _ _ _ _ _ (Image_open_run _ x _ Hopen))
       end; cbv beta.
  all: do 3 run_logging.
  all: match goal with
       | |- exists s', bind (set_current_config _ _ ?im) _ ?x = _ =>
           destruct (set_current_config_run im x
                       ltac:(now rewrite convert_width, convert_height))
             as (sset & Rset & Fset & Cset);
           apply (bind_ok_exists _ _ _ _ _ _ Rset); cbv beta
       end.
  all: rewrite <- Ecc in Cset.
  all: run_snapshot Hsep Hdot.
  all: eapply bind_ok_exists;
       [apply get_current_config_run; to_initial; reflexivity | cbv beta].
  all: eapply bind_ok_exists;
       [apply Image_open_run; to_initial; exact Hframe | cbv beta].
  all: do 3 run_logging.
  all: assert (Hw0 : 0 <= PIL.width (PIL.convert PIL.RGBA source)
                          - crop_left (cc_crop cc) - crop_right (cc_crop cc))
         by (rewrite convert_width; lia).
  all: assert (Hh0 : 0 <= PIL.height (PIL.convert PIL.RGBA source)
                          - crop_top (cc_crop cc) - crop_bottom (cc_crop cc))
         by (rewrite convert_height; lia).
  all: current_is cc.
  all: match goal with
       | |- exists s', bind (crop_image ?im) _ ?x = _ =>
           destruct (crop_image_run im x cc Hcur Hw0 Hh0)
             as (cropped & Rcrop & Wcrop & Hcrop)
       end;
       rewrite convert_width in Wcrop; rewrite convert_height in Hcrop;
       apply (bind_ok_exists _ _ _ _ _ _ Rcrop); cbv beta; clear Hcur.
  all: run_logging.
  all: run_snapshot Hsep Hdot.
  all: current_is cc.
  all: match goal with
       | |- exists s', bind (scale_image _ ?im ?fr) _ ?x = _ =>
           destruct (unit_scale_succeeds resample im fr x cc Hcur Hone)
             as (scaled & Rscale);
           rewrite ?convert_width, ?convert_height, ?Wcrop, ?Hcrop; try lia
       end;
       apply (bind_ok_exists _ _ _ _ _ _ Rscale); cbv beta; clear Hcur.
  all: run_logging.
  all: run_snapshot Hsep Hdot.
  all: match goal with
       | |- exists s', bind (pad_image _ ?im ?fr) _ ?x = _ =>
           destruct (pad_image_run config im fr x) as (padded & Rpad & _);
           rewrite ?convert_width, ?convert_height; try lia
       end;
       apply (bind_ok_exists _ _ _ _ _ _ Rpad); cbv beta.
  all: run_logging.
  all: run_snapshot Hsep Hdot.
  all: match goal with
       | |- exists s', bind (frame_image ?im ?fr) _ ?x = _ =>
           destruct (frame_image_run im fr x (convert_mode _ _)) as (framed & Rframe)
       end;
       apply (bind_ok_exists _ _ _ _ _ _ Rframe); cbv beta.
  all: run_logging.
  all: match goal with
       | |- exists s', bind (save_image _ ?im (?stem ++ _)%string ?pf) _ ?x = _ =>
           destruct (save_image_run stem pf im x Hsep Hdot eq_refl) as (slast & Rlast & _)
       end;
       apply (bind_ok_exists _ _ _ _ _ _ Rlast); cbv beta.
  all: eapply bind_ok_exists; [reflexivity | cbv beta].
  all: unfold logging; eexists; reflexivity.
Qed.

(** *** Output written into the input directory *)

Lemma name_in_join (dir name : string) :
  name <> ""%string -> Py.rfind Py.sep name = -1 ->
  name_in dir (Py.join dir name) = Some name.
Proof.
  intros Hne Hsep. rewrite (join_prefix dir name (no_sep_no_leading name Hsep)).
  unfold name_in. rewrite startswith_app, len_app.
  assert (Hslice : Py.slice (Py.join dir "" ++ name) (Py.len (Py.join dir ""))
                     (Py.len (Py.join dir "") + Py.len name) = name).
  { replace (Py.len (Py.join dir "")) with (Py.len (Py.join dir "") + 0) at 1 by lia.
    rewrite slice_app_skip by lia. unfold Py.slice, Py.len.
    rewrite Z.sub_0_r, Nat2Z.id. apply substring_all. }
  rewrite Hslice, Hsep.
  apply String.eqb_neq in Hne. now rewrite Hne.
Qed.

(** X12: with the output directory set to the input directory, the
    final image of [stem.jpg] is written into the input directory as
    [stem_framed.jpg], over whatever was stored under that name; it
    is then an entry of the directory's listing that ends in [.jpg],
    so the next run takes it for a source. *)
Theorem output_in_input_directory_is_a_source (stem : string) (s s' : State) :
  cfg_output config = cfg_input config -> cfg_debug config = false ->
  Py.rfind Py.sep stem = -1 -> Py.has_non_dot stem = true ->
  process_file resample json_config config (stem ++ ".jpg") s = (Ok tt, s') ->
  exists final names,
    lookup (Py.join (cfg_input config) (stem ++ "_framed.jpg")) (fs s') = Some final /\
    PIL.mode final = PIL.RGB /\
    os_listdir (cfg_input config) s' = (Ok names, s') /\
    In (stem ++ "_framed.jpg")%string names /\
    Py.endswith (stem ++ "_framed.jpg") ".jpg" = true.
Proof.
  intros Hdir Hdebug Hsep Hdot H.
  pose proof (frame_image_inv) as Hmode.
  apply process_file_trace in H.
  destruct H as (original0 & frame0 & cropped & scaled & padded & framed &
                 _ & _ & _ & _ & _ & _ & Hfr & _ & _ & Hfs & _).
  destruct (Hmode _ _ _ _ _ (Hfr s)) as (_ & Hrgb).
  rewrite Hdebug in Hfs. unfold saved_name in Hfs.
  rewrite (splitext_jpg stem Hsep Hdot), Hdir in Hfs. cbn [fst snd app] in Hfs.
  change ("_framed" ++ ".jpg")%string with "_framed.jpg" in Hfs.
  assert (Hsep2 : Py.rfind Py.sep (stem ++ "_framed.jpg") = -1) by now rewrite rfind_app.
  assert (Hne : (stem ++ "_framed.jpg")%string <> ""%string).
  { destruct stem; discriminate. }
  do 2 eexists. split; [rewrite Hfs; apply lookup_here |].
  split; [now rewrite final_image_of_mode |].
  split; [reflexivity |]. split.
  - apply nodup_In. rewrite Hfs. cbn [names_in].
    rewrite (name_in_join _ _ Hne Hsep2). now left.
  - change "_framed.jpg" with ("_framed" ++ ".jpg")%string.
    rewrite <- string_app_assoc. apply endswith_app.
Qed.

(** *** Names that cannot be saved *)

Lemma save_image_dots (dots postfix : string) (image : PIL.Image) (s : State) :
  Py.has_non_dot dots = false ->
  Py.rfind Py.extsep postfix = -1 -> Py.rfind Py.sep postfix = -1 ->
  exists s',
    save_image config image (dots ++ ".jpg") postfix s =
    (Raised (ValueError "unknown file extension: "), s') /\
    fs s' = fs s.
Proof.
  intros Hdots Hdot Hsep.
  destruct (splitext_dots dots "jpg" Hdots eq_refl eq_refl) as (_ & Esplit).
  change (dots ++ "." ++ "jpg")%string with (dots ++ ".jpg")%string in Esplit.
  assert (Erest : forall c, Py.rfind c postfix = -1 -> Py.rfind c "jpg" = -1 ->
                            Py.rfind c ("jpg" ++ postfix) = -1).
  { intros c H1 H2. now rewrite rfind_app, H1, H2. }
  destruct (splitext_dots dots ("jpg" ++ postfix) Hdots
              (Erest _ Hdot eq_refl) (Erest _ Hsep eq_refl)) as (Hs & Esplit2).
  assert (Ename : ((dots ++ ".jpg") ++ postfix ++ "" = dots ++ "." ++ "jpg" ++ postfix)%string).
  { rewrite string_app_nil_r. change ".jpg" with ("." ++ "jpg")%string.
    now rewrite <- !string_app_assoc. }
  unfold save_image, output_filename_with_postfix, bind, logging_debug, logging, ret, Image_save.
  rewrite Esplit. cbn [fst snd]. rewrite Ename.
  rewrite (splitext_join_ext _ _ Hs), Esplit2. cbn [snd Py.lower existsb PIL.EXTENSION].
  eexists. split; [reflexivity |]. now destruct (enabled config DEBUG).
Qed.

(** X13: a file whose name is [.jpg] after nothing but dots passes the
    [.jpg] test of the loop, but [os.path.splitext] gives such a name
    no extension: the postfix is appended after [.jpg], [save] has no
    format for the name and raises ValueError, and nothing is
    written.  So no run of [process_file] on such an entry ends
    normally. *)
Theorem dot_only_name_cannot_be_saved (dots : string) :
  Py.has_non_dot dots = false ->
  Py.endswith (dots ++ ".jpg") ".jpg" = true /\
  saved_name config (dots ++ ".jpg") "_framed" =
    Py.join (cfg_output config) (dots ++ ".jpg_framed") /\
  (forall image postfix s,
      Py.rfind Py.extsep postfix = -1 -> Py.rfind Py.sep postfix = -1 ->
      exists s',
        save_image config image (dots ++ ".jpg") postfix s =
        (Raised (ValueError "unknown file extension: "), s') /\
        fs s' = fs s) /\
  (forall s s',
      process_file resample json_config config (dots ++ ".jpg") s <> (Ok tt, s')).
Proof.
  intros Hdots. split; [apply endswith_app |]. split; [| split].
  - destruct (splitext_dots dots "jpg" Hdots eq_refl eq_refl) as (_ & Esplit).
    change (dots ++ "." ++ "jpg")%string with (dots ++ ".jpg")%string in Esplit.
    unfold saved_name. rewrite Esplit. cbn [fst snd]. f_equal.
    change ("_framed" ++ "")%string with "_framed".
    change ".jpg_framed" with (".jpg" ++ "_framed")%string.
    now rewrite string_app_assoc.
  - intros image postfix s. apply save_image_dots. exact Hdots.
  - intros s s' H. apply process_file_trace in H.
    destruct H as (original0 & frame0 & cropped & scaled & padded & framed &
                   _ & _ & _ & _ & _ & _ & _ & _ & _ & _ & _ & _ & st & st' & Hsave).
    destruct (save_image_dots dots (if cfg_debug config then "_4_framed" else "_framed")
                (final_image_of json_config (PIL.convert PIL.RGBA original0) framed) st Hdots)
      as (s2 & Hraise & _); try (now destruct (cfg_debug config)).
    rewrite Hraise in Hsave. discriminate Hsave.
Qed.

End Runs.

(** ** Where the program exits, and where it raises *)

Section Exits.

Variable resample : PIL.resampler.
Variable json_config : JsonConfig.
Variable config : Config.

Local Open Scope string_scope.
Local Open Scope Z_scope.
Local Open Scope list_scope.

Lemma bind_exit_inv {A B} (m : M A) (k : A -> M B) (s s' : State) (c : Z) :
  bind m k s = (SystemExit c, s') ->
  m s = (SystemExit c, s') \/
  exists a s1, m s = (Ok a, s1) /\ k a s1 = (SystemExit c, s').
Proof.
  unfold bind. destruct (m s) as [[a | c0 | e] s1]; intros H.
  - right. now exists a, s1.
  - left. now inversion H.
  - discriminate H.
Qed.

Lemma exit_only_bind {A B} Q (m : M A) (k : A -> M B) :
  exit_only_when Q m -> (forall a, exit_only_when Q (k a)) -> exit_only_when Q (bind m k).
Proof.
  intros Hm Hk s c s' H. apply bind_exit_inv in H.
  destruct H as [H | (a & s1 & _ & H)]; [exact (Hm _ _ _ H) | exact (Hk a _ _ _ H)].
Qed.

Lemma exit_only_ret {A} Q (a : A) : exit_only_when Q (ret a).
Proof. intros s c s' H. discriminate H. Qed.

Lemma exit_only_lift {A} Q (r : result A) :
  (forall c, r <> SystemExit c) -> exit_only_when Q (lift r).
Proof. intros Hr s c s' H. unfold lift in H. inversion H. now destruct (Hr c). Qed.

Lemma exit_only_logging Q lvl msg : exit_only_when Q (logging config lvl msg).
Proof. intros s c s' H. discriminate H. Qed.

Lemma exit_only_Image_open Q path : exit_only_when Q (Image_open path).
Proof.
  intros s c s' H. unfold Image_open in H. destruct (lookup path (fs s)); discriminate H.
Qed.

Lemma exit_only_Image_save Q im path : exit_only_when Q (Image_save im path).
Proof.
  intros s c s' H. unfold Image_save in H.
  destruct (existsb _ PIL.EXTENSION); discriminate H.
Qed.

Lemma exit_only_get_current_config Q : exit_only_when Q get_current_config.
Proof.
  intros s c s' H. unfold get_current_config in H.
  destruct (current_config s); discriminate H.
Qed.

Lemma exit_only_put_current_config Q cc : exit_only_when Q (put_current_config cc).
Proof. intros s c s' H. discriminate H. Qed.

Lemma exit_only_os_listdir Q dir : exit_only_when Q (os_listdir dir).
Proof. intros s c s' H. discriminate H. Qed.

(** The Pillow and float operations end with a value or an exception. *)
Lemma crop_no_exit im box c : PIL.crop im box <> SystemExit c.
Proof.
  unfold PIL.crop. destruct box as [[[x0 y0] x1] y1].
  destruct (_ <? _); [discriminate |]. destruct (_ <? _); discriminate.
Qed.

Lemma paste_no_exit dest src at_ mask c : PIL.paste dest src at_ mask <> SystemExit c.
Proof.
  unfold PIL.paste. destruct at_ as [x0 y0].
  destruct (option_map PIL.mode mask) as [[|] |]; discriminate.
Qed.

Lemma expand_no_exit im border fill c : PIL.expand im border fill <> SystemExit c.
Proof.
  unfold PIL.expand. destruct border as [[[l t] r] b].
  unfold PIL.getcolor. destruct (String.eqb fill "red");
    [| destruct (String.eqb fill "white"); [| discriminate]];
    unfold PIL.new; destruct (_ || _); try discriminate; apply paste_no_exit.
Qed.

Lemma resize_no_exit im w h c : PIL.resize resample im w h <> SystemExit c.
Proof.
  unfold PIL.resize. destruct (_ && _); [discriminate |]. destruct (_ || _); discriminate.
Qed.

Lemma int_of_float_no_exit x c : Float64.int_of_float x <> SystemExit c.
Proof. destruct x; discriminate. Qed.

Lemma scale_factor_no_exit k image frame c : scale_factor_of k image frame <> SystemExit c.
Proof.
  unfold scale_factor_of, Float64.int_truediv.
  destruct (_ =? 0); [discriminate |]. destruct (_ =? 0); discriminate.
Qed.

Create HintDb exits.

#[local] Hint Resolve exit_only_ret exit_only_logging exit_only_Image_open
  exit_only_Image_save exit_only_get_current_config exit_only_put_current_config
  exit_only_os_listdir : exits.

#[local] Hint Resolve crop_no_exit paste_no_exit expand_no_exit resize_no_exit
  int_of_float_no_exit scale_factor_no_exit : exits.

Ltac exits :=
  repeat first
    [ solve [auto with exits]
    | apply exit_only_lift; intros ?; solve [auto with exits]
    | match goal with
      | |- exit_only_when _ (if ?b then _ else _) => destruct b
      end
    | apply exit_only_bind; [| intros ?] ].

Lemma exit_only_save_image Q image filename postfix :
  exit_only_when Q (save_image config image filename postfix).
Proof. unfold save_image, output_filename_with_postfix, logging_debug. exits. Qed.

Lemma exit_only_crop_image Q image : exit_only_when Q (crop_image image).
Proof. unfold crop_image. exits. Qed.

Lemma exit_only_scale_image Q image frame : exit_only_when Q (scale_image resample image frame).
Proof. unfold scale_image. exits. Qed.

Lemma exit_only_pad_image Q image frame : exit_only_when Q (pad_image config image frame).
Proof. unfold pad_image. exits. Qed.

Lemma exit_only_frame_image Q image frame : exit_only_when Q (frame_image image frame).
Proof. unfold frame_image. exits. Qed.

#[local] Hint Resolve exit_only_save_image exit_only_crop_image exit_only_scale_image
  exit_only_pad_image exit_only_frame_image : exits.

(** [set_current_config] exits for a square image only. *)
Lemma set_current_config_exit image s c s' :
  set_current_config json_config config image s = (SystemExit c, s') ->
  c = 1 /\ PIL.width image = PIL.height image /\
  s' = mkState (fs s) (log s ++ [(ERROR, "Can't process square image")]) (current_config s).
Proof.
  unfold set_current_config, image_orientation.
  destruct (Z.gtb_spec (PIL.width image) (PIL.height image)) as [G | G];
    [intros H; discriminate H |].
  destruct (Z.ltb_spec (PIL.width image) (PIL.height image)) as [L | L];
    [intros H; discriminate H |].
  cbn [String.eqb Ascii.eqb Bool.eqb].
  unfold bind, logging_error, logging, exit, lift. cbn [enabled].
  intros H. inversion H. repeat split. lia.
Qed.

Lemma exit_only_set_current_config image :
  exit_only_when after_square_error (set_current_config json_config config image).
Proof.
  intros s c s' H. apply set_current_config_exit in H. destruct H as (-> & _ & ->).
  split; [reflexivity |]. cbn [log]. apply last_last.
Qed.

Lemma exit_only_process_file filename :
  exit_only_when after_square_error (process_file resample json_config config filename).
Proof.
  pose proof exit_only_set_current_config as Hset.
  unfold process_file, unset_current_config, logging_debug, logging_info.
  exits.
Qed.

Lemma for_each_exit_inv {A} (xs : list A) (body : A -> M unit) (s s' : State) (c : Z) :
  for_each xs body s = (SystemExit c, s') ->
  exists before x after s1,
    xs = before ++ x :: after /\
    for_each before body s = (Ok tt, s1) /\
    body x s1 = (SystemExit c, s').
Proof.
  revert s. induction xs as [| x rest IH]; intros s H; cbn [for_each] in H.
  - discriminate H.
  - apply bind_exit_inv in H. destruct H as [H | ([] & s1 & Hx & H)].
    + exists [], x, rest, s. repeat split. exact H.
    + destruct (IH s1 H) as (before & y & after & s2 & -> & Hb & Hy).
      exists (x :: before), y, after, s2. split; [reflexivity |]. split; [| exact Hy].
      cbn [for_each]. now rewrite (bind_ok _ _ _ _ _ Hx).
Qed.

(** X14: the batch calls [exit] for a square image and for nothing
    else.  A run of [process] that ends by [exit] has status 1; it
    went normally through the entries before one [.jpg] entry whose
    image, as stored at that time, is square, wrote nothing for that
    entry and logged the refusal last. *)
Theorem exit_only_for_square (s s' : State) (c : Z) :
  process resample json_config config s = (SystemExit c, s') ->
  c = 1 /\
  exists before filename after s1 im,
    os_listdir (cfg_input config) s = (Ok (before ++ filename :: after), s) /\
    for_each before (process_entry resample json_config config) s = (Ok tt, s1) /\
    Py.endswith filename ".jpg" = true /\
    lookup (Py.join (cfg_input config) filename) (fs s1) = Some im /\
    PIL.width im = PIL.height im /\
    fs s' = fs s1 /\
    last (log s') (INFO, "") = (ERROR, "Can't process square image").
Proof.
  unfold process. intros H. apply bind_exit_inv in H.
  destruct H as [H | (names & s0 & Hlist & H)]; [discriminate H |].
  assert (s0 = s) by (unfold os_listdir in Hlist; now inversion Hlist). subst s0.
  apply for_each_exit_inv in H.
  destruct H as (before & filename & after & s1 & -> & Hbefore & H).
  unfold process_entry in H.
  destruct (Py.endswith filename ".jpg") eqn:Hjpg; [| discriminate H].
  destruct (exit_only_process_file filename _ _ _ H) as (-> & Hlast).
  split; [reflexivity |].
  exists before, filename, after, s1.
  revert H. unfold process_file, logging_info, logging_debug. intros H.
  apply bind_exit_inv in H. destruct H as [H | ([] & t0 & H0 & H)]; [discriminate H |].
  apply logging_inv in H0. destruct H0 as (_ & Hfs0 & _).
  apply bind_exit_inv in H. destruct H as [H | (original & t1 & Hopen & H)].
  { unfold Image_open in H. destruct (lookup _ (fs t0)); discriminate H. }
  apply Image_open_inv in Hopen. destruct Hopen as (-> & Hopen).
  apply bind_exit_inv in H. destruct H as [H | ([] & t1 & H1 & H)]; [discriminate H |].
  apply logging_inv in H1. destruct H1 as (_ & Hfs1 & _).
  apply bind_exit_inv in H. destruct H as [H | ([] & t2 & H2 & H)]; [discriminate H |].
  apply logging_inv in H2. destruct H2 as (_ & Hfs2 & _).
  apply bind_exit_inv in H. destruct H as [H | ([] & t3 & H3 & H)]; [discriminate H |].
  apply logging_inv in H3. destruct H3 as (_ & Hfs3 & _).
  apply bind_exit_inv in H. destruct H as [H | ([] & t4 & _ & H)].
  - apply set_current_config_exit in H. destruct H as (_ & Hsq & ->).
    exists original. rewrite convert_width, convert_height in Hsq.
    split; [exact Hlist |]. split; [exact Hbefore |]. split; [exact Hjpg |].
    split; [now rewrite <- Hfs0 |]. split; [exact Hsq |].
    split; [cbn [fs]; congruence | exact Hlast].
  - exfalso. revert H.
    match goal with
    | |- ?m t4 = _ -> False =>
        assert (Hnever : exit_only_when (fun _ _ => False) m)
    end.
    { unfold unset_current_config. exits. }
    intros H. exact (Hnever _ _ _ H).
Qed.

(** X15: outside debug mode, when the frame file of the source's
    orientation is missing, the entry ends with FileNotFoundError for
    that path: nothing is written, the log has the processing line
    and no more, and [current_config] is left set to the parameters of
    that orientation. *)
Theorem missing_frame_raises (filename : string) (s : State) (im : PIL.Image) :
  cfg_debug config = false ->
  lookup (Py.join (cfg_input config) filename) (fs s) = Some im ->
  PIL.width im <> PIL.height im ->
  lookup (if PIL.width im >? PIL.height im
          then land_frame_path json_config else port_frame_path json_config) (fs s) = None ->
  process_file resample json_config config filename s =
  (Raised (FileNotFoundError (if PIL.width im >? PIL.height im
                              then land_frame_path json_config
                              else port_frame_path json_config)),
   mkState (fs s)
     (log s ++ [(INFO, "file " ++ Py.join (cfg_input config) filename
                         ++ " status: processing...")%string])
     (Some (selected_config json_config (PIL.convert PIL.RGBA im)))).
Proof.
  intros Hdebug Hopen Hnsq Hframe.
  unfold process_file.
  unfold bind at 1. unfold logging_info at 1. unfold logging at 1. cbn [enabled].
  unfold bind at 1. unfold Image_open at 1. cbn [fs]. rewrite Hopen.
  unfold logging_debug, logging. cbn [enabled]. rewrite Hdebug.
  unfold bind at 1. unfold bind at 1. unfold bind at 1.
  unfold bind at 1. unfold set_current_config, selected_config.
  rewrite !orientation_landscape, !orientation_portrait, convert_width, convert_height.
  destruct (Z.gtb_spec (PIL.width im) (PIL.height im)) as [G | G].
  - unfold put_current_config. unfold bind at 1. unfold ret at 1.
    unfold bind at 1. unfold get_current_config at 1. cbn [current_config].
    unfold bind at 1. unfold Image_open at 1. cbn [fs cc_frame_path].
    now rewrite Hframe.
  - destruct (Z.ltb_spec (PIL.width im) (PIL.height im)) as [L | L]; [| lia].
    unfold put_current_config. unfold bind at 1. unfold ret at 1.
    unfold bind at 1. unfold get_current_config at 1. cbn [current_config].
    unfold bind at 1. unfold Image_open at 1. cbn [fs cc_frame_path].
    now rewrite Hframe.
Qed.

Lemma for_each_raise {A} (before after : list A) (x : A) (body : A -> M unit)
      (s s1 s2 : State) (e : exn) :
  for_each before body s = (Ok tt, s1) -> body x s1 = (Raised e, s2) ->
  for_each (before ++ x :: after) body s = (Raised e, s2).
Proof.
  intros Hb Hx. rewrite (for_each_app _ _ _ _ _ Hb). cbn [for_each].
  unfold bind. now rewrite Hx.
Qed.

(** X16: an exception in one entry is caught nowhere: the batch ends
    with it, the interpreter's exit status is 1, the entries after it
    are not processed whatever they are, and what the entries before
    it wrote stays in the store. *)
Theorem exception_ends_batch
  (s s1 s2 : State) (before after : list string) (filename : string) (e : exn) :
  os_listdir (cfg_input config) s = (Ok (before ++ filename :: after), s) ->
  for_each before (process_entry resample json_config config) s = (Ok tt, s1) ->
  process_entry resample json_config config filename s1 = (Raised e, s2) ->
  process resample json_config config s = (Raised e, s2) /\
  exit_status (fst (process resample json_config config s)) = 1 /\
  Py.endswith filename ".jpg" = true /\
  exists written, fs s2 = written ++ fs s1.
Proof.
  intros Hlist Hbefore Hx.
  assert (Hrun : process resample json_config config s = (Raised e, s2)).
  { unfold process. rewrite (bind_ok _ _ _ _ _ Hlist).
    exact (for_each_raise before after filename _ s s1 s2 e Hbefore Hx). }
  split; [exact Hrun |]. split; [now rewrite Hrun |].
  unfold process_entry in Hx.
  destruct (Py.endswith filename ".jpg"); [| discriminate Hx].
  split; [reflexivity |].
  destruct (writes_rgb_process_file resample json_config config filename s1)
    as (written & Hfs & _).
  rewrite Hx in Hfs. now exists written.
Qed.

Lemma exit_only_weaken {A} (Q Q' : Z -> State -> Prop) (m : M A) :
  (forall c s, Q c s -> Q' c s) -> exit_only_when Q m -> exit_only_when Q' m.
Proof. intros HQ Hm s c s' H. apply HQ. exact (Hm s c s' H). Qed.

Lemma exit_only_for_each {A} Q (xs : list A) (body : A -> M unit) :
  (forall x, exit_only_when Q (body x)) -> exit_only_when Q (for_each xs body).
Proof.
  intros Hbody. induction xs as [| x rest IH]; cbn [for_each].
  - apply exit_only_ret.
  - apply exit_only_bind; [apply Hbody | intros _; exact IH].
Qed.

Lemma exit_only_process :
  exit_only_when (fun c _ => c = 1) (process resample json_config config).
Proof.
  unfold process. apply exit_only_bind; [apply exit_only_os_listdir | intros names].
  apply exit_only_for_each. intros filename. unfold process_entry.
  destruct (Py.endswith filename ".jpg"); [| apply exit_only_ret].
  apply (exit_only_weaken after_square_error); [now intros c s0 (-> & _) |].
  apply exit_only_process_file.
Qed.

(** X17: the exit status of the program is 0 or 1, whatever the
    directories and the files are, and it is 0 exactly when the main
    program runs to its end. *)
Theorem exit_status_is_0_or_1 (isdir : string -> bool) (s : State) :
  (exit_status (fst (main resample json_config config isdir s)) = 0 \/
   exit_status (fst (main resample json_config config isdir s)) = 1) /\
  (exit_status (fst (main resample json_config config isdir s)) = 0 <->
   fst (main resample json_config config isdir s) = Ok tt).
Proof.
  assert (Hexit : exit_only_when (fun c _ => c = 1)
                    (main resample json_config config isdir)).
  { unfold main, verify_input, logging_info, logging_error.
    pose proof exit_only_process as Hp.
    assert (Hexit1 : exit_only_when (fun c (_ : State) => c = 1) (exit (A := unit) 1)).
    { intros s0 c s' H. unfold exit, lift in H. now inversion H. }
    repeat first
      [ exact Hp | exact Hexit1 | apply exit_only_ret | apply exit_only_logging
      | match goal with
        | |- exit_only_when _ (if ?b then _ else _) => destruct b
        end
      | apply exit_only_bind; [| intros ?] ]. }
  destruct (main resample json_config config isdir s) as [[[] | c | e] s'] eqn:Hrun;
    cbn [fst exit_status].
  - split; [now left |]. split; reflexivity.
  - rewrite (Hexit s c s' Hrun). split; [now right |]. split; discriminate.
  - split; [now right |]. split; discriminate.
Qed.

End Exits.

(** ** The start of the program *)

Section StartupProperties.

Variable resample : PIL.resampler.
Variable json_config : JsonConfig.
Variable config : Config.
Variable isdir : string -> bool.

Local Open Scope string_scope.
Local Open Scope Z_scope.
Local Open Scope list_scope.

(** X18: when the input or the output directory does not exist, the
    program logs its start line and one error, which names the input
    directory when that one is missing and the output directory
    otherwise, and exits with status 1 before the batch: no file is
    read or written and no End line is logged. *)
Theorem main_missing_directory (s : State) :
  isdir (cfg_input config) = false \/ isdir (cfg_output config) = false ->
  main resample json_config config isdir s =
  (SystemExit 1,
   mkState (fs s)
     (log s ++
      [(INFO, "--- magnet-framer start ---");
       (ERROR, if isdir (cfg_input config)
               then ("Output directory " ++ cfg_output config ++ " does not exist")%string
               else ("Input directory " ++ cfg_input config ++ " does not exist")%string)])
     (current_config s)).
Proof.
  intros Hmissing.
  unfold main, verify_input, bind, logging_info, logging_error, logging, exit, lift, ret.
  cbn [enabled fs log current_config].
  destruct (isdir (cfg_input config)); cbn [negb fs log current_config].
  - destruct Hmissing as [H | H]; [discriminate H |]. rewrite H.
    cbn [negb fs log current_config]. now rewrite <- app_assoc.
  - now rewrite <- app_assoc.
Qed.

(** X19: the program ends normally only when both directories exist
    and the batch ended normally; the End line is then the last
    record of the log, and the files are those the batch left. *)
Theorem main_end_means_success (s s' : State) :
  main resample json_config config isdir s = (Ok tt, s') ->
  isdir (cfg_input config) = true /\ isdir (cfg_output config) = true /\
  last (log s') (INFO, "") = (INFO, "---  magnet-framer End  ---") /\
  exists s0 s1,
    fs s0 = fs s /\ current_config s0 = current_config s /\
    process resample json_config config s0 = (Ok tt, s1) /\ fs s' = fs s1.
Proof.
  unfold main, verify_input, logging_info, logging_error. intros H.
  apply bind_ok_inv in H. destruct H as ([] & s0 & Hstart & H).
  apply logging_inv in Hstart. destruct Hstart as (_ & Hfs0 & Hcc0).
  apply bind_ok_inv in H. destruct H as ([] & s1 & Hverify & H).
  apply bind_ok_inv in Hverify. destruct Hverify as ([] & t1 & Hin & Hout).
  destruct (isdir (cfg_input config)); cbn [negb] in Hin;
    [| apply bind_ok_inv in Hin; destruct Hin as (? & ? & _ & Hin); discriminate Hin].
  destruct (isdir (cfg_output config)); cbn [negb] in Hout;
    [| apply bind_ok_inv in Hout; destruct Hout as (? & ? & _ & Hout); discriminate Hout].
  apply ret_inv in Hin. destruct Hin as (_ & ->).
  apply ret_inv in Hout. destruct Hout as (_ & ->).
  apply bind_ok_inv in H. destruct H as ([] & s2 & Hprocess & H).
  unfold logging in H. cbn [enabled] in H. inversion H; subst s'. clear H.
  split; [reflexivity |]. split; [reflexivity |].
  split; [cbn [log]; apply last_last |].
  exists s0, s2. repeat split; assumption.
Qed.

End StartupProperties.

(** ** The further properties on sample inputs *)

Section FurtherSampleRuns.

Local Open Scope string_scope.
Local Open Scope Z_scope.
Local Open Scope list_scope.

Lemma pad_image_centre_crop_witness :
  exists out,
    pad_image (Sample.config false) (Sample.photo 7 8) (Sample.border_frame 4 6) Sample.initial
      = (Ok out, Sample.initial) /\
    PIL.size out = (4, 6) /\
    PIL.getpixel out 0 0 = PIL.getpixel (Sample.photo 7 8) 2 1.
Proof.
  destruct (pad_image_centre_crop (Sample.config false)
              (Sample.photo 7 8) (Sample.border_frame 4 6) Sample.initial
              ltac:(vm_compute; split; discriminate) ltac:(vm_compute; split; discriminate))
    as (out & cx & cy & Hrun & Hsize & -> & -> & _ & _ & _ & _ & Hpix).
  exists out. split; [exact Hrun |]. split; [exact Hsize |].
  apply (Hpix 0 0); vm_compute; split; (discriminate || reflexivity).
Defined.

Lemma crop_to_nothing_stops_scaling_witness :
  exists out,
    crop_image (Sample.photo 8 6) Album.narrow = (Ok out, Album.narrow) /\
    scale_image Sample.nearest out (Sample.border_frame 6 4) Album.narrow
      = (Raised ZeroDivisionError, Album.narrow).
Proof.
  destruct (crop_to_nothing_stops_scaling Sample.nearest (Sample.photo 8 6) Album.narrow
              (mkCurrentConfig "frames/land.png" (mkCrop 3 0 5 0) (Float Float64.one))
              eq_refl ltac:(vm_compute; discriminate) ltac:(vm_compute; discriminate)
              (or_introl eq_refl))
    as (out & Hrun & _ & Hscale).
  exists out. split; [exact Hrun | apply Hscale].
Defined.

Lemma scale_image_fitting_unchanged_witness :
  scale_image Sample.nearest (Sample.photo 1200 1500) (Sample.border_frame 1200 1800)
    unit_scale_state = (Ok (Sample.photo 1200 1500), unit_scale_state).
Proof.
  apply (scale_image_fitting_unchanged Sample.nearest
           (Sample.photo 1200 1500) (Sample.border_frame 1200 1800) unit_scale_state
           (mkCurrentConfig "frames/port.png" (mkCrop 0 0 0 0) (Float Float64.one))
           eq_refl eq_refl
           ltac:(cbn; lia) ltac:(cbn; lia) ltac:(cbn; lia) ltac:(cbn; lia)
           (or_introl eq_refl)).
Defined.

Lemma scale_then_pad_shows_whole_image_witness :
  exists scaled s' out lp tp rp bp,
    scale_image Sample.nearest (Sample.photo 1002 1503) (Sample.border_frame 1200 1800)
      unit_scale_state = (Ok scaled, s') /\
    pad_image (Sample.config false) scaled (Sample.border_frame 1200 1800) s' = (Ok out, s') /\
    PIL.size out = (1200, 1800) /\
    padding_of scaled (Sample.border_frame 1200 1800) = (lp, tp, rp, bp) /\
    0 <= lp <= rp /\ 0 <= tp <= bp /\ (lp + rp <= 1 \/ tp + bp <= 1).
Proof.
  assert (Hok : match fst (scale_image Sample.nearest (Sample.photo 1002 1503)
                             (Sample.border_frame 1200 1800) unit_scale_state) with
                | Ok _ => True
                | _ => False
                end) by (vm_compute; exact I).
  destruct (scale_image Sample.nearest (Sample.photo 1002 1503)
              (Sample.border_frame 1200 1800) unit_scale_state)
    as [[scaled | c | e] s'] eqn:Hrun; cbn [fst] in Hok; try contradiction.
  destruct (scale_then_pad_shows_whole_image Sample.nearest (Sample.config false)
              (Sample.photo 1002 1503) (Sample.border_frame 1200 1800) scaled
              unit_scale_state s'
              (mkCurrentConfig "frames/port.png" (mkCrop 0 0 0 0) (Float Float64.one))
              eq_refl eq_refl
              ltac:(cbn; lia) ltac:(cbn; lia) ltac:(cbn; lia) ltac:(cbn; lia) Hrun)
    as (out & lp & tp & rp & bp & Hpad & Hsize & Hpadding & Hl & _ & Ht & _ & Hone & _).
  exists scaled, s', out, lp, tp, rp, bp.
  split; [reflexivity |]. split; [exact Hpad |]. split; [exact Hsize |].
  split; [exact Hpadding |]. split; [exact Hl |]. split; [exact Ht | exact Hone].
Defined.

(** The run of one portrait entry outside debug mode, of one landscape
    entry in debug mode, and of a batch without a square image. *)
Let run_portrait : result unit * State :=
  process_file Sample.nearest Sample.json_config (Sample.config false) "b.jpg" Sample.initial.

Let run_debug : result unit * State :=
  process_file Sample.nearest Sample.json_config (Sample.config true) "a.jpg" Sample.initial.

Let run_album : result unit * State :=
  process Sample.nearest Sample.json_config (Sample.config false) Album.initial.

Lemma run_album_ok : run_album = (Ok tt, snd run_album).
Proof. apply outcome_and_state. vm_compute. reflexivity. Qed.

Lemma final_image_rotated_witness :
  exists padded framed final rest,
    frame_image padded (PIL.convert PIL.RGBA (Sample.border_frame 4 6)) Sample.initial
      = (Ok framed, Sample.initial) /\
    fs (snd run_portrait) = ("out/b_framed.jpg", final) :: rest /\
    final = rotate_image framed /\
    PIL.size final = (PIL.height framed, PIL.width framed).
Proof.
  destruct (final_image_rotated_iff_portrait_and_flag
              Sample.nearest Sample.json_config (Sample.config false) "b.jpg"
              Sample.initial (snd run_portrait) run_b_ok)
    as (original & frame & cropped & scaled & padded & framed & final & rest &
        Hopen & Hframe & _ & _ & _ & Hfr & Hfs & Hrot & _ & Hsize & _).
  vm_compute in Hopen. injection Hopen as <-.
  vm_compute in Hframe. injection Hframe as <-.
  exists padded, framed, final, rest.
  split; [exact (Hfr Sample.initial) |]. split; [exact Hfs |].
  assert (E : final = rotate_image framed).
  { apply Hrot. split; [reflexivity | cbn; lia]. }
  split; [exact E |]. rewrite E. exact Hsize.
Defined.

Lemma final_image_has_frame_size_witness :
  exists name final rest,
    fs (snd run_portrait) = (name, final) :: rest /\
    PIL.size final = (6, 4) /\ image_orientation final = "landscape".
Proof.
  destruct (final_image_has_frame_size Sample.nearest Sample.json_config (Sample.config false)
              "b.jpg" Sample.initial (snd run_portrait) run_b_ok)
    as (original & frame & name & final & rest & Hopen & Hframe & Hfs & Hsize & Hland).
  vm_compute in Hopen. injection Hopen as <-.
  vm_compute in Hframe. injection Hframe as <-.
  exists name, final, rest. split; [exact Hfs |]. split; [exact Hsize |].
  apply Hland; [reflexivity | cbn; lia | cbn; lia].
Defined.

Lemma debug_run_leaves_five_files_witness :
  exists first,
    lookup "out/a_0_original.jpg" (fs (snd run_debug)) = Some first /\
    NoDup ["out/a_0_original.jpg"; "out/a_1_cropped.jpg"; "out/a_2_scaled.jpg";
           "out/a_3_padded.jpg"; "out/a_4_framed.jpg"] /\
    List.length (fs (snd run_debug)) = 12%nat.
Proof.
  destruct (debug_run_leaves_five_files Sample.nearest Sample.json_config (Sample.config true)
              "a" Sample.initial (snd run_debug) eq_refl eq_refl eq_refl run_a_debug_ok)
    as (source & cropped & scaled & padded & final &
        _ & Hdistinct & H0 & _ & _ & _ & _ & _ & _ & Hlen).
  eexists. split; [exact H0 |]. split; [exact Hdistinct | exact Hlen].
Defined.

Lemma batch_writes_one_file_per_entry_witness :
  exists written,
    fs (snd run_album) = written ++ Album.files /\
    map fst written = ["out/b_framed.jpg"; "out/a_framed.jpg"].
Proof.
  destruct (batch_writes_one_file_per_entry Sample.nearest Sample.json_config
              (Sample.config false) Album.initial (snd run_album) run_album_ok)
    as (names & written & Hlist & Hfs & _ & Hnames).
  exists written. split; [exact Hfs |].
  rewrite (Hnames eq_refl).
  vm_compute in Hlist. injection Hlist as <-. reflexivity.
Defined.

Lemma batch_log_is_status_lines_witness :
  log (snd run_album) =
  [(INFO, "file in/a.jpg status: processing..."); (INFO, "file in/a.jpg status: done");
   (INFO, "file in/b.jpg status: processing..."); (INFO, "file in/b.jpg status: done")].
Proof.
  destruct (batch_log_is_status_lines Sample.nearest Sample.json_config
              (Sample.config false) Album.initial (snd run_album) eq_refl run_album_ok)
    as (names & Hlist & Hlog).
  rewrite Hlog. vm_compute in Hlist. injection Hlist as <-. reflexivity.
Defined.

Lemma current_config_cleared_witness :
  current_config (snd run_portrait) = None /\ current_config (snd run_album) = None.
Proof.
  destruct (current_config_cleared Sample.nearest Sample.json_config (Sample.config false))
    as (Hfile & Hbatch).
  split.
  - exact (Hfile "b.jpg" Sample.initial (snd run_portrait) run_b_ok).
  - exact (Hbatch Album.initial (snd run_album) eq_refl run_album_ok).
Defined.

Lemma batch_without_jpg_does_nothing_witness :
  process Sample.nearest Sample.json_config (Sample.config false) Album.upper_case
  = (Ok tt, Album.upper_case).
Proof.
  apply (batch_without_jpg_does_nothing Sample.nearest Sample.json_config (Sample.config false)
           Album.upper_case ["A.JPG"; "notes.txt"]).
  - vm_compute. reflexivity.
  - reflexivity.
Defined.

Lemma exit_only_for_square_witness :
  exists filename im,
    Py.endswith filename ".jpg" = true /\ PIL.width im = PIL.height im /\
    exit_status (fst (process Sample.nearest Sample.json_config (Sample.config false)
                        Sample.initial)) = 1.
Proof.
  destruct (exit_only_for_square Sample.nearest Sample.json_config (Sample.config false)
              Sample.initial
              (snd (process Sample.nearest Sample.json_config (Sample.config false)
                      Sample.initial))
              1 ltac:(apply outcome_and_state; vm_compute; reflexivity))
    as (_ & before & filename & after & s1 & im & _ & _ & Hjpg & _ & Hsq & _).
  exists filename, im. split; [exact Hjpg |]. split; [exact Hsq |].
  vm_compute. reflexivity.
Defined.

Lemma missing_frame_raises_witness :
  fst (process_file Sample.nearest Sample.json_config (Sample.config false) "a.jpg"
         Album.frameless) = Raised (FileNotFoundError "frames/land.png") /\
  fs (snd (process_file Sample.nearest Sample.json_config (Sample.config false) "a.jpg"
             Album.frameless)) = fs Album.frameless.
Proof.
  rewrite (missing_frame_raises Sample.nearest Sample.json_config (Sample.config false)
             "a.jpg" Album.frameless (Sample.photo 8 6)
             eq_refl eq_refl ltac:(vm_compute; discriminate) eq_refl).
  split; reflexivity.
Defined.

Lemma main_missing_directory_witness :
  fst (main Sample.nearest Sample.json_config (Sample.config false) (fun _ => false)
         Album.initial) = SystemExit 1.
Proof.
  rewrite (main_missing_directory Sample.nearest Sample.json_config (Sample.config false)
             (fun _ => false) Album.initial (or_introl eq_refl)).
  reflexivity.
Defined.

Lemma main_end_means_success_witness :
  last (log (snd (main Sample.nearest Sample.json_config (Sample.config false)
                    (fun _ => true) Album.initial))) (INFO, "")
  = (INFO, "---  magnet-framer End  ---").
Proof.
  destruct (main_end_means_success Sample.nearest Sample.json_config (Sample.config false)
              (fun _ => true) Album.initial
              (snd (main Sample.nearest Sample.json_config (Sample.config false)
                      (fun _ => true) Album.initial))
              ltac:(apply outcome_and_state; vm_compute; reflexivity))
    as (_ & _ & Hlast & _).
  exact Hlast.
Defined.

Lemma dot_only_name_cannot_be_saved_witness :
  Py.endswith ".jpg" ".jpg" = true /\
  saved_name (Sample.config false) ".jpg" "_framed" = "out/.jpg_framed" /\
  forall s s',
    process_file Sample.nearest Sample.json_config (Sample.config false) ".jpg" s
    <> (Ok tt, s').
Proof.
  destruct (dot_only_name_cannot_be_saved Sample.nearest Sample.json_config
              (Sample.config false) "" eq_refl)
    as (Hjpg & Hname & _ & Hnever).
  split; [exact Hjpg |]. split; [exact Hname | exact Hnever].
Defined.

Lemma process_file_succeeds_witness :
  exists s',
    process_file Sample.nearest Sample.json_config (Sample.config true) "b.jpg" Sample.initial
    = (Ok tt, s').
Proof.
  apply (process_file_succeeds Sample.nearest Sample.json_config (Sample.config true)
           "b" Sample.initial (Sample.photo 6 8) (Sample.border_frame 4 6)
           (mkCurrentConfig "frames/port.png" (mkCrop 1 0 1 0) (Float Float64.one))
           eq_refl eq_refl ltac:(cbn; lia) eq_refl
           ltac:(vm_compute; repeat split; discriminate)
           ltac:(vm_compute; discriminate) eq_refl eq_refl
           ltac:(vm_compute; repeat split; discriminate)
           eq_refl
           ltac:(vm_compute; discriminate) ltac:(vm_compute; discriminate)
           ltac:(vm_compute; discriminate) ltac:(vm_compute; discriminate)
           ltac:(vm_compute; reflexivity) ltac:(vm_compute; reflexivity)
           ltac:(vm_compute; discriminate) ltac:(vm_compute; discriminate)
           ltac:(vm_compute; discriminate) ltac:(vm_compute; discriminate)).
Defined.

Lemma output_in_input_directory_is_a_source_witness :
  exists final names,
    lookup "in/b_framed.jpg"
      (fs (snd (process_file Sample.nearest Sample.json_config Album.in_place "b.jpg"
                  Sample.initial))) = Some final /\
    os_listdir "in"
      (snd (process_file Sample.nearest Sample.json_config Album.in_place "b.jpg"
              Sample.initial)) =
    (Ok names,
     snd (process_file Sample.nearest Sample.json_config Album.in_place "b.jpg"
            Sample.initial)) /\
    In "b_framed.jpg" names.
Proof.
  destruct (output_in_input_directory_is_a_source Sample.nearest Sample.json_config
              Album.in_place "b" Sample.initial
              (snd (process_file Sample.nearest Sample.json_config Album.in_place "b.jpg"
                      Sample.initial))
              eq_refl eq_refl eq_refl eq_refl
              ltac:(apply outcome_and_state; vm_compute; reflexivity))
    as (final & names & Hlookup & _ & Hlist & Hin & _).
  exists final, names. split; [exact Hlookup |]. split; [exact Hlist | exact Hin].
Defined.

Lemma exception_ends_batch_witness :
  process Sample.nearest Sample.json_config (Sample.config false) Album.frameless =
  (Raised (FileNotFoundError "frames/land.png"),
   snd (process_entry Sample.nearest Sample.json_config (Sample.config false) "a.jpg"
          Album.frameless)).
Proof.
  apply (exception_ends_batch Sample.nearest Sample.json_config (Sample.config false)
           Album.frameless Album.frameless
           (snd (process_entry Sample.nearest Sample.json_config (Sample.config false) "a.jpg"
                   Album.frameless))
           [] [] "a.jpg" (FileNotFoundError "frames/land.png")).
  - vm_compute. reflexivity.
  - reflexivity.
  - apply outcome_and_state. vm_compute. reflexivity.
Defined.

Lemma exit_status_is_0_or_1_witness :
  exit_status (fst (main Sample.nearest Sample.json_config (Sample.config false)
                      (fun _ => true) Album.initial)) = 0.
Proof.
  apply (proj2 (exit_status_is_0_or_1 Sample.nearest Sample.json_config (Sample.config false)
                  (fun _ => true) Album.initial)).
  vm_compute. reflexivity.
Defined.

Lemma same_aspect_fills_frame_witness :
  exists out,
    scale_image Sample.nearest (Sample.photo 1002 1503) (Sample.border_frame 1200 1800)
      unit_scale_state = (Ok out, unit_scale_state) /\
    1199 <= PIL.width out <= 1200 /\ 1799 <= PIL.height out <= 1800.
Proof.
  destruct (same_aspect_fills_frame Sample.nearest
              (Sample.photo 1002 1503) (Sample.border_frame 1200 1800) unit_scale_state
              (mkCurrentConfig "frames/port.png" (mkCrop 0 0 0 0) (Float Float64.one))
              eq_refl eq_refl
              ltac:(cbn; lia) ltac:(cbn; lia) ltac:(cbn; lia) ltac:(cbn; lia) eq_refl)
    as (out & Hrun & Hw & Hh).
  exists out. split; [exact Hrun |]. split; [exact Hw | exact Hh].
Defined.

Lemma pad_then_frame_pixels_witness :
  exists padded out,
    pad_image (Sample.config false) (Sample.photo 3 6) (Sample.border_frame 4 7) Sample.initial
      = (Ok padded, Sample.initial) /\
    frame_image padded (Sample.border_frame 4 7) Sample.initial = (Ok out, Sample.initial) /\
    PIL.getpixel out 0 0 = [0; 0; 200] /\
    PIL.getpixel out 1 1 = [1; 1; 2].
Proof.
  destruct (pad_then_frame_pixels (Sample.config false)
              (Sample.photo 3 6) (Sample.border_frame 4 7) Sample.initial
              eq_refl ltac:(vm_compute; discriminate) ltac:(vm_compute; discriminate))
    as (padded & out & Hpad & Hrun & _ & _ & Hpix).
  exists padded, out. split; [exact Hpad |]. split; [exact Hrun |]. split.
  - refine (proj1 (Hpix 0 0 _ _ _) eq_refl); vm_compute; repeat split; discriminate.
  - refine (proj2 (Hpix 1 1 _ _ _) eq_refl _); vm_compute; repeat split; discriminate.
Defined.

End FurtherSampleRuns.
